(** * Retrieval and ranking core of the personal knowledge assistant

    A shallow embedding of [vector_db/faiss.py] (class [FAISSHNSWStore]),
    [rag/retriever.py] (class [Retriever]),
    [chunking/chunking_pipeline.py] (class [HybridChunker]),
    [utils/faiss_utils.py] (class [FAISSUtils]),
    [chunking/sliding_window.py] (class [SlidingWindowChunker]),
    [rag/query_cleaner.py] (class [QueryCleaner]),
    [rag/query_processor.py] (class [QueryProcessor]),
    [ingestion/cleaner.py] (class [TextCleaner]) and
    [utils/document_processor.py].

    Conventions of the embedding:
    - Python [int] is [Z]; Python and numpy floats are exact rationals [Q]
      (rounding, infinities and NaN are outside the model);
    - Python [dict] with string keys is [gmap string _]; Python [list] is
      [list];
    - a method of a mutable object takes the object and returns the outcome
      together with the object as the call leaves it, also when it raises;
    - an exception is the [Raise] outcome of [Py.result]. *)

From Stdlib Require Import ZArith QArith Lia Lqa List String Ascii Bool.
From stdpp Require Import base gmap strings list sorting.

Open Scope Z_scope.

(** ** Python values, exceptions, slices and sorting *)

Module Py.

(** Scalars found in metadata, filters and intent flags. *)
Inductive scalar :=
| SNone
| SBool (b : bool)
| SInt (z : Z)
| SStr (s : string).

(** A metadata value: a scalar, or a nested dictionary of scalars such as
    the [intent] sub-map. *)
Inductive value :=
| VScalar (x : scalar)
| VDict (d : gmap string scalar).

Definition int_of_bool (b : bool) : Z := if b then 1 else 0.

(** Python's [==] on scalars; [bool] is a subclass of [int], so
    [True == 1]. *)
Definition scalar_eqb (x y : scalar) : bool :=
  match x, y with
  | SNone, SNone => true
  | SBool a, SBool b => Bool.eqb a b
  | SBool a, SInt z => int_of_bool a =? z
  | SInt z, SBool a => z =? int_of_bool a
  | SInt a, SInt b => a =? b
  | SStr a, SStr b => String.eqb a b
  | _, _ => false
  end.

(** [v == x] for a metadata value [v] and a scalar [x]. *)
Definition py_eq (v : value) (x : scalar) : bool :=
  match v with
  | VScalar y => scalar_eqb y x
  | VDict _ => false
  end.

(** Truth value of a scalar, as [if x:] tests it. *)
Definition truthy (x : scalar) : bool :=
  match x with
  | SNone => false
  | SBool b => b
  | SInt z => negb (z =? 0)
  | SStr s => negb (String.eqb s "")
  end.

(** [m.get(key)]: [None] when the key is missing. *)
Definition dict_get (m : gmap string value) (key : string) : value :=
  default (VScalar SNone) (m !! key).

Definition scalar_get (m : gmap string scalar) (key : string) : scalar :=
  default SNone (m !! key).

(** [len(m)] of a dictionary. *)
Definition dict_len {A} (m : gmap string A) : Z := Z.of_nat (size m).

(** [if m:] for an optional dictionary: [None] and [{}] are false. *)
Definition dict_truthy {A} (m : option (gmap string A)) : bool :=
  match m with
  | None => false
  | Some m => negb (dict_len m =? 0)
  end.

Inductive exn :=
| AssertionError
| AttributeError
| IndexError
| RuntimeError
| ValueError
| ZeroDivisionError.

Inductive result (A : Type) :=
| Ok (a : A)
| Raise (e : exn).
Arguments Ok {A} a.
Arguments Raise {A} e.

#[global] Instance result_ret : MRet result := fun A a => Ok a.
#[global] Instance result_bind : MBind result := fun A B f m =>
  match m with
  | Ok a => f a
  | Raise e => Raise e
  end.

Definition is_ok {A} (r : result A) : bool :=
  match r with Ok _ => true | Raise _ => false end.

(** [for x in l: ...] collecting one result per element; stops at the
    first exception. *)
Fixpoint mapM {A B} (f : A -> result B) (l : list A) : result (list B) :=
  match l with
  | [] => Ok []
  | x :: l' => y ← f x; ys ← mapM f l'; Ok (y :: ys)
  end.

(** [a / b] on integers (true division). *)
Definition truediv (a b : Z) : result Q :=
  if b =? 0 then Raise ZeroDivisionError
  else Ok (inject_Z a / inject_Z b)%Q.

(** [l[:k]]: a negative [k] counts from the end. *)
Definition take_upto {A} (k : Z) (l : list A) : list A :=
  if 0 <=? k then take (Z.to_nat k) l
  else take (length l - Z.to_nat (- k)) l.

(** [l[i]]: a negative [i] counts from the end; out of range raises. *)
Definition index {A} (l : list A) (i : Z) : result A :=
  let j := if i <? 0 then i + Z.of_nat (length l) else i in
  if j <? 0 then Raise IndexError
  else match l !! Z.to_nat j with
       | Some x => Ok x
       | None => Raise IndexError
       end.

(** [enumerate(l, start)]. *)
Fixpoint enumerate {A} (start : Z) (l : list A) : list (Z * A) :=
  match l with
  | [] => []
  | x :: l' => (start, x) :: enumerate (start + 1) l'
  end.

(** Stable sorting: [x] is placed before the first [y] with [before x y],
    so elements that compare equal keep their input order. *)
Section Sort.
Context {A : Type} (before : A -> A -> bool).

Fixpoint insert_by (x : A) (l : list A) : list A :=
  match l with
  | [] => [x]
  | y :: l' => if before x y then x :: y :: l' else y :: insert_by x l'
  end.

Fixpoint sort_by (l : list A) : list A :=
  match l with
  | [] => []
  | x :: l' => insert_by x (sort_by l')
  end.
End Sort.

(** [sorted(l, key=key, reverse=True)]. *)
Definition sorted_desc {A} (key : A -> Q) (l : list A) : list A :=
  sort_by (fun x y => Qle_bool (key y) (key x)) l.

(** [sorted(l, key=key)]. *)
Definition sorted_asc {A} (key : A -> Q) (l : list A) : list A :=
  sort_by (fun x y => Qle_bool (key x) (key y)) l.

End Py.

Export Py.

Definition vec := list Q.

(** ** The faiss index behind the store

    [faiss.IndexHNSWFlat] is a native library object.  Its storage is
    modelled by the list of vectors it holds, in insertion order; the graph
    traversal of [index.search] is a parameter of the store (see
    [FAISSHNSWStore]). *)

Module Faiss.

Record IndexHNSWFlat := {
  d : Z;                  (* dimension D *)
  hnsw_M : Z;
  efConstruction : Z;
  efSearch : Z;
  xb : list vec           (* stored vectors; the id of a vector is its position *)
}.

Definition new (dimension M : Z) : IndexHNSWFlat :=
  {| d := dimension; hnsw_M := M; efConstruction := 40; efSearch := 16;
     xb := [] |}.

Definition ntotal (ix : IndexHNSWFlat) : Z := Z.of_nat (length (xb ix)).

Definition set_efConstruction (ef : Z) (ix : IndexHNSWFlat) : IndexHNSWFlat :=
  {| d := d ix; hnsw_M := hnsw_M ix; efConstruction := ef;
     efSearch := efSearch ix; xb := xb ix |}.

Definition set_efSearch (ef : Z) (ix : IndexHNSWFlat) : IndexHNSWFlat :=
  {| d := d ix; hnsw_M := hnsw_M ix; efConstruction := efConstruction ix;
     efSearch := ef; xb := xb ix |}.

Definition has_dimension (ix : IndexHNSWFlat) (v : vec) : bool :=
  Z.of_nat (length v) =? d ix.

(** Modelled from the spec: [index.add] of the faiss library, which is not
    part of the repository.  Every vector added to an index has exactly D
    components, violating this is a fatal error that rejects the batch;
    otherwise the vectors are appended and take the next ids. *)
Definition add (ix : IndexHNSWFlat) (x : list vec) : result IndexHNSWFlat :=
  if forallb (has_dimension ix) x then
    Ok {| d := d ix; hnsw_M := hnsw_M ix; efConstruction := efConstruction ix;
          efSearch := efSearch ix; xb := xb ix ++ x |}
  else Raise AssertionError.

(** Modelled from the spec: [index.reconstruct(i)] returns the stored
    vector of id [i] and fails on an unknown id. *)
Definition reconstruct (ix : IndexHNSWFlat) (i : Z) : result vec :=
  if i <? 0 then Raise RuntimeError
  else match xb ix !! Z.to_nat i with
       | Some v => Ok v
       | None => Raise RuntimeError
       end.

End Faiss.

(** ** Search hits *)

Module SearchHit.

(** The dictionary [search] and [search_with_metadata] build per hit. *)
Record t := {
  rank : Z;
  distance : Q;
  score : Q;
  text : string;
  metadata : gmap string value;
  search_time_ms : option Q     (* only [search] sets it *)
}.

End SearchHit.

(** [1.0 / (1.0 + distance)]. *)
Definition similarity_score (distance : Q) : Q := (1 / (1 + distance))%Q.

(** ** vector_db/faiss.py: class FAISSHNSWStore *)

Module FAISSHNSWStore.

Record t := {
  dimension : Z;
  M : Z;
  ef_construction : Z;
  ef_search : Z;
  index : Faiss.IndexHNSWFlat;
  metadata : list (gmap string value);
  chunk_texts : list string;
  is_trained : bool
}.

Definition set_index (ix : Faiss.IndexHNSWFlat) (self : t) : t :=
  {| dimension := dimension self; M := M self;
     ef_construction := ef_construction self; ef_search := ef_search self;
     index := ix; metadata := metadata self; chunk_texts := chunk_texts self;
     is_trained := is_trained self |}.

(** [__init__(dimension=768, M=32, ef_construction=200, ef_search=50)]. *)
Definition init (dimension M ef_construction ef_search : Z) : t :=
  {| dimension := dimension; M := M; ef_construction := ef_construction;
     ef_search := ef_search;
     index := Faiss.set_efSearch ef_search
                (Faiss.set_efConstruction ef_construction
                   (Faiss.new dimension M));
     metadata := []; chunk_texts := []; is_trained := false |}.

(** [add_embeddings(embeddings, metadata_list, chunk_texts)]: the outcome
    and the store as the call leaves it. *)
Definition add_embeddings (self : t) (embeddings : list vec)
    (metadata_list : list (gmap string value)) (texts : list string)
  : result unit * t :=
  if Z.of_nat (length embeddings) =? 0 then (Ok tt, self)
  else
    match Faiss.add (index self) embeddings with
    | Raise e => (Raise e, self)
    | Ok ix =>
        (Ok tt,
         {| dimension := dimension self; M := M self;
            ef_construction := ef_construction self;
            ef_search := ef_search self;
            index := ix;
            metadata := metadata self ++ metadata_list;
            chunk_texts := chunk_texts self ++ texts;
            is_trained := true |})
    end.

Section Search.
(** [index.search(query, k)] of faiss: the graph traversal, run on the
    index as it is at the time of the call (its [efSearch] included).  It
    yields the first row of distances and of labels, or fails. *)
Variable hnsw_search :
  Faiss.IndexHNSWFlat -> vec -> Z -> result (list Q * list Z).
(** [time.time() - start_time], in seconds. *)
Variable search_time : Q.

(** One hit of the result loop of [search]. *)
Definition search_hit (self : t) (i : Z) (distance : Q) (idx : Z)
  : result SearchHit.t :=
  let similarity := similarity_score distance in
  txt ← Py.index (chunk_texts self) idx;
  meta ← Py.index (metadata self) idx;
  Ok {| SearchHit.rank := i + 1;
        SearchHit.distance := distance;
        SearchHit.score := similarity;
        SearchHit.text := txt;
        SearchHit.metadata := meta;
        SearchHit.search_time_ms := Some (search_time * 1000)%Q |}.

(** [for i, (distance, idx) in enumerate(zip(distances[0], indices[0]))]. *)
Fixpoint search_results (self : t) (rows : list (Z * (Q * Z)))
  : result (list SearchHit.t) :=
  match rows with
  | [] => Ok []
  | (i, (distance, idx)) :: rows' =>
      if negb (idx =? -1) && (idx <? Z.of_nat (length (metadata self))) then
        h ← search_hit self i distance idx;
        hs ← search_results self rows';
        Ok (h :: hs)
      else search_results self rows'
  end.

(** [search(query_embedding, k=5)]. *)
Definition search (self : t) (query_embedding : vec) (k : Z)
  : result (list SearchHit.t) * t :=
  if Faiss.ntotal (index self) =? 0 then (Ok [], self)
  else
    let original_ef_search := Faiss.efSearch (index self) in
    let self1 :=
      set_index (Faiss.set_efSearch (Z.max (ef_search self) (k * 2))
                   (index self)) self in
    match hnsw_search (index self1) query_embedding k with
    | Raise e => (Raise e, self1)
    | Ok (distances, indices) =>
        let self2 :=
          set_index (Faiss.set_efSearch original_ef_search (index self1))
            self1 in
        (search_results self2 (Py.enumerate 0 (zip distances indices)),
         self2)
    end.

(** [search_with_threshold(query_embedding, k=5, max_distance=10.0)]. *)
Definition search_with_threshold (self : t) (query_embedding : vec)
    (k : Z) (max_distance : Q) : result (list SearchHit.t) * t :=
  match search self query_embedding k with
  | (Ok results, self') =>
      (Ok (filter (fun r => Qle_bool (SearchHit.distance r) max_distance)
             results), self')
  | (Raise e, self') => (Raise e, self')
  end.
End Search.


Section SearchWithMetadata.
Variable hnsw_search :
  Faiss.IndexHNSWFlat -> vec -> Z -> result (list Q * list Z).
Variable search_time : Q.
(** The floating-point square root inside [np.linalg.norm]. *)
Variable sqrt : Q -> Q.

(** [all(m.get(key) == val for key, val in metadata_filters.items())]. *)
Definition matches_all (metadata_filters : gmap string scalar)
    (m : gmap string value) : bool :=
  forallb (fun kv => py_eq (dict_get m kv.1) kv.2)
    (map_to_list metadata_filters).

(** [[i for i, m in enumerate(self.metadata) if all(...)]]. *)
Definition candidate_indices (self : t)
    (metadata_filters : gmap string scalar) : list Z :=
  fst <$> filter (fun im => matches_all metadata_filters im.2)
            (Py.enumerate 0 (metadata self)).

(** One row of [candidate_embeddings - query] under numpy broadcasting of
    a (m, D) array against a (1, D') query. *)
Definition broadcast_sub (c query : vec) : result vec :=
  if (length c =? length query)%nat then Ok (zip_with Qminus c query)
  else match query, c with
       | [y], _ => Ok ((fun x => x - y)%Q <$> c)
       | _, [x] => Ok ((fun y => x - y)%Q <$> query)
       | _, _ => Raise ValueError
       end.

(** [np.linalg.norm(row)]: the Euclidean norm of one row. *)
Definition norm (row : vec) : Q :=
  sqrt (foldr (fun x acc => x * x + acc)%Q 0%Q row).

(** [np.argsort(distances)]: positions ordered by ascending distance.
    Equal distances keep their position order here; numpy's default sort
    leaves their order open. *)
Definition argsort (distances : list Q) : list Z :=
  fst <$> sorted_asc snd (Py.enumerate 0 distances).

(** One hit of the result loop of [search_with_metadata]. *)
Definition metadata_hit (self : t) (candidates : list Z)
    (distances : list Q) (rank idx : Z) : result SearchHit.t :=
  true_idx ← Py.index candidates idx;
  distance ← Py.index distances idx;
  let similarity := similarity_score distance in
  txt ← Py.index (chunk_texts self) true_idx;
  meta ← Py.index (metadata self) true_idx;
  Ok {| SearchHit.rank := rank;
        SearchHit.distance := distance;
        SearchHit.score := similarity;
        SearchHit.text := txt;
        SearchHit.metadata := meta;
        SearchHit.search_time_ms := None |}.

(** The filtered branch of [search_with_metadata]. *)
Definition search_filtered (self : t) (query_embedding : vec)
    (metadata_filters : gmap string scalar) (k : Z)
  : result (list SearchHit.t) :=
  let candidates := candidate_indices self metadata_filters in
  match candidates with
  | [] => Ok []
  | _ :: _ =>
      candidate_embeddings ←
        mapM (Faiss.reconstruct (index self)) candidates;
      diffs ←
        mapM (fun c => broadcast_sub c query_embedding)
          candidate_embeddings;
      let distances := norm <$> diffs in
      let sorted_indices := Py.take_upto k (argsort distances) in
      mapM (fun ri => metadata_hit self candidates distances ri.1 ri.2)
        (Py.enumerate 1 sorted_indices)
  end.

(** [search_with_metadata(query_embedding, metadata_filters=None, k=5)]. *)
Definition search_with_metadata (self : t) (query_embedding : vec)
    (metadata_filters : option (gmap string scalar)) (k : Z)
  : result (list SearchHit.t) * t :=
  match metadata_filters with
  | None => search hnsw_search search_time self query_embedding k
  | Some filters => (search_filtered self query_embedding filters k, self)
  end.
End SearchWithMetadata.

Section BatchSearch.
(** [index.search(query_embeddings, k)] of faiss on several queries: one
    row of distances and one row of labels per query, or a failure. *)
Variable hnsw_search_batch :
  Faiss.IndexHNSWFlat -> list vec -> Z -> result (list (list Q) * list (list Z)).

(** One hit of the inner loop of [batch_search]; it has no
    [search_time_ms]. *)
Definition batch_hit (self : t) (i : Z) (distance : Q) (idx : Z)
  : result SearchHit.t :=
  let similarity := similarity_score distance in
  txt ← Py.index (chunk_texts self) idx;
  meta ← Py.index (metadata self) idx;
  Ok {| SearchHit.rank := i + 1;
        SearchHit.distance := distance;
        SearchHit.score := similarity;
        SearchHit.text := txt;
        SearchHit.metadata := meta;
        SearchHit.search_time_ms := None |}.

(** [for i, (distance, idx) in enumerate(zip(query_distances,
    query_indices))]. *)
Fixpoint query_results (self : t) (rows : list (Z * (Q * Z)))
  : result (list SearchHit.t) :=
  match rows with
  | [] => Ok []
  | (i, (distance, idx)) :: rows' =>
      if negb (idx =? -1) && (idx <? Z.of_nat (length (metadata self))) then
        h ← batch_hit self i distance idx;
        hs ← query_results self rows';
        Ok (h :: hs)
      else query_results self rows'
  end.

(** [batch_search(query_embeddings, k=5)]. *)
Definition batch_search (self : t) (query_embeddings : list vec) (k : Z)
  : result (list (list SearchHit.t)) * t :=
  if Faiss.ntotal (index self) =? 0 then (Ok [], self)
  else
    let original_ef_search := Faiss.efSearch (index self) in
    let self1 :=
      set_index (Faiss.set_efSearch (Z.max (ef_search self) (k * 2))
                   (index self)) self in
    match hnsw_search_batch (index self1) query_embeddings k with
    | Raise e => (Raise e, self1)
    | Ok (distances, indices) =>
        let self2 :=
          set_index (Faiss.set_efSearch original_ef_search (index self1))
            self1 in
        (mapM (fun row =>
                 query_results self2 (Py.enumerate 0 (zip row.1 row.2)))
           (zip distances indices),
         self2)
    end.
End BatchSearch.

(** A hit of [search_with_intent]: the hit of the base search with the key
    [intent_score] added. *)
Record intent_hit := {
  base_hit : SearchHit.t;
  intent_score_value : Z
}.

(** [meta.get("intent", {})] as the receiver of [.get(key)]. *)
Definition intent_flags (meta : gmap string value)
  : result (gmap string scalar) :=
  match meta !! "intent"%string with
  | None => Ok ∅
  | Some (VDict flags) => Ok flags
  | Some (VScalar _) => Raise AttributeError
  end.

(** The local function [intent_score(meta, intent)] of
    [search_with_intent]; [intent.items()] fails on [None]. *)
Definition intent_score (meta : gmap string value)
    (intent : option (gmap string scalar)) : result Z :=
  match intent with
  | None => Raise AttributeError
  | Some intent =>
      foldl (fun acc kv =>
               score ← acc;
               if truthy kv.2 then
                 flags ← intent_flags meta;
                 if truthy (scalar_get flags kv.1) then Ok (score + 1)
                 else Ok score
               else Ok score)
            (Ok 0) (map_to_list intent)
  end.

(** [(a1, b1) <= (a2, b2)] on the sort keys [(intent_score, score)]. *)
Definition key_le (x y : Z * Q) : bool :=
  (x.1 <? y.1) || ((x.1 =? y.1) && Qle_bool x.2 y.2).

Definition intent_key (r : intent_hit) : Z * Q :=
  (intent_score_value r, SearchHit.score (base_hit r)).

Section SearchWithIntent.
Variable hnsw_search :
  Faiss.IndexHNSWFlat -> vec -> Z -> result (list Q * list Z).
Variable search_time : Q.

(** [search_with_intent(query_embedding, query_intent, k=5)]. *)
Definition search_with_intent (self : t) (query_embedding : vec)
    (query_intent : option (gmap string scalar)) (k : Z)
  : result (list intent_hit) * t :=
  match search hnsw_search search_time self query_embedding (k * 2) with
  | (Raise e, self') => (Raise e, self')
  | (Ok base_results, self') =>
      (scored_results ←
         mapM (fun res =>
                 s ← intent_score (SearchHit.metadata res) query_intent;
                 Ok {| base_hit := res; intent_score_value := s |})
           base_results;
       Ok (Py.take_upto k
             (sort_by (fun x y => key_le (intent_key y) (intent_key x))
                scored_results)),
       self')
  end.

(** The loop of [find_similar_by_id]: the position of the first record
    whose [chunk_id] equals the one asked for. *)
Fixpoint find_target (chunk_id : scalar) (rows : list (Z * gmap string value))
  : option Z :=
  match rows with
  | [] => None
  | (i, m) :: rows' =>
      if py_eq (dict_get m "chunk_id") chunk_id then Some i
      else find_target chunk_id rows'
  end.

(** [find_similar_by_id(chunk_id, k=5)]. *)
Definition find_similar_by_id (self : t) (chunk_id : scalar) (k : Z)
  : result (list SearchHit.t) * t :=
  match find_target chunk_id (Py.enumerate 0 (metadata self)) with
  | None => (Ok [], self)
  | Some target_idx =>
      match Faiss.reconstruct (index self) target_idx with
      | Raise e => (Raise e, self)
      | Ok target_embedding =>
          search hnsw_search search_time self target_embedding k
      end
  end.
End SearchWithIntent.

End FAISSHNSWStore.

(** ** rag/retriever.py: class Retriever *)

Module Retriever.

(** The [query_data] dictionary of [QueryProcessor]; [.get(key, None)]
    reads a missing key as [None]. *)
Record query_data := {
  embedding : vec;
  metadata_filters : option (gmap string scalar);
  query_intent : option (gmap string scalar)
}.

(** A hit after [retrieve] has added its three scores to it. *)
Record ranked := {
  hit : SearchHit.t;
  meta_score : Q;
  intent_score : Z;
  final_score : Q
}.

(** [sum(1 for key, val in metadata_filters.items()
         if r["metadata"].get(key) == val)]. *)
Definition meta_match_count (filters : gmap string scalar)
    (r : SearchHit.t) : Z :=
  Z.of_nat (length (filter
    (fun kv => py_eq (dict_get (SearchHit.metadata r) kv.1) kv.2 = true)
    (map_to_list filters))).

(** Step 3: the value stored under [r["meta_score"]]. *)
Definition meta_score_of (metadata_filters : option (gmap string scalar))
    (r : SearchHit.t) : result Q :=
  match metadata_filters with
  | Some filters =>
      if dict_truthy metadata_filters then
        Py.truediv (meta_match_count filters r) (dict_len filters)
      else Ok 0%Q
  | None => Ok 0%Q
  end.

(** [meta.get("intent", {})], then the receiver of [.get(key)]: anything
    but a dictionary has no [get]. *)
Definition intent_of (meta : gmap string value)
  : result (gmap string scalar) :=
  match meta !! "intent"%string with
  | None => Ok ∅
  | Some (VDict flags) => Ok flags
  | Some (VScalar _) => Raise AttributeError
  end.

(** The local function [intent_score(meta, intent)] of step 4. *)
Definition intent_score_fn (meta : gmap string value)
    (intent : gmap string scalar) : result Z :=
  foldl (fun acc kv =>
           score ← acc;
           if truthy kv.2 then
             flags ← intent_of meta;
             if truthy (scalar_get flags kv.1) then Ok (score + 1)
             else Ok score
           else Ok score)
        (Ok 0) (map_to_list intent).

(** Step 4: the value stored under [r["intent_score"]]. *)
Definition intent_score_of (query_intent : option (gmap string scalar))
    (r : SearchHit.t) : result Z :=
  match query_intent with
  | Some intent =>
      if dict_truthy query_intent then
        intent_score_fn (SearchHit.metadata r) intent
      else Ok 0
  | None => Ok 0
  end.

(** Step 5: the weighted sum stored under [r["final_score"]]. *)
Definition weighted (score : Q) (intent_score : Z) (meta_score : Q) : Q :=
  let similarity_weight := 7 # 10 in
  let intent_weight := 2 # 10 in
  let meta_weight := 1 # 10 in
  (similarity_weight * score
   + intent_weight * inject_Z intent_score
   + meta_weight * meta_score)%Q.

Definition with_meta_score (filters : option (gmap string scalar))
    (r : SearchHit.t) : result (SearchHit.t * Q) :=
  m ← meta_score_of filters r; Ok (r, m).

Definition with_intent_score (intent : option (gmap string scalar))
    (rm : SearchHit.t * Q) : result (SearchHit.t * Q * Z) :=
  i ← intent_score_of intent rm.1; Ok (rm, i).

Definition with_final_score (rmi : SearchHit.t * Q * Z) : ranked :=
  {| hit := rmi.1.1; meta_score := rmi.1.2; intent_score := rmi.2;
     final_score := weighted (SearchHit.score rmi.1.1) rmi.2 rmi.1.2 |}.

(** Steps 2 to 6 of [retrieve], on the hits of the base search. *)
Definition rerank (q : query_data) (k : Z) (max_distance : Q)
    (base_results : list SearchHit.t) : result (list ranked) :=
  let filtered_results :=
    filter (fun r => Qle_bool (SearchHit.distance r) max_distance = true)
      base_results in
  with_meta ← mapM (with_meta_score (metadata_filters q)) filtered_results;
  with_intent ← mapM (with_intent_score (query_intent q)) with_meta;
  let scored := with_final_score <$> with_intent in
  Ok (Py.take_upto k (sorted_desc final_score scored)).

Section Retrieve.
Variable hnsw_search :
  Faiss.IndexHNSWFlat -> vec -> Z -> result (list Q * list Z).
Variable search_time : Q.

(** [retrieve(query_data, k=5, max_distance=10.0)] on the store [vs]: the
    outcome and the store as the call leaves it. *)
Definition retrieve (vs : FAISSHNSWStore.t) (q : query_data) (k : Z)
    (max_distance : Q) : result (list ranked) * FAISSHNSWStore.t :=
  match FAISSHNSWStore.search hnsw_search search_time vs (embedding q)
          (k * 3) with
  | (Raise e, vs') => (Raise e, vs')
  | (Ok base_results, vs') => (rerank q k max_distance base_results, vs')
  end.
End Retrieve.

End Retriever.

(** ** The regular expressions of [is_qna_format]

    The fragment of Python's [re] the eleven patterns need: literals, the
    classes [\d] and [\s], the postfix operators [*] and [+], and the
    anchors [^] and [$].  Texts are ASCII; matching is case-insensitive
    ([re.IGNORECASE]) and the anchors are line anchors ([re.MULTILINE]). *)

Module Re.

Open Scope char_scope.

Inductive atom :=
| Lit (c : ascii)
| Digit        (* \d *)
| Space.       (* \s *)

Inductive item :=
| One (a : atom)
| Star (a : atom)
| Plus (a : atom).

Record pattern := {
  bol : bool;             (* starts with ^ *)
  items : list item;
  eol : bool              (* ends with $ *)
}.

Definition is_digit (c : ascii) : bool :=
  let n := nat_of_ascii c in (48 <=? n)%nat && (n <=? 57)%nat.

(** Space, \t, \n, \v, \f, \r and the separators 0x1c to 0x1f. *)
Definition is_space (c : ascii) : bool :=
  let n := nat_of_ascii c in
  (n =? 32)%nat || ((9 <=? n)%nat && (n <=? 13)%nat)
  || ((28 <=? n)%nat && (n <=? 31)%nat).

Definition lower (c : ascii) : ascii :=
  let n := nat_of_ascii c in
  if (65 <=? n)%nat && (n <=? 90)%nat then ascii_of_nat (n + 32) else c.

Definition atom_matches (a : atom) (c : ascii) : bool :=
  match a with
  | Lit x => Ascii.eqb (lower x) (lower c)
  | Digit => is_digit c
  | Space => is_space c
  end.

Definition newline : ascii := "010".

(** [$] under MULTILINE: the end of the text, or just before a newline. *)
Definition at_eol (s : list ascii) : bool :=
  match s with
  | [] => true
  | c :: _ => Ascii.eqb c newline
  end.

(** Does the pattern body match a prefix of [s]?  Repetitions try every
    count, as backtracking does. *)
Fixpoint match_items (its : list item) (eol : bool) (s : list ascii)
  {struct its} : bool :=
  match its with
  | [] => if eol then at_eol s else true
  | One a :: its' =>
      match s with
      | c :: s' => atom_matches a c && match_items its' eol s'
      | [] => false
      end
  | Star a :: its' =>
      (fix star (s : list ascii) : bool :=
         match_items its' eol s
         || match s with
            | c :: s' => atom_matches a c && star s'
            | [] => false
            end) s
  | Plus a :: its' =>
      match s with
      | c :: s' =>
          atom_matches a c
          && (fix star (s : list ascii) : bool :=
                match_items its' eol s
                || match s with
                   | c :: s' => atom_matches a c && star s'
                   | [] => false
                   end) s'
      | [] => false
      end
  end.

(** Try every start position; [at_bol] says whether the current position
    begins a line. *)
Fixpoint search_from (p : pattern) (at_bol : bool) (s : list ascii) : bool :=
  ((negb (bol p) || at_bol) && match_items (items p) (eol p) s)
  || match s with
     | [] => false
     | c :: s' => search_from p (Ascii.eqb c newline) s'
     end.

(** [re.search(pattern, text, re.IGNORECASE | re.MULTILINE)] as a truth
    value. *)
Definition search (p : pattern) (text : string) : bool :=
  search_from p true (list_ascii_of_string text).

Definition lits (s : string) : list item :=
  (fun c => One (Lit c)) <$> list_ascii_of_string s.

Definition anywhere (its : list item) : pattern :=
  {| bol := false; items := its; eol := false |}.

Definition line_start (its : list item) : pattern :=
  {| bol := true; items := its; eol := false |}.

Definition line_end (its : list item) : pattern :=
  {| bol := false; items := its; eol := true |}.

End Re.

(** ** chunking/chunking_pipeline.py: class HybridChunker *)

Module HybridChunker.

(** One element of [pages_data]: an object with the keys [text] and
    [metadata], either of which may be missing. *)
Record page := {
  text : option value;
  metadata : option (gmap string scalar)
}.

(** The list [patterns] of [is_qna_format], in source order. *)
Definition patterns : list Re.pattern :=
  [ Re.anywhere (Re.lits "Q." ++ [Re.Plus Re.Digit]);
    Re.anywhere (Re.lits "Question" ++ [Re.Star Re.Space; Re.Plus Re.Digit]);
    Re.line_start (Re.lits "What" ++ [Re.Plus Re.Space]);
    Re.line_start (Re.lits "How" ++ [Re.Plus Re.Space]);
    Re.line_start (Re.lits "Why" ++ [Re.Plus Re.Space]);
    Re.line_start (Re.lits "Where" ++ [Re.Plus Re.Space]);
    Re.line_start (Re.lits "When" ++ [Re.Plus Re.Space]);
    Re.line_start (Re.lits "Who" ++ [Re.Plus Re.Space]);
    Re.line_end (Re.lits "?");
    Re.anywhere (Re.lits "Answer:");
    Re.anywhere (Re.lits "Solution:") ].

(** [is_qna_format(text)]. *)
Definition is_qna_format (text : value) : bool :=
  match text with
  | VScalar (SStr s) =>
      if String.eqb s "" then false
      else existsb (fun p => Re.search p s) patterns
  | _ => false
  end.

(** The loop of [detect_qna_in_pages]: [(qna_count, qna_pages)]. *)
Fixpoint count_qna (pages_to_check : list page) (qna_count : Z)
    (qna_pages : list scalar) : Z * list scalar :=
  match pages_to_check with
  | [] => (qna_count, qna_pages)
  | page_data :: rest =>
      let text := default (VScalar (SStr "")) (text page_data) in
      let page_number :=
        default (SStr "unknown")
          (default ∅ (metadata page_data) !! "page_number"%string) in
      if is_qna_format text then
        count_qna rest (qna_count + 1) (qna_pages ++ [page_number])
      else count_qna rest qna_count qna_pages
  end.

(** [detect_qna_in_pages(pages_data)]. *)
Definition detect_qna_in_pages (pages_data : list page) : bool :=
  if (length pages_data =? 0)%nat || (Z.of_nat (length pages_data) <? 3)
  then false
  else
    let pages_to_check := Py.take_upto 10 pages_data in
    let '(qna_count, qna_pages) := count_qna pages_to_check 0 [] in
    3 <=? qna_count.

End HybridChunker.

(** ** The store invariant *)

Module Invariant.
Import FAISSHNSWStore.

(** The three parallel arrays have one length. *)
Definition aligned (self : t) : Prop :=
  length (metadata self) = length (chunk_texts self)
  /\ Z.of_nat (length (metadata self)) = Faiss.ntotal (index self).

(** The index was built for the store's dimension and every stored vector
    has it. *)
Definition dimensioned (self : t) : Prop :=
  Faiss.d (index self) = dimension self
  /\ Forall (fun v : vec => Z.of_nat (length v) = dimension self)
       (Faiss.xb (index self)).

Definition wf (self : t) : Prop := aligned self /\ dimensioned self.

End Invariant.

(** ** Vocabulary of the statements *)

Module Describe.

(** The text [detect_qna_in_pages] reads from a page. *)
Definition page_text (p : HybridChunker.page) : value :=
  default (VScalar (SStr "")) (HybridChunker.text p).

(** How many of the first [n] pages look like Q&A. *)
Definition qna_pages_among (n : nat) (pages : list HybridChunker.page)
  : nat :=
  length (filter (fun p => HybridChunker.is_qna_format (page_text p) = true)
            (take n pages)).

(** The distance [search_with_metadata] computes for the stored vector of
    id [id]: the norm of its difference with the query. *)
Definition stored_distance (sqrt : Q -> Q) (self : FAISSHNSWStore.t)
    (query : vec) (id : Z) : Q :=
  FAISSHNSWStore.norm sqrt
    (zip_with Qminus (Faiss.xb (FAISSHNSWStore.index self) !!! Z.to_nat id)
       query).

(** The record of id [id] as the hit of rank [rank]. *)
Definition stored_hit (sqrt : Q -> Q) (self : FAISSHNSWStore.t)
    (query : vec) (rank id : Z) : SearchHit.t :=
  {| SearchHit.rank := rank;
     SearchHit.distance := stored_distance sqrt self query id;
     SearchHit.score := similarity_score (stored_distance sqrt self query id);
     SearchHit.text := FAISSHNSWStore.chunk_texts self !!! Z.to_nat id;
     SearchHit.metadata := FAISSHNSWStore.metadata self !!! Z.to_nat id;
     SearchHit.search_time_ms := None |}.


(** A record's metadata agrees with every filter pair. *)
Definition matches_every (filters : gmap string scalar)
    (m : gmap string value) : Prop :=
  forall key val, filters !! key = Some val -> py_eq (dict_get m key) val = true.

(** A hit without its [search_time_ms] key. *)
Definition untimed (h : SearchHit.t) : SearchHit.t :=
  {| SearchHit.rank := SearchHit.rank h;
     SearchHit.distance := SearchHit.distance h;
     SearchHit.score := SearchHit.score h;
     SearchHit.text := SearchHit.text h;
     SearchHit.metadata := SearchHit.metadata h;
     SearchHit.search_time_ms := None |}.

(** The record's [chunk_id] equals the one asked for. *)
Definition has_chunk_id (chunk_id : scalar) (m : gmap string value) : bool :=
  py_eq (dict_get m "chunk_id") chunk_id.

End Describe.

(** How a hit of the base search and its scored form are related. *)
Definition scored_from (q : Retriever.query_data) (h : SearchHit.t)
    (r : Retriever.ranked) : Prop :=
  Retriever.hit r = h
  /\ Retriever.meta_score_of (Retriever.metadata_filters q) h
     = Ok (Retriever.meta_score r)
  /\ Retriever.intent_score_of (Retriever.query_intent q) h
     = Ok (Retriever.intent_score r)
  /\ Retriever.final_score r
     = Retriever.weighted (SearchHit.score h) (Retriever.intent_score r)
         (Retriever.meta_score r).

(** ** Concrete collaborators and data used to exercise the model *)

Module Fixture.

(** Squared Euclidean distance, the metric of the index. *)
Definition l2sqr (a b : vec) : Q :=
  foldr (fun x acc => x * x + acc)%Q 0%Q (zip_with Qminus a b).

(** An exhaustive stand-in for the graph traversal: the [k] nearest stored
    vectors, padded with the label [-1] as faiss pads short results. *)
Definition flat_search (ix : Faiss.IndexHNSWFlat) (query : vec) (k : Z)
  : result (list Q * list Z) :=
  if k <=? 0 then Raise AssertionError
  else
    let scored :=
      sorted_asc snd
        (Py.enumerate 0 ((fun v => l2sqr v query) <$> Faiss.xb ix)) in
    let found := take (Z.to_nat k) scored in
    let pad := (Z.to_nat k - length found)%nat in
    Ok ((snd <$> found) ++ replicate pad (1000000 # 1)%Q,
        (fst <$> found) ++ replicate pad (-1)).

(** A graph traversal that fails. *)
Definition failing_search (ix : Faiss.IndexHNSWFlat) (query : vec) (k : Z)
  : result (list Q * list Z) := Raise RuntimeError.

(** Square root on rationals, exact on quotients of perfect squares. *)
Definition sqrt_floor (x : Q) : Q :=
  Z.sqrt (Qnum x) # Pos.sqrt (Qden x).

Definition tagged (domain : string) : gmap string value :=
  {[ "domain"%string := VScalar (SStr domain) ]}.

Definition with_intent (domain : string) (flag : string)
  : gmap string value :=
  <[ "intent"%string := VDict {[ flag := SBool true ]} ]> (tagged domain).

Definition empty_store : FAISSHNSWStore.t :=
  FAISSHNSWStore.init 2 32 200 50.

Definition vectors3 : list vec :=
  [ [0; 0]%Q; [3; 4]%Q; [1; 0]%Q ].

Definition metadata3 : list (gmap string value) :=
  [ tagged "technology"; tagged "science";
    with_intent "technology" "is_definition" ].

Definition texts3 : list string :=
  [ "alpha"; "beta"; "gamma" ]%string.

(** The store after one [add_embeddings] of three records. *)
Definition store3 : FAISSHNSWStore.t :=
  (FAISSHNSWStore.add_embeddings empty_store vectors3 metadata3 texts3).2.

Definition technology : gmap string scalar :=
  {[ "domain"%string := SStr "technology" ]}.

Definition query3 : Retriever.query_data :=
  {| Retriever.embedding := [0; 0]%Q;
     Retriever.metadata_filters := Some technology;
     Retriever.query_intent :=
       Some {[ "is_definition"%string := SBool true ]} |}.

Definition qna_page (s : string) : HybridChunker.page :=
  {| HybridChunker.text := Some (VScalar (SStr s));
     HybridChunker.metadata := None |}.

Definition plain : HybridChunker.page := qna_page "plain prose".

(** Ten pages of which pages 1, 3 and 5 look like Q&A. *)
Definition pages_three : list HybridChunker.page :=
  [ qna_page "Q.1 Define a closure"; plain;
    qna_page "Is this the event loop?"; plain;
    qna_page "Q.7 Name two scopes"; plain; plain; plain; plain; plain ].

(** Ten pages of which only pages 1 and 3 look like Q&A. *)
Definition pages_two : list HybridChunker.page :=
  [ qna_page "Q.1 Define a closure"; plain;
    qna_page "Is this the event loop?"; plain;
    plain; plain; plain; plain; plain; plain ].

End Fixture.

(** ** Persistence: [save_index] and [load_index]

    The disk is a map from paths to files.  A file written by
    [faiss.write_index] holds the index; a JSON sidecar holds the keys
    [metadata], [chunk_texts] and [hnsw_params], any of which a sidecar
    found on disk may lack. *)

Module Persistence.
Import FAISSHNSWStore.

(** The value of [hnsw_params] in a sidecar. *)
Record hnsw_params := {
  p_M : option Z;
  p_ef_construction : option Z;
  p_ef_search : option Z;
  p_distance_metric : option string
}.

Record sidecar := {
  sc_metadata : option (list (gmap string value));
  sc_chunk_texts : option (list string);
  sc_hnsw_params : option hnsw_params
}.

Inductive file :=
| IndexFile (ix : Faiss.IndexHNSWFlat)
| SidecarFile (data : sidecar).

(** What [load_index] can raise: a failure of [faiss.read_index]
    ([Lib RuntimeError]), of [open], of [json.load], or of [data[key]]. *)
Inductive io_exn :=
| Lib (e : exn)
| FileNotFoundError
| JSONDecodeError
| KeyError (key : string).

Inductive outcome (A : Type) :=
| Done (a : A)
| Failed (e : io_exn).
Arguments Done {A} a.
Arguments Failed {A} e.

(** [os.path.join("vector_db", f"{filepath}.index")]. *)
Definition index_path (filepath : string) : string :=
  ("vector_db/" ++ filepath ++ ".index")%string.

(** [os.path.join("vector_db", f"{filepath}_metadata.json")]. *)
Definition metadata_path (filepath : string) : string :=
  ("vector_db/" ++ filepath ++ "_metadata.json")%string.

(** [save_index(filepath)]: the disk after the two writes. *)
Definition save_index (self : t) (filepath : string)
    (disk : gmap string file) : gmap string file :=
  let disk1 := <[index_path filepath := IndexFile (index self)]> disk in
  <[metadata_path filepath :=
      SidecarFile
        {| sc_metadata := Some (metadata self);
           sc_chunk_texts := Some (chunk_texts self);
           sc_hnsw_params :=
             Some {| p_M := Some (M self);
                     p_ef_construction := Some (ef_construction self);
                     p_ef_search := Some (ef_search self);
                     p_distance_metric := Some "euclidean"%string |} |}]>
    disk1.

Definition set_loaded_index (ix : Faiss.IndexHNSWFlat) (self : t) : t :=
  {| dimension := dimension self; M := M self;
     ef_construction := ef_construction self; ef_search := ef_search self;
     index := ix; metadata := metadata self; chunk_texts := chunk_texts self;
     is_trained := true |}.

Definition set_metadata (md : list (gmap string value)) (self : t) : t :=
  {| dimension := dimension self; M := M self;
     ef_construction := ef_construction self; ef_search := ef_search self;
     index := index self; metadata := md; chunk_texts := chunk_texts self;
     is_trained := is_trained self |}.

Definition set_chunk_texts (ct : list string) (self : t) : t :=
  {| dimension := dimension self; M := M self;
     ef_construction := ef_construction self; ef_search := ef_search self;
     index := index self; metadata := metadata self; chunk_texts := ct;
     is_trained := is_trained self |}.

(** The three assignments under [if 'hnsw_params' in data]. *)
Definition set_params (p : hnsw_params) (self : t) : t :=
  {| dimension := dimension self;
     M := default (M self) (p_M p);
     ef_construction := default (ef_construction self) (p_ef_construction p);
     ef_search := default (ef_search self) (p_ef_search p);
     index := index self; metadata := metadata self;
     chunk_texts := chunk_texts self; is_trained := is_trained self |}.

(** [load_index(filepath)]: the outcome and the store as the call leaves
    it, statement by statement. *)
Definition load_index (self : t) (filepath : string)
    (disk : gmap string file) : outcome unit * t :=
  match disk !! index_path filepath with
  | None | Some (SidecarFile _) => (Failed (Lib RuntimeError), self)
  | Some (IndexFile ix) =>
      let self1 := set_loaded_index ix self in
      match disk !! metadata_path filepath with
      | None => (Failed FileNotFoundError, self1)
      | Some (IndexFile _) => (Failed JSONDecodeError, self1)
      | Some (SidecarFile data) =>
          match sc_metadata data with
          | None => (Failed (KeyError "metadata"), self1)
          | Some md =>
              let self2 := set_metadata md self1 in
              match sc_chunk_texts data with
              | None => (Failed (KeyError "chunk_texts"), self2)
              | Some ct =>
                  let self3 := set_chunk_texts ct self2 in
                  match sc_hnsw_params data with
                  | None => (Done tt, self3)
                  | Some p => (Done tt, set_params p self3)
                  end
              end
          end
      end
  end.

End Persistence.

(** ** utils/faiss_utils.py: class FAISSUtils *)

Module FAISSUtils.
Import Persistence.

(** The parameters [__init__] keeps. *)
Record t := {
  dimension : Z;
  M : Z;
  ef_construction : Z;
  ef_search : Z
}.

(** An element of [embedded_chunks]. *)
Record embedded_chunk := {
  embedding : vec;
  metadata : gmap string value;
  text : string
}.

(** [np.array(embeddings_list)]: the rows must have one length. *)
Definition np_array (rows : list vec) : result (list vec) :=
  match rows with
  | [] => Ok []
  | r :: _ =>
      if forallb (fun v => (length v =? length r)%nat) rows then Ok rows
      else Raise ValueError
  end.

(** [build_faiss_index(embedded_chunks, index_name)]: the outcome, the
    store built so far, and the disk. *)
Definition build_faiss_index (self : t) (embedded_chunks : list embedded_chunk)
    (index_name : string) (disk : gmap string file)
  : result FAISSHNSWStore.t * gmap string file :=
  let faiss_store :=
    FAISSHNSWStore.init (dimension self) (M self) (ef_construction self)
      (ef_search self) in
  let embeddings_list := embedding <$> embedded_chunks in
  let metadata_list := metadata <$> embedded_chunks in
  let chunk_texts := text <$> embedded_chunks in
  match np_array embeddings_list with
  | Raise e => (Raise e, disk)
  | Ok embeddings_array =>
      match FAISSHNSWStore.add_embeddings faiss_store embeddings_array
              metadata_list chunk_texts with
      | (Raise e, _) => (Raise e, disk)
      | (Ok _, faiss_store') =>
          (Ok faiss_store', save_index faiss_store' index_name disk)
      end
  end.


End FAISSUtils.

(** ** More concrete data *)

Module Sample.

(** The exhaustive stand-in of [Fixture], one row per query. *)
Definition flat_search_batch (ix : Faiss.IndexHNSWFlat) (queries : list vec)
    (k : Z) : result (list (list Q) * list (list Z)) :=
  match mapM (fun q => Fixture.flat_search ix q k) queries with
  | Ok rows => Ok (fst <$> rows, snd <$> rows)
  | Raise e => Raise e
  end.

Definition chunked (chunk_id : Z) (domain : string) : gmap string value :=
  <[ "chunk_id"%string := VScalar (SInt chunk_id) ]> (Fixture.tagged domain).

(** Three records of which the first and the third carry [chunk_id] 1. *)
Definition store_ids : FAISSHNSWStore.t :=
  (FAISSHNSWStore.add_embeddings Fixture.empty_store Fixture.vectors3
     [ chunked 1 "technology"; chunked 2 "science"; chunked 1 "technology" ]
     Fixture.texts3).2.

Definition utils2 : FAISSUtils.t :=
  {| FAISSUtils.dimension := 2; FAISSUtils.M := 32;
     FAISSUtils.ef_construction := 200; FAISSUtils.ef_search := 50 |}.


Definition bad_chunks : list FAISSUtils.embedded_chunk :=
  [ {| FAISSUtils.embedding := [0; 0; 0]%Q;
       FAISSUtils.metadata := chunked 1 "technology";
       FAISSUtils.text := "alpha" |} ].

(** A disk that holds the index file of [store3] and nothing else. *)
Definition disk_index_only : gmap string Persistence.file :=
  {[ Persistence.index_path "kb" :=
       Persistence.IndexFile (FAISSHNSWStore.index Fixture.store3) ]}.


End Sample.

(** ** Python built-ins on strings and lists

    A Python [str] is a [string] whose characters are code points below
    128, where [str.isspace], [str.lower] and the classes of [re] are the
    ASCII ones. *)

Module Builtins.

Definition chars (s : string) : list ascii := list_ascii_of_string s.
Definition str (l : list ascii) : string := string_of_list_ascii l.

Definition ascii_only (s : string) : Prop :=
  Forall (fun c => (nat_of_ascii c < 128)%nat) (chars s).

(** A token: a non-empty run of characters none of which is whitespace. *)
Definition spacefree (w : list ascii) : Prop :=
  Forall (fun c => Re.is_space c = false) w.

Definition word (w : list ascii) : Prop := w <> [] /\ spacefree w.

Definition token (t : string) : Prop := word (chars t).

(** [len(s)]. *)
Definition len (s : string) : Z := Z.of_nat (String.length s).

(** [l[start:stop]] for any two integers: a negative bound counts from the
    end, and both are clamped to the list. *)
Definition slice {A} (l : list A) (start stop : Z) : list A :=
  let n := Z.of_nat (length l) in
  let clamp i := if i <? 0 then Z.max (i + n) 0 else Z.min i n in
  take (Z.to_nat (clamp stop - clamp start)) (drop (Z.to_nat (clamp start)) l).

Definition push (cur : list ascii) (ws : list (list ascii))
  : list (list ascii) :=
  match cur with
  | [] => ws
  | _ :: _ => cur :: ws
  end.

(** The unfinished word at the front of [s], and the words after it. *)
Fixpoint split_aux (s : list ascii) : list ascii * list (list ascii) :=
  match s with
  | [] => ([], [])
  | c :: s' =>
      let '(cur, ws) := split_aux s' in
      if Re.is_space c then ([], push cur ws) else (c :: cur, ws)
  end.

Definition split_chars (s : list ascii) : list (list ascii) :=
  let '(cur, ws) := split_aux s in push cur ws.

(** [s.split()]: the maximal runs of characters that are not whitespace. *)
Definition split (s : string) : list string := str <$> split_chars (chars s).

Fixpoint join_chars (sep : list ascii) (words : list (list ascii))
  : list ascii :=
  match words with
  | [] => []
  | w :: rest =>
      match rest with
      | [] => w
      | _ :: _ => w ++ sep ++ join_chars sep rest
      end
  end.

(** [sep.join(words)]. *)
Definition join (sep : string) (words : list string) : string :=
  str (join_chars (chars sep) (chars <$> words)).

Fixpoint lstrip_chars (s : list ascii) : list ascii :=
  match s with
  | [] => []
  | c :: s' => if Re.is_space c then lstrip_chars s' else s
  end.

Fixpoint rstrip_chars (s : list ascii) : list ascii :=
  match s with
  | [] => []
  | c :: s' =>
      match rstrip_chars s' with
      | [] => if Re.is_space c then [] else [c]
      | r => c :: r
      end
  end.

(** [s.strip()]. *)
Definition strip (s : string) : string :=
  str (lstrip_chars (rstrip_chars (chars s))).

(** [s.lower()]. *)
Definition lower (s : string) : string := str (Re.lower <$> chars s).

Fixpoint starts_with (p s : list ascii) : bool :=
  match p, s with
  | [], _ => true
  | a :: p', b :: s' => Ascii.eqb a b && starts_with p' s'
  | _ :: _, [] => false
  end.

Fixpoint contains_chars (p s : list ascii) : bool :=
  starts_with p s
  || match s with
     | [] => false
     | _ :: s' => contains_chars p s'
     end.

(** [needle in hay] on two strings. *)
Definition contains (needle hay : string) : bool :=
  contains_chars (chars needle) (chars hay).

End Builtins.

(** ** chunking/sliding_window.py: class SlidingWindowChunker *)

Module SlidingWindowChunker.
Import Builtins.

Record t := {
  chunk_size : Z;
  overlap : Z
}.

(** [SlidingWindowChunker()] with its default arguments. *)
Definition default : t := {| chunk_size := 600; overlap := 200 |}.

(** What [chunk] returns: [None] through its bare [return], or a list. *)
Inductive returned :=
| RNone
| RList (chunks : list string).

(** The [while] loop of [chunk]; [fuel] bounds the number of tests of the
    loop condition, and [None] says that the loop is still running when
    the fuel is spent. *)
Fixpoint chunk_loop (fuel : nat) (self : t) (tokens : list string)
    (start : Z) (chunks : list string) : option (list string) :=
  match fuel with
  | O => None
  | S fuel' =>
      if start <? Z.of_nat (length tokens) then
        let end_ := start + chunk_size self in
        let chunk_tokens := slice tokens start end_ in
        chunk_loop fuel' self tokens
          (start + (chunk_size self - overlap self))
          (chunks ++ [join " " chunk_tokens])
      else Some chunks
  end.

(** [chunk(text)]. *)
Definition chunk (fuel : nat) (self : t) (text : string)
  : option returned :=
  if String.eqb text "" then Some RNone
  else
    let tokens := split text in
    RList <$> chunk_loop fuel self tokens 0 [].

End SlidingWindowChunker.

(** ** rag/query_cleaner.py: class QueryCleaner *)

Module QueryCleaner.
Import Builtins.

(** The class [\w] on code points below 128. *)
Definition is_word (c : ascii) : bool :=
  let n := nat_of_ascii c in
  ((48 <=? n)%nat && (n <=? 57)%nat)
  || ((65 <=? n)%nat && (n <=? 90)%nat)
  || ((97 <=? n)%nat && (n <=? 122)%nat)
  || (n =? 95)%nat.

(** The characters [re.sub(r'[^\w\s?]', '', _)] leaves in place. *)
Definition kept (c : ascii) : bool :=
  is_word c || Re.is_space c || Ascii.eqb c "?".

Definition remove_punctuation (s : string) : string :=
  str (List.filter kept (chars s)).

(** [re.sub(r'<[^>]+>', '', _)]: the text without its tags, paired with
    what is left of the text once a tag that is open at its start has
    been closed (nothing when no [>] follows). *)
Fixpoint tags (s : list ascii) : list ascii * option (list ascii) :=
  match s with
  | [] => ([], None)
  | c :: s' =>
      let '(out, closed) := tags s' in
      let closed_here := if Ascii.eqb c ">" then Some out else closed in
      let out_here :=
        if Ascii.eqb c "<" then
          match s' with
          | d :: _ =>
              if Ascii.eqb d ">" then c :: out
              else match closed with
                   | Some after => after
                   | None => c :: out
                   end
          | [] => c :: out
          end
        else c :: out in
      (out_here, closed_here)
  end.

Definition remove_tags (s : string) : string := str (tags (chars s)).1.

(** [re.sub(r'\s+', ' ', _)]: every run of whitespace becomes one
    space. *)
Fixpoint squeeze (s : list ascii) : list ascii :=
  match s with
  | [] => []
  | c :: s' =>
      if Re.is_space c then
        match s' with
        | d :: _ => if Re.is_space d then squeeze s' else " "%char :: squeeze s'
        | [] => [" "%char]
        end
      else c :: squeeze s'
  end.

Definition normalize_whitespace (s : string) : string :=
  str (squeeze (chars s)).

(** [cleaned[-1] in ['.', '?', '!']] on a non-empty string. *)
Definition ends_sentence (s : string) : bool :=
  match last (chars s) with
  | Some c => Ascii.eqb c "." || Ascii.eqb c "?" || Ascii.eqb c "!"
  | None => false
  end.

(** [clean(query)]. *)
Definition clean (query : string) : string :=
  let cleaned := strip query in
  let cleaned := join " " (split cleaned) in
  let cleaned := remove_punctuation cleaned in
  let cleaned := lower cleaned in
  if len cleaned <? 2 then cleaned
  else
    let cleaned :=
      if negb (String.eqb cleaned "") && negb (ends_sentence cleaned)
      then cleaned
      else cleaned in
    cleaned.

(** [clean_for_embedding(query)]. *)
Definition clean_for_embedding (query : string) : string :=
  let cleaned := clean query in
  let cleaned := remove_tags cleaned in
  let cleaned := normalize_whitespace cleaned in
  strip cleaned.

End QueryCleaner.

(** ** rag/query_processor.py: class QueryProcessor *)

Module QueryProcessor.
Import Builtins.

Open Scope string_scope.

(** [any(word in query_lower for word in words)]. *)
Definition any_in (words : list string) (query_lower : string) : bool :=
  existsb (fun word => contains word query_lower) words.

(** The loop over [table.items()] that stops at the first entry one of
    whose keywords occurs in the query. *)
Definition first_match (table : list (string * list string))
    (query_lower : string) : option string :=
  fst <$> List.find (fun row => any_in row.2 query_lower) table.

Definition doc_types : list (string * list string) :=
  [ ("official", ["official"; "documentation"; "docs"; "manual"; "spec"]);
    ("tutorial", ["tutorial"; "guide"; "walkthrough"; "how-to"; "lesson"]);
    ("example", ["example"; "sample"; "snippet"; "template"]);
    ("reference", ["reference"; "cheatsheet"; "api reference"; "syntax"]);
    ("faq", ["faq"; "frequently asked"]);
    ("research", ["research"; "paper"; "study"; "analysis"]);
    ("news", ["news"; "article"; "blog"; "update"; "release notes"]);
    ("report", ["report"; "case study"; "whitepaper"]) ].

Definition domains : list (string * list string) :=
  [ ("technology", ["software"; "ai"; "ml"; "cloud"; "api"; "database";
                    "programming"; "coding"]);
    ("science", ["biology"; "physics"; "chemistry"; "neuroscience"]);
    ("health", ["medical"; "doctor"; "medicine"; "disease"; "treatment"]);
    ("finance", ["banking"; "investment"; "trading"; "economy"]);
    ("legal", ["law"; "regulation"; "compliance"]);
    ("education", ["curriculum"; "learning"; "school"; "university"]);
    ("business", ["marketing"; "sales"; "startup"; "management"]);
    ("general", ["general"; "overview"]) ].

(** [filters[key] = value]. *)
Definition set (key value : string) (filters : gmap string scalar)
  : gmap string scalar :=
  <[ key := SStr value ]> filters.

(** [extract_metadata_filters(query)]. *)
Definition extract_metadata_filters (query : string) : gmap string scalar :=
  let filters : gmap string scalar := ∅ in
  let query_lower := lower query in
  (* Document Type *)
  let filters :=
    match first_match doc_types query_lower with
    | Some doc_type => set "doc_type" doc_type filters
    | None => filters
    end in
  (* Recency *)
  let filters :=
    if any_in ["latest"; "recent"; "current"; "new"] query_lower
    then set "time" "recent" filters
    else if any_in ["old"; "archived"; "legacy"; "historical"] query_lower
    then set "time" "historical" filters
    else filters in
  (* Complexity / Depth *)
  let filters :=
    if any_in ["basic"; "beginner"; "introduction"; "getting started"]
         query_lower
    then set "complexity" "beginner" filters
    else if any_in ["intermediate"; "moderate"] query_lower
    then set "complexity" "intermediate" filters
    else if any_in ["advanced"; "expert"; "comprehensive"; "deep"] query_lower
    then set "complexity" "advanced" filters
    else filters in
  (* Task / Intent *)
  let filters :=
    if any_in ["what is"; "define"; "definition"] query_lower
    then set "intent" "definition" filters
    else if any_in ["how to"; "steps"; "procedure"; "tutorial"] query_lower
    then set "intent" "how-to" filters
    else if any_in ["vs"; "versus"; "compare"; "difference"] query_lower
    then set "intent" "comparison" filters
    else if any_in ["example"; "sample"; "code"] query_lower
    then set "intent" "example" filters
    else if any_in ["error"; "fix"; "troubleshoot"; "problem"; "issue"]
              query_lower
    then set "intent" "troubleshooting" filters
    else if any_in ["install"; "setup"; "configure"] query_lower
    then set "intent" "installation" filters
    else if any_in ["deploy"; "production"; "hosting"] query_lower
    then set "intent" "deployment" filters
    else if any_in ["optimize"; "performance"; "scaling"] query_lower
    then set "intent" "optimization" filters
    else if any_in ["security"; "vulnerability"; "auth"] query_lower
    then set "intent" "security" filters
    else filters in
  (* Domain / Topic *)
  let filters :=
    match first_match domains query_lower with
    | Some domain => set "domain" domain filters
    | None => filters
    end in
  (* Audience *)
  let filters :=
    if any_in ["student"; "beginner"; "learner"] query_lower
    then set "audience" "students" filters
    else if any_in ["professional"; "engineer"; "developer"; "manager"]
              query_lower
    then set "audience" "professionals" filters
    else if any_in ["research"; "scholar"; "scientist"] query_lower
    then set "audience" "researchers" filters
    else set "audience" "general" filters in
  (* Format *)
  let filters :=
    if any_in ["pdf"] query_lower
    then set "format" "pdf" filters
    else if any_in ["ppt"; "presentation"] query_lower
    then set "format" "ppt" filters
    else if any_in ["doc"; "word"] query_lower
    then set "format" "doc" filters
    else if any_in ["markdown"; "md"] query_lower
    then set "format" "markdown" filters
    else if any_in ["html"; "webpage"] query_lower
    then set "format" "html" filters
    else if any_in ["blog"; "article"] query_lower
    then set "format" "blog" filters
    else filters in
  filters.

(** [clean_query(query)]. *)
Definition clean_query (query : string) : string :=
  QueryCleaner.clean_for_embedding query.

End QueryProcessor.

(** ** Vocabulary for texts and windows *)

Module DescribeText.
Import Builtins.

(** The distance between the starts of two consecutive windows. *)
Definition step (self : SlidingWindowChunker.t) : Z :=
  SlidingWindowChunker.chunk_size self - SlidingWindowChunker.overlap self.

(** The tokens [i * step] to [i * step + chunk_size] of the text. *)
Definition window (self : SlidingWindowChunker.t) (tokens : list string)
    (i : nat) : list string :=
  slice tokens (Z.of_nat i * step self)
    (Z.of_nat i * step self + SlidingWindowChunker.chunk_size self).

(** The number of tokens divided by the step, rounded up. *)
Definition window_count (self : SlidingWindowChunker.t)
    (tokens : list string) : nat :=
  Z.to_nat ((Z.of_nat (length tokens) + step self - 1) / step self).

Definition only_whitespace (text : string) : Prop :=
  Forall (fun c => Re.is_space c = true) (chars text).

(** A step that leaves the filters alone or sets [key]. *)
Definition may_set (key : string) (before after : gmap string scalar)
  : Prop :=
  after = before \/ exists value, after = QueryProcessor.set key value before.

(** The seven keys [extract_metadata_filters] can set. *)
Definition facets : list string :=
  [ "doc_type"; "time"; "complexity"; "intent"; "domain"; "audience";
    "format" ]%string.

(** For each key, the value and the keywords of the alternative the code
    tests first. *)
Definition first_alternatives : list (string * string * list string) :=
  [ ("doc_type", "official",
     ["official"; "documentation"; "docs"; "manual"; "spec"]);
    ("time", "recent", ["latest"; "recent"; "current"; "new"]);
    ("complexity", "beginner",
     ["basic"; "beginner"; "introduction"; "getting started"]);
    ("intent", "definition", ["what is"; "define"; "definition"]);
    ("domain", "technology",
     ["software"; "ai"; "ml"; "cloud"; "api"; "database"; "programming";
      "coding"]);
    ("audience", "students", ["student"; "beginner"; "learner"]);
    ("format", "pdf", ["pdf"]) ]%string.

(** One word of a query as [clean] leaves it: without the characters
    that are neither word characters nor [?], in lower case. *)
Definition clean_word (w : string) : string :=
  lower (QueryCleaner.remove_punctuation w).

(** The alphabet of a cleaned query: [a-z], [0-9], [_], [?] and the
    space. *)
Definition plain (c : ascii) : bool :=
  let n := nat_of_ascii c in
  ((97 <=? n)%nat && (n <=? 122)%nat)
  || ((48 <=? n)%nat && (n <=? 57)%nat)
  || (n =? 95)%nat || (n =? 63)%nat || (n =? 32)%nat.

(** [clean_word] on the characters of a word. *)
Definition clean_word_chars (w : list ascii) : list ascii :=
  Re.lower <$> List.filter QueryCleaner.kept w.

Definition nonempty_chars (w : list ascii) : bool :=
  negb (Nat.eqb (length w) 0).

(** What [join] puts after its first word. *)
Definition tail_of (ws : list (list ascii)) : list ascii :=
  match ws with
  | [] => []
  | _ :: _ => " "%char :: join_chars [" "%char] ws
  end.

End DescribeText.

(** ** Sample texts and chunkers *)

Module Excerpt.

(** Windows of three tokens that share one. *)
Definition narrow : SlidingWindowChunker.t :=
  {| SlidingWindowChunker.chunk_size := 3; SlidingWindowChunker.overlap := 1 |}.

(** A chunker whose window never advances. *)
Definition stuck : SlidingWindowChunker.t :=
  {| SlidingWindowChunker.chunk_size := 2; SlidingWindowChunker.overlap := 2 |}.

Definition question : string := "  What's  NEW - in AI?? ".

End Excerpt.

(** ** Python built-ins on lines and separators *)

Module Lines.
Import Builtins.

(** The line boundaries of [str.splitlines] below 128: \n, \v, \f, \r and
    the separators 0x1c to 0x1e. *)
Definition is_linebreak (c : ascii) : bool :=
  let n := nat_of_ascii c in
  ((10 <=? n)%nat && (n <=? 13)%nat) || ((28 <=? n)%nat && (n <=? 30)%nat).

(** [s.splitlines()] on characters: a boundary ends a line, [\r\n] is one
    boundary, and a boundary at the very end opens no further line. *)
Fixpoint splitlines_chars (s : list ascii) : list (list ascii) :=
  match s with
  | [] => []
  | c :: s' =>
      if is_linebreak c then
        match s' with
        | d :: _ =>
            if Ascii.eqb c "013" && Ascii.eqb d "010" then splitlines_chars s'
            else [] :: splitlines_chars s'
        | [] => [[]]
        end
      else
        match splitlines_chars s' with
        | [] => [[c]]
        | line :: rest => (c :: line) :: rest
        end
  end.

Definition splitlines (s : string) : list string :=
  str <$> splitlines_chars (chars s).

(** The scan of [s.split(sep)] for a non-empty [sep]: [skip] characters
    of a separator that has just been found are still to be passed, and
    [cur] is the piece being read. *)
Fixpoint split_on_chars (sep s : list ascii) (skip : nat) (cur : list ascii)
  : list (list ascii) :=
  match s with
  | [] => [cur]
  | c :: s' =>
      match skip with
      | S n => split_on_chars sep s' n cur
      | O =>
          if starts_with sep s
          then cur :: split_on_chars sep s' (length sep - 1) []
          else split_on_chars sep s' 0 (cur ++ [c])
      end
  end.

(** [s.split(sep)]; an empty separator is a [ValueError]. *)
Definition split_on (sep s : string) : result (list string) :=
  if String.eqb sep "" then Raise ValueError
  else Ok (str <$> split_on_chars (chars sep) (chars s) 0 []).

End Lines.

(** ** ingestion/cleaner.py: class TextCleaner

    The regular expressions of the cleaner stay behind three parameters:
    [_apply_enhanced_cleaning], [_detect_section_title] and
    [_extract_global_metadata]. *)

Module TextCleaner.
Import Builtins Lines.

Open Scope string_scope.

(** One element of the [pages] list that [clean_with_metadata] returns. *)
Record page := {
  text : string;
  metadata : gmap string scalar
}.

(** The dictionary [clean_with_metadata] returns. *)
Record cleaned := {
  pages : list page;
  document_metadata : gmap string scalar
}.

(** The keys of a [collections.Counter] in the order of their first
    occurrence. *)
Fixpoint first_seen (items : list string) : list string :=
  match items with
  | [] => []
  | x :: rest => x :: filter (fun y => y <> x) (first_seen rest)
  end.

Definition occurrences (x : string) (items : list string) : Z :=
  Z.of_nat (length (filter (fun y => y = x) items)).

(** [Counter(items)] as its [items()]: each key with its count. *)
Definition Counter (items : list string) : list (string * Z) :=
  (fun x => (x, occurrences x items)) <$> first_seen items.

(** [counter.most_common(1)], which is [max] by count: of several entries
    with the highest count the first one is returned. *)
Definition most_common_1 (counter : list (string * Z))
  : option (string * Z) :=
  foldl (fun best entry =>
           match best with
           | None => Some entry
           | Some b => if (b.2 <? entry.2)%Z then Some entry else Some b
           end) None counter.

(** [_find_repeated(lines, min_repeats=3)]. *)
Definition _find_repeated (lines : list string) (min_repeats : Z)
  : option string :=
  let counter :=
    Counter (filter (fun l => l <> "" /\ (2 < len (strip l))%Z) lines) in
  match most_common_1 counter with
  | None => None
  | Some (most_common, count) =>
      if (min_repeats <=? count)%Z then Some most_common else None
  end.

Section CleanWithMetadata.
Variable _apply_enhanced_cleaning : string -> string.
Variable _detect_section_title :
  list string -> option string -> option string -> option string.
Variable _extract_global_metadata :
  list string -> option string -> option string -> gmap string scalar.

(** [page.strip().splitlines()]. *)
Definition page_lines (page : string) : list string :=
  splitlines (strip page).

(** The first pass: the first and the last line of every page that has a
    line. *)
Definition collect_lines (pages : list string) : list string * list string :=
  foldl (fun (acc : list string * list string) page =>
           let lines := page_lines page in
           match lines, last lines with
           | first :: _, Some final =>
               ((acc.1 ++ [strip first])%list, (acc.2 ++ [strip final])%list)
           | _, _ => acc
           end) ([], []) pages.

(** [lines[page_num-1] == global_line and global_line is not None], behind
    the test [page_num-1 < len(lines)]. *)
Definition marked (lines : list string) (page_num : Z)
    (global_line : option string) : option string :=
  match lines !! Z.to_nat (page_num - 1), global_line with
  | Some line, Some repeated =>
      if String.eqb line repeated then Some line else None
  | _, _ => None
  end.

(** The body of the second loop for one page; [None] is its [continue]. *)
Definition clean_page (first_lines last_lines : list string)
    (global_header global_footer : option string)
    (page_num : Z) (page : string) : option TextCleaner.page :=
  let lines := page_lines page in
  match lines with
  | [] => None
  | _ :: _ =>
      let cleaned_lines :=
        filter (fun cleaned_line => strip cleaned_line <> "")
          (_apply_enhanced_cleaning <$> lines) in
      let cleaned_text := join (String "010" "") cleaned_lines in
      let page_metadata : gmap string scalar :=
        <[ "line_count" := SInt (Z.of_nat (length cleaned_lines)) ]>
          (<[ "char_count" := SInt (len cleaned_text) ]>
             (<[ "page_number" := SInt page_num ]> ∅)) in
      let page_metadata :=
        match marked first_lines page_num global_header with
        | Some header => <[ "header" := SStr header ]> page_metadata
        | None => page_metadata
        end in
      let page_metadata :=
        match marked last_lines page_num global_footer with
        | Some footer => <[ "footer" := SStr footer ]> page_metadata
        | None => page_metadata
        end in
      let section_title :=
        _detect_section_title cleaned_lines global_header global_footer in
      let page_metadata :=
        match section_title with
        | Some title =>
            if String.eqb title "" then page_metadata
            else <[ "section_title" := SStr title ]> page_metadata
        | None => page_metadata
        end in
      Some {| text := cleaned_text; metadata := page_metadata |}
  end.

(** [clean_with_metadata(text, page_delimiter)]. *)
Definition clean_with_metadata (text page_delimiter : string)
  : result cleaned :=
  if String.eqb text "" then Ok {| pages := []; document_metadata := ∅ |}
  else
    match (if contains page_delimiter text
           then split_on page_delimiter text else Ok [text]) with
    | Raise e => Raise e
    | Ok pages =>
        let '(first_lines, last_lines) := collect_lines pages in
        let global_header := _find_repeated first_lines 3 in
        let global_footer := _find_repeated last_lines 3 in
        let cleaned_pages :=
          omap (fun entry : Z * string =>
                  clean_page first_lines last_lines global_header
                    global_footer entry.1 entry.2)
            (Py.enumerate 1 pages) in
        let metadata :=
          _extract_global_metadata pages global_header global_footer in
        Ok {| TextCleaner.pages := cleaned_pages;
              document_metadata := metadata |}
    end.

End CleanWithMetadata.

End TextCleaner.

(** ** utils/document_processor.py

    [DocumentLoader.load_documents], the two chunkers and the three
    regular-expression helpers of the cleaner are parameters. *)

Module DocumentProcessor.
Import Builtins.

Open Scope string_scope.

(** One element of [all_chunks_with_metadata]. *)
Record chunk_data := {
  text : string;
  metadata : gmap string scalar
}.

(** The [metadata] dictionary of one chunk: the five entries of the
    literal, then [**page['metadata']] over them. *)
Definition chunk_metadata (chunk_count : Z) (filename : string)
    (use_qna : bool) (page : TextCleaner.page) : gmap string scalar :=
  TextCleaner.metadata page
  ∪ <[ "chunk_id" := SInt chunk_count ]>
      (<[ "page_number" :=
            default (SStr "N/A")
              (TextCleaner.metadata page !! "page_number") ]>
         (<[ "filename" := SStr filename ]>
            (<[ "source_document" := SStr filename ]>
               (<[ "chunking_strategy" :=
                     SStr (if use_qna then "qna" else "recursive") ]> ∅)))).

(** A page of the cleaner as [detect_qna_in_pages] reads it. *)
Definition as_page_data (page : TextCleaner.page) : HybridChunker.page :=
  {| HybridChunker.text := Some (VScalar (SStr (TextCleaner.text page)));
     HybridChunker.metadata := Some (TextCleaner.metadata page) |}.

Section ProcessAllDocuments.
Variable _apply_enhanced_cleaning : string -> string.
Variable _detect_section_title :
  list string -> option string -> option string -> option string.
Variable _extract_global_metadata :
  list string -> option string -> option string -> gmap string scalar.
(** [SlidingWindowChunker().chunk] and [RecursiveChunker().chunk] on a
    non-empty text. *)
Variable sliding_chunk : string -> list string.
Variable recursive_chunk : string -> list string.

(** The loop over the chunks of one page: [(chunk_count, all_chunks)]. *)
Definition add_chunks (filename : string) (use_qna : bool)
    (page : TextCleaner.page) (state : Z * list chunk_data)
    (chunks : list string) : Z * list chunk_data :=
  foldl (fun (st : Z * list chunk_data) chunk_text =>
           let chunk_data :=
             {| text := chunk_text;
                metadata := chunk_metadata st.1 filename use_qna page |} in
           ((st.1 + 1)%Z, (st.2 ++ [chunk_data])%list))
    state chunks.

(** The body of the loop over the pages of one document. *)
Definition add_page (filename : string) (use_qna : bool)
    (state : Z * list chunk_data) (page : TextCleaner.page)
  : Z * list chunk_data :=
  let page_text := TextCleaner.text page in
  if String.eqb page_text "" then state
  else
    let chunks :=
      if use_qna then sliding_chunk page_text
      else recursive_chunk page_text in
    add_chunks filename use_qna page state chunks.

(** The body of the loop over the documents. *)
Definition add_document (all_chunks_with_metadata : list chunk_data)
    (filename raw_text : string) : result (list chunk_data) :=
  match TextCleaner.clean_with_metadata _apply_enhanced_cleaning
          _detect_section_title _extract_global_metadata raw_text
          (String "012" "") with
  | Raise e => Raise e
  | Ok cleaned =>
      let chunk_count := 1 in
      let use_qna :=
        HybridChunker.detect_qna_in_pages
          (as_page_data <$> TextCleaner.pages cleaned) in
      Ok (foldl (add_page filename use_qna)
            (chunk_count, all_chunks_with_metadata)
            (TextCleaner.pages cleaned)).2
  end.

(** [process_all_documents(docs_path)], on what [load_documents()]
    returned. *)
Definition process_all_documents (data : list (string * string))
  : result (list chunk_data) :=
  foldl (fun (acc : result (list chunk_data)) (entry : string * string) =>
           match acc with
           | Raise e => Raise e
           | Ok all_chunks_with_metadata =>
               add_document all_chunks_with_metadata entry.1 entry.2
           end) (Ok []) data.

End ProcessAllDocuments.

End DocumentProcessor.

(** ** Vocabulary for ingestion *)

Module DescribeIngest.
Import Builtins.

Open Scope string_scope.

(** The lines [_find_repeated] counts: not empty, and more than two
    characters long once stripped. *)
Definition substantial_lines (lines : list string) : list string :=
  filter (fun l => l <> "" /\ (2 < len (strip l))%Z) lines.

(** The pages [clean_with_metadata] cuts the text into. *)
Definition raw_pages (text page_delimiter : string) : list string :=
  if String.eqb text "" then []
  else if contains page_delimiter text then
    match Lines.split_on page_delimiter text with
    | Ok pages => pages
    | Raise _ => []
    end
  else [text].

(** The keys a page's metadata can have. *)
Definition page_keys : list string :=
  [ "page_number"; "char_count"; "line_count"; "header"; "footer";
    "section_title" ].

(** The entries of [enumerate(pages, start=1)] whose page has a line. *)
Definition pages_with_lines (pages : list string) : list (Z * string) :=
  filter (fun entry : Z * string => TextCleaner.page_lines entry.2 <> [])
    (Py.enumerate 1 pages).

(** The keys [process_all_documents] writes itself. *)
Definition chunk_keys : list string :=
  [ "chunk_id"; "page_number"; "filename"; "source_document";
    "chunking_strategy" ].

(** The chunk ids of [chunks] are [first], [first + 1], ... in order. *)
Definition numbered_from (first : Z) (chunks : list DocumentProcessor.chunk_data)
  : Prop :=
  (fun c => DocumentProcessor.metadata c !! "chunk_id") <$> chunks
  = (fun j => Some (SInt j)) <$> seqZ first (Z.of_nat (length chunks)).

(** What every chunk of the document [filename], cut with [strategy],
    carries. *)
Definition chunk_of (filename strategy : string)
    (c : DocumentProcessor.chunk_data) : Prop :=
  DocumentProcessor.metadata c !! "filename" = Some (SStr filename)
  /\ DocumentProcessor.metadata c !! "source_document"
     = Some (SStr filename)
  /\ DocumentProcessor.metadata c !! "chunking_strategy"
     = Some (SStr strategy)
  /\ (exists n, DocumentProcessor.metadata c !! "page_number"
                = Some (SInt n))
  /\ forall key v,
       DocumentProcessor.metadata c !! key = Some v ->
       key ∈ (chunk_keys ++ page_keys)%list.

(** A chunk's metadata as the store and the retriever hold it. *)
Definition stored (metadata : gmap string scalar) : gmap string value :=
  VScalar <$> metadata.

End DescribeIngest.

(** ** Sample documents *)

Module Ingest.

Open Scope string_scope.

(** A cleaner that leaves every line as it is and finds no title. *)
Definition keep_line (line : string) : string := line.

Definition no_title (lines : list string) (header footer : option string)
  : option string := None.

Definition no_metadata (pages : list string) (header footer : option string)
  : gmap string scalar := ∅.

(** Chunkers that make one chunk, and two chunks, of a page. *)
Definition whole (text : string) : list string := [text].

Definition twice (text : string) : list string := [text; text].

(** Three pages, the second of which is blank. *)
Definition three_pages : string :=
  "Intro" ++ String "012" ("  " ++ String "012" "Body").

Definition two_documents : list (string * string) :=
  [ ("a.txt", "Alpha text"); ("b.txt", three_pages) ].

Definition first_lines : list string :=
  [ "Report"; "x"; "Report"; "Annex"; "Report"; "Annex" ].

End Ingest.

(** * Properties *)

(** ** Sorting, slices and monadic loops *)

Section SortFacts.
Context {A : Type} (before : A -> A -> bool).
Hypothesis before_total : forall x y, before x y = true \/ before y x = true.
Hypothesis before_trans :
  forall x y z, before x y = true -> before y z = true -> before x z = true.

Lemma insert_by_perm (x : A) (l : list A) :
  Permutation (insert_by before x l) (x :: l).
Proof.
  induction l as [|y l IH]; simpl; [reflexivity|].
  destruct (before x y); [reflexivity|].
  rewrite IH. apply perm_swap.
Qed.

Lemma sort_by_perm (l : list A) : Permutation (sort_by before l) l.
Proof.
  induction l as [|x l IH]; simpl; [reflexivity|].
  rewrite insert_by_perm. now constructor.
Qed.

Lemma insert_by_sorted (x : A) (l : list A) :
  StronglySorted (fun a b => before a b = true) l ->
  StronglySorted (fun a b => before a b = true) (insert_by before x l).
Proof.
  induction 1 as [|y l Hl IH Hy]; simpl.
  - repeat constructor.
  - destruct (before x y) eqn:Hxy.
    + constructor; [now constructor|].
      constructor; [exact Hxy|].
      eapply Forall_impl; [exact Hy|]. intros z Hz. simpl in Hz. eauto.
    + constructor; [exact IH|].
      rewrite (insert_by_perm x l). constructor; [|exact Hy].
      destruct (before_total x y) as [H|H]; congruence.
Qed.

Lemma sort_by_sorted (l : list A) :
  StronglySorted (fun a b => before a b = true) (sort_by before l).
Proof.
  induction l as [|x l IH]; simpl; [constructor|].
  now apply insert_by_sorted.
Qed.
End SortFacts.

Lemma StronglySorted_weaken {A} (R R' : A -> A -> Prop) (l : list A) :
  (forall a b, R a b -> R' a b) -> StronglySorted R l -> StronglySorted R' l.
Proof.
  intros HR. induction 1 as [|x l Hl IH Hx]; constructor; auto.
  eapply Forall_impl; [exact Hx|]. intros y Hy. now apply HR.
Qed.

Lemma sorted_desc_perm {A} (key : A -> Q) (l : list A) :
  Permutation (sorted_desc key l) l.
Proof. apply sort_by_perm. Qed.


Lemma sorted_asc_perm {A} (key : A -> Q) (l : list A) :
  Permutation (sorted_asc key l) l.
Proof. apply sort_by_perm. Qed.

Lemma sorted_asc_sorted {A} (key : A -> Q) (l : list A) :
  StronglySorted (fun a b => (key a <= key b)%Q) (sorted_asc key l).
Proof.
  eapply StronglySorted_weaken; [|apply sort_by_sorted].
  - intros a b H. simpl in H. now apply Qle_bool_iff.
  - intros x y. simpl. rewrite !Qle_bool_iff.
    destruct (Qlt_le_dec (key x) (key y)) as [H|H]; [left|right]; lra.
  - intros x y z. simpl. rewrite !Qle_bool_iff. lra.
Qed.

Lemma StronglySorted_take_prefix {A} (R : A -> A -> Prop) (n : nat)
    (l : list A) :
  StronglySorted R l -> StronglySorted R (take n l).
Proof.
  intros H. revert n. induction H as [|x l Hl IH Hx]; intros [|n]; simpl;
    try constructor; auto.
  now apply Forall_take.
Qed.

(** A slice [l[:k]] is a prefix of [l], whatever the sign of [k]. *)
Lemma take_upto_prefix {A} (k : Z) (l : list A) :
  exists n, Py.take_upto k l = take n l.
Proof. unfold Py.take_upto. destruct (0 <=? k); eauto. Qed.

Lemma take_upto_nonneg {A} (k : Z) (l : list A) :
  0 <= k -> Py.take_upto k l = take (Z.to_nat k) l.
Proof.
  intros H. unfold Py.take_upto.
  destruct (Z.leb_spec 0 k); [reflexivity|lia].
Qed.

Lemma take_upto_Forall {A} (P : A -> Prop) (k : Z) (l : list A) :
  Forall P l -> Forall P (Py.take_upto k l).
Proof.
  intros H. destruct (take_upto_prefix k l) as [n ->]. now apply Forall_take.
Qed.

Lemma take_upto_sorted {A} (R : A -> A -> Prop) (k : Z) (l : list A) :
  StronglySorted R l -> StronglySorted R (Py.take_upto k l).
Proof.
  intros H. destruct (take_upto_prefix k l) as [n ->].
  now apply StronglySorted_take_prefix.
Qed.

Lemma mapM_Forall2 {A B} (f : A -> result B) (l : list A) (l' : list B) :
  mapM f l = Ok l' -> Forall2 (fun x y => f x = Ok y) l l'.
Proof.
  revert l'. induction l as [|x l IH]; intros l' H; simpl in H.
  - injection H as <-. constructor.
  - destruct (f x) as [y|e] eqn:Hx; [|discriminate]. simpl in H.
    destruct (mapM f l) as [ys|e]; [|discriminate]. simpl in H.
    injection H as <-. constructor; auto.
Qed.

Lemma Forall2_mapM {A B} (f : A -> result B) (l : list A) (l' : list B) :
  Forall2 (fun x y => f x = Ok y) l l' -> mapM f l = Ok l'.
Proof.
  induction 1 as [|x y l l' Hx _ IH]; simpl; [reflexivity|].
  now rewrite Hx, IH.
Qed.


(** ** HybridChunker *)

Lemma count_qna_fst (pages : list HybridChunker.page) (c : Z)
    (seen : list scalar) :
  (HybridChunker.count_qna pages c seen).1
  = c + Z.of_nat (length (filter
        (fun p => HybridChunker.is_qna_format (Describe.page_text p) = true)
        pages)).
Proof.
  revert c seen. induction pages as [|p pages IH]; intros c seen; simpl.
  - lia.
  - rewrite filter_cons. unfold Describe.page_text at 1.
    destruct (HybridChunker.is_qna_format _) eqn:Hq.
    + rewrite IH. rewrite decide_True by reflexivity. simpl length. lia.
    + rewrite IH. rewrite decide_False by discriminate. reflexivity.
Qed.

Lemma is_qna_format_patterns (s : string) :
  HybridChunker.is_qna_format (VScalar (SStr s)) = true
  <-> Exists (fun p => Re.search p s = true) HybridChunker.patterns.
Proof.
  unfold HybridChunker.is_qna_format.
  destruct (String.eqb_spec s "") as [->|Hne].
  - split; [discriminate|]. intros H. apply Exists_exists in H.
    destruct H as [p [Hin Hp]]. exfalso.
    assert (Hall : Forall (fun p => Re.search p "" = false)
                    HybridChunker.patterns)
      by (repeat constructor).
    rewrite Forall_forall in Hall. apply Hall in Hin. congruence.
  - rewrite existsb_exists, Exists_exists.
    split; intros [p [Hin Hp]]; exists p; split; auto;
      now apply list_elem_of_In.
Qed.

(** C9. [detect_qna_in_pages] answers true exactly when at least three of
    the first ten pages (of all pages when there are fewer) hold a text
    that [is_qna_format] accepts, that is, a text one of the eleven
    patterns matches; a [Q.1]-style marker and a line ending in a question
    mark are two of them.  Ten pages with three such pages give true, ten
    pages with only two give false. *)
Theorem detect_qna_in_pages_threshold :
  (forall pages,
     HybridChunker.detect_qna_in_pages pages = true
     <-> (3 <= Describe.qna_pages_among 10 pages)%nat)
  /\ (forall s,
        HybridChunker.is_qna_format (VScalar (SStr s)) = true
        <-> Exists (fun p => Re.search p s = true) HybridChunker.patterns)
  /\ (forall s,
        Re.search (Re.anywhere (Re.lits "Q." ++ [Re.Plus Re.Digit])) s = true
        \/ Re.search (Re.line_end (Re.lits "?")) s = true ->
        HybridChunker.is_qna_format (VScalar (SStr s)) = true)
  /\ (length Fixture.pages_three = 10%nat
      /\ Describe.qna_pages_among 10 Fixture.pages_three = 3%nat
      /\ HybridChunker.detect_qna_in_pages Fixture.pages_three = true)
  /\ (length Fixture.pages_two = 10%nat
      /\ Describe.qna_pages_among 10 Fixture.pages_two = 2%nat
      /\ HybridChunker.detect_qna_in_pages Fixture.pages_two = false).
Proof.
  split; [|split; [|split; [|split]]].
  - intros pages. unfold HybridChunker.detect_qna_in_pages.
    unfold Describe.qna_pages_among.
    rewrite take_upto_nonneg by lia.
    change (Z.to_nat 10) with 10%nat.
    pose proof (count_qna_fst (take 10 pages) 0 []) as Hc.
    destruct (HybridChunker.count_qna (take 10 pages) 0 []) as [n seen].
    simpl in Hc. subst n.
    set (m := length (filter _ (take 10 pages))).
    assert (Hm : (m <= length pages)%nat).
    { subst m. etransitivity; [apply length_filter|].
      rewrite length_take. lia. }
    destruct (Nat.eqb_spec (length pages) 0) as [H0|H0]; simpl.
    + split; [discriminate|lia].
    + destruct (Z.ltb_spec (Z.of_nat (length pages)) 3) as [H3|H3].
      * split; [discriminate|lia].
      * rewrite Z.leb_le. lia.
  - exact is_qna_format_patterns.
  - intros s H. apply is_qna_format_patterns. apply Exists_exists.
    destruct H as [H|H].
    + eexists; split; [|exact H]. unfold HybridChunker.patterns.
      apply list_elem_of_here.
    + eexists; split; [|exact H]. unfold HybridChunker.patterns.
      do 8 apply list_elem_of_further. apply list_elem_of_here.
  - vm_compute. auto.
  - vm_compute. auto.
Qed.

(** ** FAISSHNSWStore.search *)

Section SearchFacts.
Variable hnsw_search :
  Faiss.IndexHNSWFlat -> vec -> Z -> result (list Q * list Z).
Variable search_time : Q.

Lemma search_hit_fields (self : FAISSHNSWStore.t) (i : Z) (dist : Q)
    (idx : Z) (h : SearchHit.t) :
  FAISSHNSWStore.search_hit search_time self i dist idx = Ok h ->
  SearchHit.rank h = i + 1
  /\ SearchHit.distance h = dist
  /\ SearchHit.score h = similarity_score dist
  /\ Py.index (FAISSHNSWStore.chunk_texts self) idx = Ok (SearchHit.text h)
  /\ Py.index (FAISSHNSWStore.metadata self) idx
     = Ok (SearchHit.metadata h).
Proof.
  unfold FAISSHNSWStore.search_hit. intros H.
  destruct (Py.index (FAISSHNSWStore.chunk_texts self) idx) as [txt|e];
    [|discriminate].
  destruct (Py.index (FAISSHNSWStore.metadata self) idx) as [meta|e];
    [|discriminate].
  simpl in H. injection H as <-. simpl. auto.
Qed.


(** What [search] does, with the restored store written as the store the
    call started from. *)
Lemma search_unfold (self : FAISSHNSWStore.t) (query : vec) (k : Z) :
  FAISSHNSWStore.search hnsw_search search_time self query k
  = if Faiss.ntotal (FAISSHNSWStore.index self) =? 0 then (Ok [], self)
    else
      let widened :=
        Faiss.set_efSearch (Z.max (FAISSHNSWStore.ef_search self) (k * 2))
          (FAISSHNSWStore.index self) in
      match hnsw_search widened query k with
      | Raise e => (Raise e, FAISSHNSWStore.set_index widened self)
      | Ok (distances, indices) =>
          (FAISSHNSWStore.search_results search_time self
             (Py.enumerate 0 (zip distances indices)), self)
      end.
Proof.
  unfold FAISSHNSWStore.search.
  destruct (Faiss.ntotal (FAISSHNSWStore.index self) =? 0); [reflexivity|].
  cbv zeta. simpl FAISSHNSWStore.index at 1.
  destruct (hnsw_search _ query k) as [[distances indices]|e];
    [|reflexivity].
  destruct self as [dm m efc efs [d0 m0 efc0 efs0 xb0] md ct tr].
  reflexivity.
Qed.

End SearchFacts.




(** C7. On a non-empty index [search] runs the graph traversal on the index
    with its candidate-list size set to max(ef_search, 2k); when the
    traversal returns, the store is again the store from before the call
    (so the candidate-list size is restored), and whatever the outcome the
    metadata, the texts, the stored vectors and the construction parameters
    are unchanged. *)
Theorem search_widens_then_restores_efSearch :
  forall hnsw_search search_time self query k,
    Faiss.ntotal (FAISSHNSWStore.index self) <> 0 ->
    let widened :=
      Faiss.set_efSearch (Z.max (FAISSHNSWStore.ef_search self) (2 * k))
        (FAISSHNSWStore.index self) in
    Faiss.efSearch widened = Z.max (FAISSHNSWStore.ef_search self) (2 * k)
    /\ Faiss.xb widened = Faiss.xb (FAISSHNSWStore.index self)
    /\ FAISSHNSWStore.search hnsw_search search_time self query k
       = match hnsw_search widened query k with
         | Ok (distances, indices) =>
             (FAISSHNSWStore.search_results search_time self
                (Py.enumerate 0 (zip distances indices)), self)
         | Raise e => (Raise e, FAISSHNSWStore.set_index widened self)
         end
    /\ (forall outcome self',
          FAISSHNSWStore.search hnsw_search search_time self query k
          = (outcome, self') ->
          (is_ok (hnsw_search widened query k) = true -> self' = self)
          /\ (is_ok outcome = true ->
              Faiss.efSearch (FAISSHNSWStore.index self')
              = Faiss.efSearch (FAISSHNSWStore.index self))
          /\ FAISSHNSWStore.metadata self' = FAISSHNSWStore.metadata self
          /\ FAISSHNSWStore.chunk_texts self'
             = FAISSHNSWStore.chunk_texts self
          /\ Faiss.ntotal (FAISSHNSWStore.index self')
             = Faiss.ntotal (FAISSHNSWStore.index self)
          /\ Faiss.xb (FAISSHNSWStore.index self')
             = Faiss.xb (FAISSHNSWStore.index self)
          /\ Faiss.d (FAISSHNSWStore.index self')
             = Faiss.d (FAISSHNSWStore.index self)
          /\ Faiss.hnsw_M (FAISSHNSWStore.index self')
             = Faiss.hnsw_M (FAISSHNSWStore.index self)
          /\ Faiss.efConstruction (FAISSHNSWStore.index self')
             = Faiss.efConstruction (FAISSHNSWStore.index self)
          /\ FAISSHNSWStore.dimension self' = FAISSHNSWStore.dimension self
          /\ FAISSHNSWStore.M self' = FAISSHNSWStore.M self
          /\ FAISSHNSWStore.ef_construction self'
             = FAISSHNSWStore.ef_construction self
          /\ FAISSHNSWStore.ef_search self' = FAISSHNSWStore.ef_search self
          /\ FAISSHNSWStore.is_trained self'
             = FAISSHNSWStore.is_trained self).
Proof.
  intros hnsw_search search_time self query k Hn widened.
  assert (Heq : FAISSHNSWStore.search hnsw_search search_time self query k
                = match hnsw_search widened query k with
                  | Ok (distances, indices) =>
                      (FAISSHNSWStore.search_results search_time self
                         (Py.enumerate 0 (zip distances indices)), self)
                  | Raise e => (Raise e, FAISSHNSWStore.set_index widened self)
                  end).
  { rewrite search_unfold.
    destruct (Z.eqb_spec (Faiss.ntotal (FAISSHNSWStore.index self)) 0)
      as [H0|_]; [contradiction|].
    cbv zeta. subst widened. now rewrite (Z.mul_comm k 2). }
  split; [reflexivity|]. split; [reflexivity|]. split; [exact Heq|].
  intros outcome self'. rewrite Heq.
  destruct (hnsw_search widened query k) as [[distances indices]|e].
  - intros H. injection H as _ <-. repeat split; reflexivity.
  - intros H. injection H as <- <-. simpl.
    repeat split; try reflexivity; discriminate.
Qed.

(** ** FAISSHNSWStore.add_embeddings *)

Lemma init_wf (dimension M ef_construction ef_search : Z) :
  Invariant.wf (FAISSHNSWStore.init dimension M ef_construction ef_search).
Proof. repeat split. constructor. Qed.

Lemma faiss_add_ok (ix : Faiss.IndexHNSWFlat) (x : list vec) :
  Forall (fun v : vec => Z.of_nat (length v) = Faiss.d ix) x ->
  Faiss.add ix x
  = Ok {| Faiss.d := Faiss.d ix; Faiss.hnsw_M := Faiss.hnsw_M ix;
          Faiss.efConstruction := Faiss.efConstruction ix;
          Faiss.efSearch := Faiss.efSearch ix;
          Faiss.xb := Faiss.xb ix ++ x |}.
Proof.
  intros H. unfold Faiss.add.
  replace (forallb (Faiss.has_dimension ix) x) with true; [reflexivity|].
  symmetry. apply forallb_forall. intros v Hv.
  rewrite Forall_forall in H. apply list_elem_of_In in Hv.
  unfold Faiss.has_dimension. apply Z.eqb_eq. now apply H.
Qed.

Lemma faiss_add_mismatch (ix : Faiss.IndexHNSWFlat) (x : list vec) :
  Exists (fun v : vec => Z.of_nat (length v) <> Faiss.d ix) x ->
  Faiss.add ix x = Raise AssertionError.
Proof.
  intros H. unfold Faiss.add.
  destruct (forallb (Faiss.has_dimension ix) x) eqn:Hall; [|reflexivity].
  exfalso. rewrite forallb_forall in Hall.
  apply Exists_exists in H. destruct H as [v [Hv Hne]].
  apply list_elem_of_In in Hv. apply Hall in Hv.
  unfold Faiss.has_dimension in Hv. apply Z.eqb_eq in Hv. contradiction.
Qed.

(** C3. A fresh store satisfies the invariant.  For a batch whose three
    lists have one length and whose vectors all have dimension D,
    [add_embeddings] succeeds; afterwards
    len(metadata) = len(chunk_texts) = index.ntotal, the vector count has
    grown by the batch size, every id that existed keeps its vector, text
    and metadata, and the records of the batch take the next ids in batch
    order. *)
Theorem add_embeddings_appends :
  (forall dimension M ef_construction ef_search,
     Invariant.wf
       (FAISSHNSWStore.init dimension M ef_construction ef_search))
  /\ (forall self embeddings metadata_list texts,
        Invariant.wf self ->
        length embeddings = length metadata_list ->
        length metadata_list = length texts ->
        Forall (fun v : vec =>
                  Z.of_nat (length v) = FAISSHNSWStore.dimension self)
          embeddings ->
        exists self',
          FAISSHNSWStore.add_embeddings self embeddings metadata_list texts
          = (Ok tt, self')
          /\ Invariant.wf self'
          /\ length (FAISSHNSWStore.metadata self')
             = length (FAISSHNSWStore.chunk_texts self')
          /\ Z.of_nat (length (FAISSHNSWStore.chunk_texts self'))
             = Faiss.ntotal (FAISSHNSWStore.index self')
          /\ Faiss.ntotal (FAISSHNSWStore.index self')
             = Faiss.ntotal (FAISSHNSWStore.index self)
               + Z.of_nat (length embeddings)
          /\ (forall i : nat,
                (i < length (FAISSHNSWStore.metadata self))%nat ->
                FAISSHNSWStore.metadata self' !! i
                = FAISSHNSWStore.metadata self !! i
                /\ FAISSHNSWStore.chunk_texts self' !! i
                   = FAISSHNSWStore.chunk_texts self !! i
                /\ Faiss.xb (FAISSHNSWStore.index self') !! i
                   = Faiss.xb (FAISSHNSWStore.index self) !! i)
          /\ (forall j : nat,
                (j < length embeddings)%nat ->
                let id := (length (FAISSHNSWStore.metadata self) + j)%nat in
                FAISSHNSWStore.metadata self' !! id = metadata_list !! j
                /\ FAISSHNSWStore.chunk_texts self' !! id = texts !! j
                /\ Faiss.xb (FAISSHNSWStore.index self') !! id
                   = embeddings !! j)
          /\ FAISSHNSWStore.dimension self' = FAISSHNSWStore.dimension self
          /\ FAISSHNSWStore.M self' = FAISSHNSWStore.M self
          /\ FAISSHNSWStore.ef_construction self'
             = FAISSHNSWStore.ef_construction self
          /\ FAISSHNSWStore.ef_search self' = FAISSHNSWStore.ef_search self).
Proof.
  split; [exact init_wf|].
  intros self embeddings metadata_list texts
    [[Hlen Hcount] [Hd Hdims]] Hem Hmt Hall.
  unfold Faiss.ntotal in Hcount.
  assert (Hxb : length (Faiss.xb (FAISSHNSWStore.index self))
                = length (FAISSHNSWStore.metadata self)) by lia.
  unfold FAISSHNSWStore.add_embeddings.
  destruct (Z.eqb_spec (Z.of_nat (length embeddings)) 0) as [H0|H0].
  - assert (embeddings = []) by (destruct embeddings; simpl in *; [auto|lia]).
    subst embeddings. simpl in Hem.
    assert (metadata_list = []) by (destruct metadata_list; simpl in *;
                                    [auto|lia]).
    subst metadata_list. simpl in Hmt.
    assert (texts = []) by (destruct texts; simpl in *; [auto|lia]).
    subst texts.
    exists self. unfold Invariant.wf, Invariant.aligned,
      Invariant.dimensioned, Faiss.ntotal. simpl.
    repeat split; auto; try lia.
  - rewrite faiss_add_ok by (now rewrite Hd).
    eexists. split; [reflexivity|].
    unfold Invariant.wf, Invariant.aligned, Invariant.dimensioned,
      Faiss.ntotal. simpl.
    rewrite !length_app.
    repeat split; auto; try lia.
    + apply Forall_app. split; assumption.
    + apply lookup_app_l. lia.
    + apply lookup_app_l. lia.
    + apply lookup_app_l. lia.
    + rewrite lookup_app_r by lia. f_equal. lia.
    + rewrite lookup_app_r by lia. f_equal. lia.
    + rewrite lookup_app_r by lia. f_equal. lia.
Qed.

(** C8. When some vector of the batch does not have dimension D,
    [add_embeddings] raises and leaves the store as it was: the metadata
    list, the texts and the vector count are those from before the call. *)
Theorem add_embeddings_rejects_wrong_dimension :
  forall self embeddings metadata_list texts,
    Faiss.d (FAISSHNSWStore.index self) = FAISSHNSWStore.dimension self ->
    Exists (fun v : vec =>
              Z.of_nat (length v) <> FAISSHNSWStore.dimension self)
      embeddings ->
    exists e self',
      FAISSHNSWStore.add_embeddings self embeddings metadata_list texts
      = (Raise e, self')
      /\ self' = self
      /\ FAISSHNSWStore.metadata self' = FAISSHNSWStore.metadata self
      /\ FAISSHNSWStore.chunk_texts self' = FAISSHNSWStore.chunk_texts self
      /\ Faiss.ntotal (FAISSHNSWStore.index self')
         = Faiss.ntotal (FAISSHNSWStore.index self).
Proof.
  intros self embeddings metadata_list texts Hd Hbad.
  exists AssertionError, self.
  unfold FAISSHNSWStore.add_embeddings.
  destruct (Z.eqb_spec (Z.of_nat (length embeddings)) 0) as [H0|H0].
  - destruct embeddings; [|simpl in H0; lia]. now apply Exists_nil in Hbad.
  - rewrite faiss_add_mismatch by (now rewrite Hd). auto.
Qed.

(** ** Retriever.retrieve *)

Lemma size_map_filter {A} (P : string * A -> Prop)
    `{!forall kv, Decision (P kv)} (m : gmap string A) :
  size (filter P m) = length (filter P (map_to_list m)).
Proof.
  induction m as [|i x m Hi IH] using map_ind.
  - now rewrite map_filter_empty, map_to_list_empty, map_size_empty.
  - rewrite (filter_Permutation _ _ _ (map_to_list_insert m i x Hi)).
    rewrite filter_cons. destruct (decide (P (i, x))) as [HP|HP].
    + rewrite map_filter_insert_True by exact HP.
      rewrite map_size_insert_None
        by (apply map_lookup_filter_None; now left).
      simpl. now rewrite IH.
    + rewrite map_filter_insert_False by exact HP.
      rewrite delete_id by exact Hi. exact IH.
Qed.

Lemma meta_match_count_bounds (filters : gmap string scalar)
    (r : SearchHit.t) :
  0 <= Retriever.meta_match_count filters r <= dict_len filters.
Proof.
  unfold Retriever.meta_match_count, dict_len.
  rewrite <- (length_map_to_list filters).
  pose proof (length_filter
    (fun kv : string * scalar =>
       py_eq (dict_get (SearchHit.metadata r) kv.1) kv.2 = true)
    (map_to_list filters)).
  lia.
Qed.

Lemma meta_score_of_unfiltered (filters : option (gmap string scalar))
    (r : SearchHit.t) :
  filters = None \/ filters = Some ∅ ->
  Retriever.meta_score_of filters r = Ok 0%Q.
Proof. intros [->| ->]; reflexivity. Qed.

Lemma meta_score_of_filtered (filters : gmap string scalar)
    (r : SearchHit.t) :
  filters <> ∅ ->
  Retriever.meta_score_of (Some filters) r
  = Ok (inject_Z (Retriever.meta_match_count filters r)
        / inject_Z (dict_len filters))%Q.
Proof.
  intros Hne. apply map_size_non_empty_iff in Hne.
  unfold Retriever.meta_score_of, dict_truthy, Py.truediv, dict_len.
  destruct (Z.eqb_spec (Z.of_nat (size filters)) 0) as [H0|H0]; [lia|].
  reflexivity.
Qed.

Lemma ratio_bounds (a b : Z) :
  0 <= a <= b -> 0 < b ->
  (0 <= inject_Z a / inject_Z b /\ inject_Z a / inject_Z b <= 1)%Q.
Proof.
  intros [Ha Hab] Hb.
  assert (Hb' : (0 < inject_Z b)%Q)
    by (change 0%Q with (inject_Z 0); now rewrite <- Zlt_Qlt).
  assert (Ha' : (0 <= inject_Z a)%Q)
    by (change 0%Q with (inject_Z 0); now rewrite <- Zle_Qle).
  assert (Hab' : (inject_Z a <= inject_Z b)%Q) by now rewrite <- Zle_Qle.
  split.
  - apply Qle_shift_div_l; [exact Hb'|]. lra.
  - apply Qle_shift_div_r; [exact Hb'|]. lra.
Qed.

Lemma meta_score_of_range (filters : option (gmap string scalar))
    (r : SearchHit.t) :
  exists x, Retriever.meta_score_of filters r = Ok x /\ (0 <= x <= 1)%Q.
Proof.
  destruct filters as [m|].
  - destruct (decide (m = ∅)) as [->|Hne].
    + exists 0%Q. split; [reflexivity|lra].
    + eexists. split; [now apply meta_score_of_filtered|].
      apply ratio_bounds; [apply meta_match_count_bounds|].
      apply map_size_non_empty_iff in Hne. unfold dict_len. lia.
  - exists 0%Q. split; [reflexivity|lra].
Qed.

Lemma scoring_loops (q : Retriever.query_data) (l : list SearchHit.t)
    (wm : list (SearchHit.t * Q)) (wi : list (SearchHit.t * Q * Z)) :
  mapM (Retriever.with_meta_score (Retriever.metadata_filters q)) l = Ok wm ->
  mapM (Retriever.with_intent_score (Retriever.query_intent q)) wm = Ok wi ->
  Forall2 (scored_from q) l (Retriever.with_final_score <$> wi).
Proof.
  intros Hm Hi. apply mapM_Forall2 in Hm. apply mapM_Forall2 in Hi.
  revert wi Hi. induction Hm as [|h hm l wm Hh _ IH]; intros wi Hi.
  - inversion Hi; subst. constructor.
  - inversion Hi as [|hm' hi wm' wi' Hhi Hrest]; subst. simpl.
    constructor; [|now apply IH].
    unfold Retriever.with_meta_score in Hh.
    destruct (Retriever.meta_score_of _ h) as [m|e] eqn:Hmeta;
      [|discriminate]. simpl in Hh. injection Hh as <-.
    unfold Retriever.with_intent_score in Hhi. simpl in Hhi.
    destruct (Retriever.intent_score_of _ h) as [i|e] eqn:Hint;
      [|discriminate]. simpl in Hhi. injection Hhi as <-.
    repeat split; assumption.
Qed.

Lemma Forall2_scored_hits (q : Retriever.query_data)
    (l : list SearchHit.t) (scored : list Retriever.ranked) :
  Forall2 (scored_from q) l scored -> Retriever.hit <$> scored = l.
Proof.
  induction 1 as [|h r l scored [Hh _] _ IH]; [reflexivity|].
  rewrite fmap_cons. now rewrite Hh, IH.
Qed.

Lemma Forall2_Forall_r {A B} (R : A -> B -> Prop) (P : B -> Prop)
    (l : list A) (l' : list B) :
  (forall x y, R x y -> P y) -> Forall2 R l l' -> Forall P l'.
Proof. intros HP. induction 1; constructor; eauto. Qed.

(** Steps 2 to 6, when they run to the end. *)
Lemma rerank_inv (q : Retriever.query_data) (k : Z) (max_distance : Q)
    (base : list SearchHit.t) (hits : list Retriever.ranked) :
  Retriever.rerank q k max_distance base = Ok hits ->
  exists scored,
    Forall2 (scored_from q)
      (filter (fun r => Qle_bool (SearchHit.distance r) max_distance = true)
         base) scored
    /\ hits = Py.take_upto k (sorted_desc Retriever.final_score scored).
Proof.
  unfold Retriever.rerank. intros H.
  destruct (mapM (Retriever.with_meta_score _) _) as [wm|e] eqn:Hm;
    [|discriminate]. simpl in H.
  destruct (mapM (Retriever.with_intent_score _) wm) as [wi|e] eqn:Hi;
    [|discriminate]. simpl in H. injection H as <-.
  eexists. split; [|reflexivity]. eapply scoring_loops; eassumption.
Qed.

(** With no survivor there is nothing to score: steps 3 to 6 return the
    empty list. *)
Lemma rerank_no_survivor (q : Retriever.query_data) (k : Z)
    (max_distance : Q) (base : list SearchHit.t) :
  Forall (fun h => ~ (SearchHit.distance h <= max_distance)%Q) base ->
  Retriever.rerank q k max_distance base = Ok [].
Proof.
  intros H. unfold Retriever.rerank.
  replace (filter _ base) with (@nil SearchHit.t).
  - simpl. unfold Py.take_upto. destruct (0 <=? k); now rewrite take_nil.
  - symmetry. induction H as [|h base Hh _ IH]; [reflexivity|].
    rewrite filter_cons, decide_False; [exact IH|].
    intros Hle. apply Hh. now apply Qle_bool_iff.
Qed.

Section RetrieveFacts.
Variable hnsw_search :
  Faiss.IndexHNSWFlat -> vec -> Z -> result (list Q * list Z).
Variable search_time : Q.

Lemma retrieve_inv (vs vs' : FAISSHNSWStore.t) (q : Retriever.query_data)
    (k : Z) (max_distance : Q) (hits : list Retriever.ranked) :
  Retriever.retrieve hnsw_search search_time vs q k max_distance
  = (Ok hits, vs') ->
  exists base scored,
    FAISSHNSWStore.search hnsw_search search_time vs
      (Retriever.embedding q) (k * 3) = (Ok base, vs')
    /\ Forall2 (scored_from q)
         (filter
            (fun r => Qle_bool (SearchHit.distance r) max_distance = true)
            base) scored
    /\ hits = Py.take_upto k (sorted_desc Retriever.final_score scored).
Proof.
  unfold Retriever.retrieve. intros H.
  destruct (FAISSHNSWStore.search _ _ vs _ _) as [[base|e] vs1];
    [|discriminate].
  injection H as H <-. apply rerank_inv in H.
  destruct H as (scored & Hscored & Hhits). eauto.
Qed.
End RetrieveFacts.

Lemma survivors_within (max_distance : Q) (base : list SearchHit.t) :
  Forall (fun h => (SearchHit.distance h <= max_distance)%Q)
    (filter (fun r => Qle_bool (SearchHit.distance r) max_distance = true)
       base).
Proof.
  apply Forall_forall. intros h Hh. apply list_elem_of_filter in Hh.
  destruct Hh as [Hle _]. now apply Qle_bool_iff.
Qed.

Lemma Forall2_Forall_both {A B} (R : A -> B -> Prop) (P : A -> Prop)
    (P' : B -> Prop) (l : list A) (l' : list B) :
  (forall x y, R x y -> P x -> P' y) ->
  Forall2 R l l' -> Forall P l -> Forall P' l'.
Proof.
  intros HP. induction 1; intros Hl; inversion Hl; subst; constructor; eauto.
Qed.


(** C2. Every hit [retrieve] returns has distance <= max_distance; and when
    no hit of the base search passes the distance gate, [retrieve] returns
    the empty list and raises nothing. *)
Theorem retrieve_distance_gate :
  forall hnsw_search search_time vs q k max_distance,
    (forall hits vs',
       Retriever.retrieve hnsw_search search_time vs q k max_distance
       = (Ok hits, vs') ->
       Forall (fun r =>
                 (SearchHit.distance (Retriever.hit r) <= max_distance)%Q)
         hits)
    /\ (forall base vs',
          FAISSHNSWStore.search hnsw_search search_time vs
            (Retriever.embedding q) (k * 3) = (Ok base, vs') ->
          Forall (fun h => ~ (SearchHit.distance h <= max_distance)%Q) base ->
          Retriever.retrieve hnsw_search search_time vs q k max_distance
          = (Ok [], vs')).
Proof.
  intros hnsw_search search_time vs q k max_distance. split.
  - intros hits vs' H. apply retrieve_inv in H.
    destruct H as (base & scored & _ & Hsc & ->).
    apply take_upto_Forall. rewrite sorted_desc_perm.
    eapply Forall2_Forall_both; [|exact Hsc|apply survivors_within].
    intros h r (<- & _) Hle. exact Hle.
  - intros base vs' Hs Hnone. unfold Retriever.retrieve. rewrite Hs.
    now rewrite rerank_no_survivor.
Qed.

(** C4. In [retrieve], a hit that passed the distance gate gets
    meta_score 0 when the filters are absent or empty, and no division is
    attempted; otherwise it gets the number of filter keys whose value
    equals the hit's metadata value for that key, divided by the number of
    filter keys, which lies in [0,1].  Computing meta_score never raises. *)
Theorem retrieve_meta_score :
  (forall filters r,
     filters = None \/ filters = Some ∅ ->
     Retriever.meta_score_of filters r = Ok 0%Q)
  /\ (forall (filters : gmap string scalar) r,
        filters <> ∅ ->
        let matching :=
          size (filter
                  (fun kv : string * scalar =>
                     py_eq (dict_get (SearchHit.metadata r) kv.1) kv.2 = true)
                  filters) in
        Retriever.meta_score_of (Some filters) r
        = Ok (inject_Z (Z.of_nat matching)
              / inject_Z (Z.of_nat (size filters)))%Q
        /\ (0 <= inject_Z (Z.of_nat matching)
                 / inject_Z (Z.of_nat (size filters)) <= 1)%Q)
  /\ (forall filters r,
        exists x, Retriever.meta_score_of filters r = Ok x
                  /\ (0 <= x <= 1)%Q)
  /\ (forall hnsw_search search_time vs q k max_distance hits vs',
        Retriever.retrieve hnsw_search search_time vs q k max_distance
        = (Ok hits, vs') ->
        exists base scored,
          FAISSHNSWStore.search hnsw_search search_time vs
            (Retriever.embedding q) (k * 3) = (Ok base, vs')
          /\ Retriever.hit <$> scored
             = filter
                 (fun r =>
                    Qle_bool (SearchHit.distance r) max_distance = true)
                 base
          /\ hits = Py.take_upto k (sorted_desc Retriever.final_score scored)
          /\ Forall (fun r =>
                       Retriever.meta_score_of (Retriever.metadata_filters q)
                         (Retriever.hit r) = Ok (Retriever.meta_score r)
                       /\ (0 <= Retriever.meta_score r <= 1)%Q) scored).
Proof.
  split; [exact meta_score_of_unfiltered|]. split; [|split].
  - intros filters r Hne matching.
    assert (Hm : Retriever.meta_match_count filters r = Z.of_nat matching).
    { unfold Retriever.meta_match_count, matching.
      now rewrite size_map_filter. }
    rewrite <- Hm. change (Z.of_nat (size filters)) with (dict_len filters).
    split; [now apply meta_score_of_filtered|].
    apply ratio_bounds; [apply meta_match_count_bounds|].
    apply map_size_non_empty_iff in Hne. unfold dict_len. lia.
  - exact meta_score_of_range.
  - intros hnsw_search search_time vs q k max_distance hits vs' H.
    apply retrieve_inv in H. destruct H as (base & scored & Hs & Hsc & ->).
    exists base, scored. split; [exact Hs|].
    split; [now apply Forall2_scored_hits with (q := q)|].
    split; [reflexivity|].
    eapply Forall2_Forall_r; [|exact Hsc].
    intros h r (<- & Hm & _). split; [exact Hm|].
    destruct (meta_score_of_range (Retriever.metadata_filters q)
                (Retriever.hit r)) as (x & Hx & Hrange).
    rewrite Hm in Hx. injection Hx as <-. exact Hrange.
Qed.

(** ** FAISSHNSWStore.search_with_metadata *)

Lemma enumerate_lookup {A} (l : list A) (start : Z) (n : nat) :
  Py.enumerate start l !! n = (fun x => (start + Z.of_nat n, x)) <$> l !! n.
Proof.
  revert start n. induction l as [|x l IH]; intros start [|n]; simpl;
    try reflexivity.
  - f_equal. f_equal. lia.
  - rewrite IH. destruct (l !! n); simpl; [|reflexivity].
    f_equal. f_equal. lia.
Qed.

Lemma length_enumerate {A} (l : list A) (start : Z) :
  length (Py.enumerate start l) = length l.
Proof. revert start. induction l; intros; simpl; auto. Qed.

Lemma elem_of_enumerate {A} (l : list A) (start i : Z) (x : A) :
  (i, x) ∈ Py.enumerate start l
  <-> exists n : nat, i = start + Z.of_nat n /\ l !! n = Some x.
Proof.
  rewrite list_elem_of_lookup. split.
  - intros [n Hn]. rewrite enumerate_lookup in Hn.
    destruct (l !! n) as [y|] eqn:Hy; [|discriminate].
    simpl in Hn. injection Hn as <- <-. eauto.
  - intros (n & -> & Hn). exists n. now rewrite enumerate_lookup, Hn.
Qed.

Lemma enumerate_fmap {A B} (f : A -> B) (l : list A) (start : Z) :
  Py.enumerate start (f <$> l)
  = (fun ix => (ix.1, f ix.2)) <$> Py.enumerate start l.
Proof.
  revert start. induction l as [|x l IH]; intros start; simpl;
    [reflexivity|]. now rewrite IH.
Qed.

Lemma take_upto_fmap {A B} (f : A -> B) (k : Z) (l : list A) :
  Py.take_upto k (f <$> l) = f <$> Py.take_upto k l.
Proof.
  unfold Py.take_upto. rewrite length_fmap.
  destruct (0 <=? k); now rewrite fmap_take.
Qed.

Lemma index_in_range {A} (l : list A) (n : nat) (x : A) :
  l !! n = Some x -> Py.index l (Z.of_nat n) = Ok x.
Proof.
  intros H. unfold Py.index.
  destruct (Z.ltb_spec (Z.of_nat n) 0) as [Hneg|_]; [lia|].
  destruct (Z.ltb_spec (Z.of_nat n) 0) as [Hneg|_]; [lia|].
  now rewrite Nat2Z.id, H.
Qed.

Section SortMap.
Context {A B : Type} (before : A -> A -> bool) (before' : B -> B -> bool)
  (g : A -> B).


End SortMap.



Lemma matches_all_every (filters : gmap string scalar)
    (m : gmap string value) :
  FAISSHNSWStore.matches_all filters m = true
  <-> Describe.matches_every filters m.
Proof.
  unfold FAISSHNSWStore.matches_all, Describe.matches_every.
  rewrite forallb_forall. split.
  - intros H key val Hk. apply (H (key, val)).
    apply list_elem_of_In. now apply elem_of_map_to_list.
  - intros H [key val] Hin. apply list_elem_of_In in Hin.
    apply elem_of_map_to_list in Hin. now apply H.
Qed.

Lemma candidate_indices_spec (self : FAISSHNSWStore.t)
    (filters : gmap string scalar) (c : Z) :
  c ∈ FAISSHNSWStore.candidate_indices self filters
  <-> exists (n : nat) (m : gmap string value),
        c = Z.of_nat n
        /\ FAISSHNSWStore.metadata self !! n = Some m
        /\ FAISSHNSWStore.matches_all filters m = true.
Proof.
  unfold FAISSHNSWStore.candidate_indices.
  rewrite list_elem_of_fmap. split.
  - intros ([i m] & -> & H). apply list_elem_of_filter in H.
    destruct H as [Hm H]. apply elem_of_enumerate in H.
    destruct H as (n & -> & Hn). exists n, m. simpl in *.
    split; [lia|]. split; [exact Hn|].
    now destruct (FAISSHNSWStore.matches_all filters m).
  - intros (n & m & -> & Hn & Hm). exists (Z.of_nat n, m).
    split; [reflexivity|]. apply list_elem_of_filter. split.
    + simpl. now rewrite Hm.
    + apply elem_of_enumerate. exists n. split; [lia|exact Hn].
Qed.

Lemma reconstruct_stored (ix : Faiss.IndexHNSWFlat) (n : nat) (v : vec) :
  Faiss.xb ix !! n = Some v -> Faiss.reconstruct ix (Z.of_nat n) = Ok v.
Proof.
  intros H. unfold Faiss.reconstruct.
  destruct (Z.ltb_spec (Z.of_nat n) 0) as [Hneg|_]; [lia|].
  now rewrite Nat2Z.id, H.
Qed.


Lemma take_upto_subset {A} (k : Z) (l : list A) (x : A) :
  x ∈ Py.take_upto k l -> x ∈ l.
Proof.
  destruct (take_upto_prefix k l) as [n ->]. intros H.
  apply list_elem_of_lookup in H. destruct H as [i H].
  apply lookup_take_Some in H. destruct H as [H _].
  apply list_elem_of_lookup. eauto.
Qed.

Section SearchFilteredFacts.
Variable sqrt : Q -> Q.
Variables (self : FAISSHNSWStore.t) (query : vec).
Hypothesis self_wf : Invariant.wf self.
Hypothesis query_dim :
  Z.of_nat (length query) = FAISSHNSWStore.dimension self.


End SearchFilteredFacts.

Lemma enumerate_NoDup_fst {A} (l : list A) (start : Z) :
  NoDup (fst <$> Py.enumerate start l).
Proof.
  apply NoDup_fmap_fst.
  - intros i x y Hx Hy. apply elem_of_enumerate in Hx, Hy.
    destruct Hx as (n & -> & Hn), Hy as (n' & Heq & Hn').
    assert (n = n') by lia. subst n'. congruence.
  - apply NoDup_alt. intros i j [p x] Hi Hj.
    rewrite enumerate_lookup in Hi, Hj.
    destruct (l !! i); [|discriminate]. destruct (l !! j); [|discriminate].
    simpl in Hi, Hj. injection Hi as Hi _. injection Hj as Hj _. lia.
Qed.




Section RankedHitsFacts.
Variable sqrt : Q -> Q.
Variables (self : FAISSHNSWStore.t) (query : vec).




End RankedHitsFacts.

Section FilteredSearchResult.
Variable sqrt : Q -> Q.
Variables (self : FAISSHNSWStore.t) (query : vec).
Hypothesis self_wf : Invariant.wf self.
Hypothesis query_dim :
  Z.of_nat (length query) = FAISSHNSWStore.dimension self.


End FilteredSearchResult.





(** ** The statements at work on concrete data *)


Lemma technology_non_empty : Fixture.technology <> ∅.
Proof.
  intros H. apply (f_equal (fun m => m !! "domain"%string)) in H.
  vm_compute in H. discriminate.
Qed.


Lemma retrieve_distance_gate_witness :
  Retriever.retrieve Fixture.flat_search 0%Q Fixture.store3 Fixture.query3
    2 (-1)%Q = (Ok [], Fixture.store3).
Proof.
  destruct (FAISSHNSWStore.search Fixture.flat_search 0%Q Fixture.store3
              (Retriever.embedding Fixture.query3) (2 * 3))
    as [[base|e] vs'] eqn:H.
  - destruct (retrieve_distance_gate Fixture.flat_search 0%Q Fixture.store3
                Fixture.query3 2 (-1)%Q) as [_ Hgate].
    pose proof (Hgate base vs' H) as Hempty.
    vm_compute in H. injection H as <- <-.
    apply Hempty.
    repeat constructor; vm_compute; intros Hle; now apply Hle.
  - exfalso. vm_compute in H. discriminate.
Defined.

Lemma add_embeddings_appends_witness :
  exists self',
    FAISSHNSWStore.add_embeddings Fixture.empty_store Fixture.vectors3
      Fixture.metadata3 Fixture.texts3 = (Ok tt, self')
    /\ Faiss.ntotal (FAISSHNSWStore.index self') = 3
    /\ length (FAISSHNSWStore.metadata self')
       = length (FAISSHNSWStore.chunk_texts self').
Proof.
  destruct add_embeddings_appends as [Hinit Hadd].
  destruct (Hadd Fixture.empty_store Fixture.vectors3 Fixture.metadata3
              Fixture.texts3 (Hinit 2 32 200 50) eq_refl eq_refl)
    as (self' & Hrun & _ & Hlen & _ & Hcount & _).
  - repeat constructor.
  - exists self'. split; [exact Hrun|]. split; [exact Hcount|exact Hlen].
Defined.



Lemma search_widens_then_restores_efSearch_witness :
  Faiss.ntotal (FAISSHNSWStore.index Fixture.store3) = 3
  /\ Faiss.efSearch
       (Faiss.set_efSearch
          (Z.max (FAISSHNSWStore.ef_search Fixture.store3) (2 * 40))
          (FAISSHNSWStore.index Fixture.store3)) = 80
  /\ (forall outcome self',
        FAISSHNSWStore.search Fixture.flat_search 0%Q Fixture.store3
          [0; 0]%Q 40 = (outcome, self') ->
        self' = Fixture.store3)
  /\ (forall outcome self',
        FAISSHNSWStore.search Fixture.failing_search 0%Q Fixture.store3
          [0; 0]%Q 40 = (outcome, self') ->
        FAISSHNSWStore.metadata self'
        = FAISSHNSWStore.metadata Fixture.store3).
Proof.
  assert (Hn : Faiss.ntotal (FAISSHNSWStore.index Fixture.store3) <> 0)
    by (vm_compute; discriminate).
  split; [reflexivity|].
  destruct (search_widens_then_restores_efSearch Fixture.flat_search 0%Q
              Fixture.store3 [0; 0]%Q 40 Hn) as (Hef & _ & _ & Hframe).
  split; [exact Hef|]. split.
  - intros outcome self' H. destruct (Hframe outcome self' H) as (Hback & _).
    apply Hback. reflexivity.
  - intros outcome self' H.
    destruct (search_widens_then_restores_efSearch Fixture.failing_search
                0%Q Fixture.store3 [0; 0]%Q 40 Hn) as (_ & _ & _ & Hframe').
    destruct (Hframe' outcome self' H) as (_ & _ & Hmeta & _). exact Hmeta.
Defined.

Lemma add_embeddings_rejects_wrong_dimension_witness :
  exists e,
    FAISSHNSWStore.add_embeddings Fixture.store3 [[1; 2; 3]%Q]
      [Fixture.tagged "science"] ["delta"%string]
    = (Raise e, Fixture.store3).
Proof.
  destruct (add_embeddings_rejects_wrong_dimension Fixture.store3
              [[1; 2; 3]%Q] [Fixture.tagged "science"] ["delta"%string]
              eq_refl)
    as (e & self' & Hrun & -> & _).
  - apply Exists_cons_hd. vm_compute. discriminate.
  - exists e. exact Hrun.
Defined.


Lemma retrieve_meta_score_witness :
  Retriever.meta_score_of None (Describe.stored_hit Fixture.sqrt_floor
                                  Fixture.store3 [0; 0]%Q 1 0) = Ok 0%Q
  /\ Retriever.meta_score_of (Some ∅)
       (Describe.stored_hit Fixture.sqrt_floor Fixture.store3 [0; 0]%Q 1 0)
     = Ok 0%Q
  /\ exists x,
       Retriever.meta_score_of (Some Fixture.technology)
         (Describe.stored_hit Fixture.sqrt_floor Fixture.store3 [0; 0]%Q 1 1)
       = Ok x /\ (x == 0)%Q.
Proof.
  destruct retrieve_meta_score as (Hnone & Hsome & _ & _).
  split; [apply Hnone; now left|]. split; [apply Hnone; now right|].
  destruct (Hsome Fixture.technology
              (Describe.stored_hit Fixture.sqrt_floor Fixture.store3
                 [0; 0]%Q 1 1) technology_non_empty) as [Hrun _].
  eexists. split; [exact Hrun|]. vm_compute. reflexivity.
Defined.

(** ** When the calls run to the end *)

Lemma mapM_total {A B} (f : A -> result B) (P : A -> B -> Prop)
    (l : list A) :
  Forall (fun x => exists y, f x = Ok y /\ P x y) l ->
  exists l', mapM f l = Ok l' /\ Forall2 P l l'.
Proof.
  induction 1 as [|x l (y & Hy & HP) _ (l' & Hl' & HF)]; simpl.
  - exists []. split; [reflexivity|constructor].
  - exists (y :: l'). rewrite Hy. simpl. rewrite Hl'. simpl.
    split; [reflexivity|now constructor].
Qed.

Lemma intent_score_fn_ok (meta : gmap string value)
    (intent flags : gmap string scalar) :
  Retriever.intent_of meta = Ok flags ->
  exists n, Retriever.intent_score_fn meta intent = Ok n.
Proof.
  intros Hflags. unfold Retriever.intent_score_fn.
  generalize (map_to_list intent) as l. generalize 0 as acc.
  intros acc l.
  match goal with |- context [foldl ?f _ _] => set (step := f) end.
  assert (Hstep : forall a kv, exists a', step (Ok a) kv = Ok a').
  { intros a kv. subst step. cbn.
    destruct (truthy kv.2); [|eauto]. rewrite Hflags. cbn.
    destruct (truthy (scalar_get flags kv.1)); eauto. }
  clearbody step.
  revert acc. induction l as [|kv l IH]; intros acc; simpl; [eauto|].
  destruct (Hstep acc kv) as [a' ->]. apply IH.
Qed.

Lemma intent_score_of_ok (query_intent : option (gmap string scalar))
    (h : SearchHit.t) :
  is_ok (Retriever.intent_of (SearchHit.metadata h)) = true ->
  exists n, Retriever.intent_score_of query_intent h = Ok n.
Proof.
  intros Hok. unfold Retriever.intent_score_of.
  destruct query_intent as [intent|]; [|eauto].
  destruct (dict_truthy (Some intent)); [|eauto].
  destruct (Retriever.intent_of (SearchHit.metadata h)) as [flags|e] eqn:Hf;
    [|discriminate].
  now apply intent_score_fn_ok with (flags := flags).
Qed.

Lemma rerank_returns (q : Retriever.query_data) (k : Z) (max_distance : Q)
    (base : list SearchHit.t) :
  Forall (fun h => is_ok (Retriever.intent_of (SearchHit.metadata h)) = true)
    (filter (fun r => Qle_bool (SearchHit.distance r) max_distance = true)
       base) ->
  exists hits, Retriever.rerank q k max_distance base = Ok hits.
Proof.
  intros Hok. unfold Retriever.rerank.
  destruct (mapM_total
              (Retriever.with_meta_score (Retriever.metadata_filters q))
              (fun h hm => hm.1 = h)
              (filter
                 (fun r =>
                    Qle_bool (SearchHit.distance r) max_distance = true)
                 base)) as (wm & Hwm & Hrel).
  { apply Forall_forall. intros h _.
    destruct (meta_score_of_range (Retriever.metadata_filters q) h)
      as (x & Hx & _).
    exists (h, x). unfold Retriever.with_meta_score. now rewrite Hx. }
  rewrite Hwm. simpl.
  destruct (mapM_total
              (Retriever.with_intent_score (Retriever.query_intent q))
              (fun _ _ => True) wm) as (wi & Hwi & _).
  { eapply Forall2_Forall_both; [|exact Hrel|exact Hok].
    intros h hm <- Hh. simpl in Hh.
    destruct (intent_score_of_ok (Retriever.query_intent q) hm.1 Hh)
      as (n & Hn).
    exists (hm, n). unfold Retriever.with_intent_score. rewrite Hn.
    split; [reflexivity|exact I]. }
  rewrite Hwi. simpl. eauto.
Qed.

(** X1. Once the base search has returned, [retrieve] returns a list whenever
    the [intent] entry of every hit that passed the distance gate is a
    dictionary or is missing. *)
Theorem retrieve_returns :
  forall hnsw_search search_time vs q k max_distance base vs',
    FAISSHNSWStore.search hnsw_search search_time vs
      (Retriever.embedding q) (k * 3) = (Ok base, vs') ->
    Forall (fun h =>
              is_ok (Retriever.intent_of (SearchHit.metadata h)) = true)
      (filter (fun r => Qle_bool (SearchHit.distance r) max_distance = true)
         base) ->
    exists hits,
      Retriever.retrieve hnsw_search search_time vs q k max_distance
      = (Ok hits, vs').
Proof.
  intros hnsw_search search_time vs q k max_distance base vs' Hs Hok.
  unfold Retriever.retrieve. rewrite Hs.
  destruct (rerank_returns q k max_distance base Hok) as (hits & ->).
  eauto.
Qed.

Lemma retrieve_returns_witness :
  exists hits,
    Retriever.retrieve Fixture.flat_search 0%Q Fixture.store3 Fixture.query3
      2 10%Q = (Ok hits, Fixture.store3).
Proof.
  destruct (FAISSHNSWStore.search Fixture.flat_search 0%Q Fixture.store3
              (Retriever.embedding Fixture.query3) (2 * 3))
    as [[base|e] vs'] eqn:H.
  - pose proof (retrieve_returns Fixture.flat_search 0%Q Fixture.store3
                  Fixture.query3 2 10%Q base vs' H) as Hret.
    vm_compute in H. injection H as <- <-.
    apply Hret. repeat constructor.
  - exfalso. vm_compute in H. discriminate.
Defined.

Lemma index_nonneg {A} (l : list A) (i : Z) (x : A) :
  0 <= i -> l !! Z.to_nat i = Some x -> Py.index l i = Ok x.
Proof.
  intros Hi H. rewrite <- (Z2Nat.id i) by exact Hi.
  now apply index_in_range.
Qed.

Lemma search_results_returns (search_time : Q) (self : FAISSHNSWStore.t)
    (rows : list (Z * (Q * Z))) :
  length (FAISSHNSWStore.metadata self)
  = length (FAISSHNSWStore.chunk_texts self) ->
  Forall (fun row => -1 <= row.2.2) rows ->
  exists hits,
    FAISSHNSWStore.search_results search_time self rows = Ok hits
    /\ (length hits <= length rows)%nat.
Proof.
  intros Hlen. induction 1 as [|[i [dist idx]] rows Hidx _ IH]; simpl.
  - exists []. split; [reflexivity|simpl; lia].
  - destruct IH as (hits & Hhits & Hle). simpl in Hidx.
    destruct (Z.eqb_spec idx (-1)) as [->|Hne]; simpl.
    + exists hits. split; [exact Hhits|lia].
    + destruct (Z.ltb_spec idx
                  (Z.of_nat (length (FAISSHNSWStore.metadata self))))
        as [Hlt|Hge].
      * destruct (lookup_lt_is_Some_2 (FAISSHNSWStore.metadata self)
                    (Z.to_nat idx)) as [meta Hmeta]; [lia|].
        destruct (lookup_lt_is_Some_2 (FAISSHNSWStore.chunk_texts self)
                    (Z.to_nat idx)) as [txt Htxt]; [lia|].
        unfold FAISSHNSWStore.search_hit.
        rewrite (index_nonneg _ idx txt) by (auto; lia). simpl.
        rewrite (index_nonneg _ idx meta) by (auto; lia). simpl.
        rewrite Hhits. simpl. eexists. split; [reflexivity|simpl; lia].
      * exists hits. split; [exact Hhits|lia].
Qed.

(** X2. On a store whose metadata and texts have one length, [search] returns
    a list, and leaves the store as it found it, whenever the graph
    traversal returns labels that are [-1] or non-negative. *)
Theorem search_returns :
  forall hnsw_search search_time self query k distances indices,
    length (FAISSHNSWStore.metadata self)
    = length (FAISSHNSWStore.chunk_texts self) ->
    hnsw_search
      (Faiss.set_efSearch (Z.max (FAISSHNSWStore.ef_search self) (k * 2))
         (FAISSHNSWStore.index self)) query k = Ok (distances, indices) ->
    Forall (fun idx => -1 <= idx) indices ->
    exists hits,
      FAISSHNSWStore.search hnsw_search search_time self query k
      = (Ok hits, self)
      /\ (length hits <= length indices)%nat.
Proof.
  intros hnsw_search search_time self query k distances indices Hlen Hrun
    Hidx.
  rewrite search_unfold.
  destruct (Faiss.ntotal (FAISSHNSWStore.index self) =? 0).
  - exists []. split; [reflexivity|simpl; lia].
  - cbv zeta. rewrite Hrun.
    destruct (search_results_returns search_time self
                (Py.enumerate 0 (zip distances indices)) Hlen)
      as (hits & Hhits & Hle).
    + apply Forall_forall. intros [i [dist idx]] Hin.
      apply elem_of_enumerate in Hin. destruct Hin as (n & _ & Hn).
      apply list_elem_of_lookup_2 in Hn. apply elem_of_zip_r in Hn.
      rewrite Forall_forall in Hidx. simpl. now apply Hidx.
    + exists hits. rewrite Hhits. split; [reflexivity|].
      rewrite length_enumerate, length_zip in Hle. lia.
Qed.

Lemma search_returns_witness :
  exists hits,
    FAISSHNSWStore.search Fixture.flat_search 0%Q Fixture.store3 [0; 0]%Q 5
    = (Ok hits, Fixture.store3)
    /\ (length hits <= 5)%nat.
Proof.
  apply (search_returns Fixture.flat_search 0%Q Fixture.store3 [0; 0]%Q 5
           [0; 1; 25; 1000000 # 1; 1000000 # 1]%Q [0; 2; 1; -1; -1]).
  - reflexivity.
  - vm_compute. reflexivity.
  - repeat constructor; lia.
Defined.

Lemma index_elem {A} (l : list A) (i : Z) (x : A) :
  Py.index l i = Ok x -> exists n : nat, l !! n = Some x.
Proof.
  unfold Py.index.
  destruct (_ <? 0); [discriminate|].
  destruct (l !! _) as [y|] eqn:Hy; [|discriminate].
  intros H. injection H as <-. eauto.
Qed.

Lemma Forall2_sorted {A B} (R : A -> B -> Prop) (S : A -> A -> Prop)
    (S' : B -> B -> Prop) (l : list A) (l' : list B) :
  (forall a b a' b', R a a' -> R b b' -> S a b -> S' a' b') ->
  Forall2 R l l' -> StronglySorted S l -> StronglySorted S' l'.
Proof.
  intros HS. induction 1 as [|a a' l l' Ha Hl IH]; intros Hs; [constructor|].
  inversion Hs as [|? ? Hs' Hall]; subst. constructor; [now apply IH|].
  clear IH Hs Hs'. induction Hl as [|b b' l l' Hb _ IH]; [constructor|].
  inversion Hall; subst. constructor; eauto.
Qed.

Lemma Forall2_impl_elem {A B} (R R' : A -> B -> Prop) (l : list A)
    (l' : list B) :
  Forall2 R l l' ->
  (forall x y, x ∈ l -> R x y -> R' x y) ->
  Forall2 R' l l'.
Proof.
  induction 1 as [|x y l l' Hxy _ IH]; intros HR; constructor.
  - apply HR; [apply list_elem_of_here|exact Hxy].
  - apply IH. intros a b Ha. apply HR. now apply list_elem_of_further.
Qed.

Lemma enumerate_sorted {A} (R : A -> A -> Prop) (l : list A) (start : Z) :
  StronglySorted R l ->
  StronglySorted (fun a b : Z * A => R a.2 b.2) (Py.enumerate start l).
Proof.
  intros H. revert start.
  induction H as [|x l _ IH Hall]; intros start; simpl; constructor.
  - apply IH.
  - apply Forall_forall. intros [r y] Hin.
    apply elem_of_enumerate in Hin. destruct Hin as (n & _ & Hn).
    rewrite Forall_forall in Hall. simpl. apply Hall.
    apply list_elem_of_lookup. eauto.
Qed.

Lemma metadata_hit_fields (self : FAISSHNSWStore.t) (candidates : list Z)
    (distances : list Q) (rank idx : Z) (h : SearchHit.t) :
  FAISSHNSWStore.metadata_hit self candidates distances rank idx = Ok h ->
  exists true_idx,
    Py.index candidates idx = Ok true_idx
    /\ Py.index distances idx = Ok (SearchHit.distance h)
    /\ Py.index (FAISSHNSWStore.chunk_texts self) true_idx
       = Ok (SearchHit.text h)
    /\ Py.index (FAISSHNSWStore.metadata self) true_idx
       = Ok (SearchHit.metadata h)
    /\ SearchHit.rank h = rank
    /\ SearchHit.score h = similarity_score (SearchHit.distance h).
Proof.
  unfold FAISSHNSWStore.metadata_hit. intros H.
  destruct (Py.index candidates idx) as [c|e] eqn:Hc; [|discriminate].
  simpl in H.
  destruct (Py.index distances idx) as [x|e] eqn:Hx; [|discriminate].
  simpl in H.
  destruct (Py.index (FAISSHNSWStore.chunk_texts self) c) as [txt|e] eqn:Ht;
    [|discriminate].
  simpl in H.
  destruct (Py.index (FAISSHNSWStore.metadata self) c) as [meta|e] eqn:Hm;
    [|discriminate].
  simpl in H. injection H as <-. simpl. exists c.
  repeat split; first [reflexivity|assumption].
Qed.

(** Whatever the state of the store, when the filtered branch returns, its
    hits are stored records that match every filter pair, in ascending
    order of distance. *)
Lemma search_filtered_sound (sqrt : Q -> Q) (self : FAISSHNSWStore.t)
    (query : vec) (filters : gmap string scalar) (k : Z)
    (hits : list SearchHit.t) :
  FAISSHNSWStore.search_filtered sqrt self query filters k = Ok hits ->
  Forall (fun h =>
            Describe.matches_every filters (SearchHit.metadata h)
            /\ exists n : nat,
                 FAISSHNSWStore.metadata self !! n
                 = Some (SearchHit.metadata h)
                 /\ FAISSHNSWStore.chunk_texts self !! n
                    = Some (SearchHit.text h)) hits
  /\ StronglySorted
       (fun a b => (SearchHit.distance a <= SearchHit.distance b)%Q) hits.
Proof.
  unfold FAISSHNSWStore.search_filtered.
  pose proof (candidate_indices_spec self filters) as Hspec.
  set (cs := FAISSHNSWStore.candidate_indices self filters) in *.
  destruct cs as [|c0 cs0] eqn:Hcs.
  { intros H. injection H as <-. split; constructor. }
  rewrite <- Hcs in *. clear Hcs c0 cs0.
  destruct (mapM (Faiss.reconstruct _) cs) as [embs|e]; [|discriminate].
  cbn [mbind result_bind].
  destruct (mapM _ embs) as [diffs|e]; [|discriminate].
  cbn [mbind result_bind]. cbv zeta.
  set (ds := FAISSHNSWStore.norm sqrt <$> diffs).
  intros H. apply mapM_Forall2 in H.
  unfold FAISSHNSWStore.argsort in H.
  rewrite take_upto_fmap, enumerate_fmap in H.
  apply Forall2_fmap_l in H.
  set (pairs := Py.take_upto k (sorted_asc snd (Py.enumerate 0 ds))) in *.
  assert (Hpairs : forall px : Z * Q,
             px ∈ pairs -> Py.index ds px.1 = Ok px.2).
  { intros [p x] Hin. apply take_upto_subset in Hin.
    rewrite (sorted_asc_perm snd) in Hin.
    apply elem_of_enumerate in Hin. destruct Hin as (n & -> & Hn).
    simpl. now apply index_in_range. }
  assert (Hrel : Forall2
                   (fun (rp : Z * (Z * Q)) h =>
                      FAISSHNSWStore.metadata_hit self cs ds rp.1 rp.2.1
                      = Ok h /\ rp.2 ∈ pairs)
                   (Py.enumerate 1 pairs) hits).
  { eapply Forall2_impl_elem; [exact H|]. intros [r [p x]] h Hin Hh.
    split; [exact Hh|]. apply elem_of_enumerate in Hin.
    destruct Hin as (n & _ & Hn). apply list_elem_of_lookup. eauto. }
  clear H. split.
  - eapply Forall2_Forall_r; [|exact Hrel].
    intros [r [p x]] h [Hh _]. simpl in Hh.
    apply metadata_hit_fields in Hh.
    destruct Hh as (c & Hc & _ & Ht & Hm & _).
    apply index_elem in Hc. destruct Hc as [j Hj].
    assert (Hin : c ∈ cs) by (apply list_elem_of_lookup; eauto).
    apply Hspec in Hin. destruct Hin as (n & m & -> & Hmn & Hall).
    rewrite (index_in_range _ _ _ Hmn) in Hm. injection Hm as Hm.
    split; [rewrite <- Hm; now apply matches_all_every|].
    exists n. rewrite <- Hm. split; [exact Hmn|].
    unfold Py.index in Ht.
    destruct (Z.ltb_spec (Z.of_nat n) 0) as [Hneg|_]; [lia|].
    destruct (Z.ltb_spec (Z.of_nat n) 0) as [Hneg|_]; [lia|].
    rewrite Nat2Z.id in Ht.
    destruct (FAISSHNSWStore.chunk_texts self !! n); [|discriminate].
    now injection Ht as ->.
  - assert (Hsorted : StronglySorted
                        (fun a b : Z * (Z * Q) => (a.2.2 <= b.2.2)%Q)
                        (Py.enumerate 1 pairs)).
    { apply (enumerate_sorted (fun a b : Z * Q => (a.2 <= b.2)%Q)).
      apply take_upto_sorted, (sorted_asc_sorted snd). }
    eapply Forall2_sorted; [|exact Hrel|exact Hsorted].
    intros [r [p x]] [r' [p' x']] h h' [Hh Hin] [Hh' Hin'] Hle.
    simpl in *. apply metadata_hit_fields in Hh, Hh'.
    destruct Hh as (_ & _ & Hd & _), Hh' as (_ & _ & Hd' & _).
    pose proof (Hpairs _ Hin) as Hx. pose proof (Hpairs _ Hin') as Hx'.
    simpl in Hx, Hx'. rewrite Hx in Hd. rewrite Hx' in Hd'.
    injection Hd as <-. injection Hd' as <-. exact Hle.
Qed.

(** X3. On any store and for any query, when [search_with_metadata] with a
    filters mapping returns, the store is unchanged and the hits are stored
    records whose metadata equals the filter value on every filter key, in
    ascending order of distance. *)
Theorem search_with_metadata_sound :
  forall hnsw_search search_time sqrt self query
         (filters : gmap string scalar) k hits self',
    FAISSHNSWStore.search_with_metadata hnsw_search search_time sqrt self
      query (Some filters) k = (Ok hits, self') ->
    self' = self
    /\ Forall (fun h =>
                 Describe.matches_every filters (SearchHit.metadata h)
                 /\ exists n : nat,
                      FAISSHNSWStore.metadata self !! n
                      = Some (SearchHit.metadata h)
                      /\ FAISSHNSWStore.chunk_texts self !! n
                         = Some (SearchHit.text h)) hits
    /\ StronglySorted
         (fun a b => (SearchHit.distance a <= SearchHit.distance b)%Q) hits.
Proof.
  intros hnsw_search search_time sqrt self query filters k hits self' H.
  unfold FAISSHNSWStore.search_with_metadata in H.
  injection H as H <-. split; [reflexivity|].
  now apply search_filtered_sound in H.
Qed.

Lemma search_with_metadata_sound_witness :
  exists hits,
    FAISSHNSWStore.search_with_metadata Fixture.failing_search 0%Q
      Fixture.sqrt_floor Fixture.store3 [0; 0]%Q (Some Fixture.technology) 1
    = (Ok hits, Fixture.store3)
    /\ length hits = 1%nat
    /\ Forall (fun h =>
                 Describe.matches_every Fixture.technology
                   (SearchHit.metadata h)) hits.
Proof.
  destruct (FAISSHNSWStore.search_with_metadata Fixture.failing_search 0%Q
              Fixture.sqrt_floor Fixture.store3 [0; 0]%Q
              (Some Fixture.technology) 1) as [[hits|e] self'] eqn:H.
  - destruct (search_with_metadata_sound _ _ _ _ _ _ _ _ _ H)
      as (-> & Hall & _).
    exists hits. split; [reflexivity|]. split.
    + vm_compute in H. injection H as <-. reflexivity.
    + eapply Forall_impl; [exact Hall|]. intros h [Hm _]. exact Hm.
  - exfalso. vm_compute in H. discriminate.
Defined.

(** * Further properties of the store *)

Lemma search_results_rows (search_time : Q) (self : FAISSHNSWStore.t)
    (rows : list (Z * (Q * Z))) (hits : list SearchHit.t) :
  FAISSHNSWStore.search_results search_time self rows = Ok hits ->
  exists kept,
    sublist kept rows
    /\ Forall2 (fun (row : Z * (Q * Z)) h =>
                  row.2.2 <> -1
                  /\ row.2.2 < Z.of_nat (length (FAISSHNSWStore.metadata self))
                  /\ FAISSHNSWStore.search_hit search_time self row.1
                       row.2.1 row.2.2 = Ok h) kept hits
    /\ Forall (fun row : Z * (Q * Z) =>
                 row ∈ kept
                 \/ row.2.2 = -1
                 \/ Z.of_nat (length (FAISSHNSWStore.metadata self))
                    <= row.2.2) rows.
Proof.
  revert hits. induction rows as [|[i [dist idx]] rows IH]; intros hits H;
    simpl in H.
  - injection H as <-. exists []. repeat constructor.
  - destruct (Z.eqb_spec idx (-1)) as [Heq|Hne]; simpl in H.
    + destruct (IH hits H) as (kept & Hsub & Hrel & Hall).
      exists kept. split; [now constructor|]. split; [exact Hrel|].
      constructor; [right; left; exact Heq|exact Hall].
    + destruct (Z.ltb_spec idx
                  (Z.of_nat (length (FAISSHNSWStore.metadata self))))
        as [Hlt|Hge].
      * destruct (FAISSHNSWStore.search_hit search_time self i dist idx)
          as [h|e] eqn:Hh; [|discriminate]. simpl in H.
        destruct (FAISSHNSWStore.search_results search_time self rows)
          as [hs|e]; [|discriminate]. simpl in H. injection H as <-.
        destruct (IH hs eq_refl) as (kept & Hsub & Hrel & Hall).
        exists ((i, (dist, idx)) :: kept).
        split; [now constructor|]. split.
        { constructor; [|exact Hrel]. simpl. auto. }
        constructor; [left; apply list_elem_of_here|].
        eapply Forall_impl; [exact Hall|]. intros row [Hin|Hrest].
        -- left. now apply list_elem_of_further.
        -- right. exact Hrest.
      * destruct (IH hits H) as (kept & Hsub & Hrel & Hall).
        exists kept. split; [now constructor|]. split; [exact Hrel|].
        constructor; [right; right; exact Hge|exact Hall].
Qed.

(** X4. When [search] returns on a non-empty index, its hits are, in the
    order of the traversal's answer, the stored records of the labels that
    are not [-1] and lie below len(metadata): a hit's text and metadata are
    read at the same label, its distance is the traversal's, and its rank
    is the 1-based position of the label in that answer, so a skipped label
    leaves a gap in the ranks. *)
Theorem search_hits_are_labelled_records :
  forall hnsw_search search_time self query k distances indices hits self',
    Faiss.ntotal (FAISSHNSWStore.index self) <> 0 ->
    hnsw_search
      (Faiss.set_efSearch (Z.max (FAISSHNSWStore.ef_search self) (k * 2))
         (FAISSHNSWStore.index self)) query k = Ok (distances, indices) ->
    FAISSHNSWStore.search hnsw_search search_time self query k
    = (Ok hits, self') ->
    exists kept : list (Z * (Q * Z)),
      sublist kept (Py.enumerate 0 (zip distances indices))
      /\ Forall2
           (fun (row : Z * (Q * Z)) h =>
              let label := row.2.2 in
              label <> -1
              /\ label < Z.of_nat (length (FAISSHNSWStore.metadata self))
              /\ SearchHit.rank h = row.1 + 1
              /\ SearchHit.distance h = row.2.1
              /\ Py.index (FAISSHNSWStore.chunk_texts self) label
                 = Ok (SearchHit.text h)
              /\ Py.index (FAISSHNSWStore.metadata self) label
                 = Ok (SearchHit.metadata h)) kept hits
      /\ Forall (fun row : Z * (Q * Z) =>
                   row ∈ kept
                   \/ row.2.2 = -1
                   \/ Z.of_nat (length (FAISSHNSWStore.metadata self))
                      <= row.2.2)
           (Py.enumerate 0 (zip distances indices))
      /\ (length hits <= length indices)%nat.
Proof.
  intros hnsw_search search_time self query k distances indices hits self'
    Hn Hrun H.
  rewrite search_unfold in H.
  destruct (Z.eqb_spec (Faiss.ntotal (FAISSHNSWStore.index self)) 0)
    as [H0|_]; [contradiction|].
  cbv zeta in H. rewrite Hrun in H. injection H as H _.
  destruct (search_results_rows _ _ _ _ H) as (kept & Hsub & Hrel & Hall).
  exists kept. split; [exact Hsub|]. split; [|split; [exact Hall|]].
  - eapply Forall2_impl; [exact Hrel|].
    intros [i [dist idx]] h (Hne & Hlt & Hh). simpl in *.
    apply search_hit_fields in Hh.
    destruct Hh as (Hr & Hd & _ & Ht & Hm). auto 10.
  - rewrite <- (Forall2_length _ _ _ Hrel).
    apply sublist_length in Hsub.
    rewrite length_enumerate, length_zip in Hsub. lia.
Qed.

(** ** Intent scores *)

Section IntentFold.
Variable meta : gmap string value.

(** One iteration of [for key, want in intent.items()]. *)
Let step (acc : result Z) (kv : string * scalar) : result Z :=
  score ← acc;
  if truthy kv.2 then
    flags ← Retriever.intent_of meta;
    if truthy (scalar_get flags kv.1) then Ok (score + 1) else Ok score
  else Ok score.

Lemma intent_step (acc : Z) (kv : string * scalar) :
  step (Ok acc) kv
  = if truthy kv.2 then
      match Retriever.intent_of meta with
      | Ok flags =>
          if truthy (scalar_get flags kv.1) then Ok (acc + 1) else Ok acc
      | Raise e => Raise e
      end
    else Ok acc.
Proof.
  unfold step. cbn. destruct (truthy kv.2); [|reflexivity].
  destruct (Retriever.intent_of meta); reflexivity.
Qed.

Lemma intent_fold_raise (e : exn) (l : list (string * scalar)) :
  foldl step (Raise e) l = Raise e.
Proof. induction l as [|kv l IH]; [reflexivity|exact IH]. Qed.

Lemma intent_fold_count (flags : gmap string scalar)
    (l : list (string * scalar)) (acc : Z) :
  Retriever.intent_of meta = Ok flags ->
  foldl step (Ok acc) l
  = Ok (acc + Z.of_nat (length (filter
          (fun kv : string * scalar =>
             truthy kv.2 = true /\ truthy (scalar_get flags kv.1) = true)
          l))).
Proof.
  intros Hflags. revert acc.
  induction l as [|kv l IH]; intros acc.
  - cbn. f_equal. lia.
  - cbn [foldl]. rewrite intent_step, Hflags, filter_cons.
    destruct (truthy kv.2) eqn:Hwant.
    + destruct (truthy (scalar_get flags kv.1)) eqn:Hflag.
      * rewrite decide_True by auto. rewrite IH. cbn [length]. f_equal. lia.
      * rewrite decide_False by (intros [_ H]; discriminate). apply IH.
    + rewrite decide_False by (intros [H _]; discriminate). apply IH.
Qed.

Lemma intent_fold_no_flag (l : list (string * scalar)) (acc : Z) :
  Forall (fun kv : string * scalar => truthy kv.2 = false) l ->
  foldl step (Ok acc) l = Ok acc.
Proof.
  intros H. revert acc. induction H as [|kv l Hkv _ IH]; intros acc;
    [reflexivity|].
  cbn [foldl]. rewrite intent_step, Hkv. apply IH.
Qed.

Lemma intent_fold_attribute_error (e : exn) (l : list (string * scalar))
    (acc : Z) :
  Retriever.intent_of meta = Raise e ->
  Exists (fun kv : string * scalar => truthy kv.2 = true) l ->
  foldl step (Ok acc) l = Raise e.
Proof.
  intros Hflags H. revert acc.
  induction H as [kv l Hkv|kv l _ IH]; intros acc; cbn [foldl];
    rewrite intent_step, Hflags.
  - rewrite Hkv. apply intent_fold_raise.
  - destruct (truthy kv.2); [apply intent_fold_raise|apply IH].
Qed.
End IntentFold.



(** X5. Step 4 of [retrieve]: with no intent map, or an empty one, the
    intent score is 0.  Otherwise, when the hit's metadata has no [intent]
    entry the score is 0, and when the entry is a dictionary the score is
    the number of keys that are truthy in the query intent and truthy in
    that dictionary, between 0 and the number of query flags.  When the
    entry is not a dictionary the call raises AttributeError as soon as one
    query flag is truthy, and gives 0 when none is. *)
Theorem retrieve_intent_score :
  (forall intent h,
     intent = None \/ intent = Some ∅ ->
     Retriever.intent_score_of intent h = Ok 0)
  /\ (forall (intent : gmap string scalar) h,
        intent <> ∅ ->
        SearchHit.metadata h !! "intent"%string = None ->
        Retriever.intent_score_of (Some intent) h = Ok 0)
  /\ (forall (intent flags : gmap string scalar) h,
        intent <> ∅ ->
        SearchHit.metadata h !! "intent"%string = Some (VDict flags) ->
        let both :=
          size (filter
                  (fun kv : string * scalar =>
                     truthy kv.2 = true
                     /\ truthy (scalar_get flags kv.1) = true) intent) in
        Retriever.intent_score_of (Some intent) h = Ok (Z.of_nat both)
        /\ (both <= size intent)%nat)
  /\ (forall (intent : gmap string scalar) h x,
        SearchHit.metadata h !! "intent"%string = Some (VScalar x) ->
        (map_Exists (fun _ want => truthy want = true) intent ->
         Retriever.intent_score_of (Some intent) h = Raise AttributeError)
        /\ (map_Forall (fun _ want => truthy want = false) intent ->
            Retriever.intent_score_of (Some intent) h = Ok 0)).
Proof.
  split; [|split; [|split]].
  - intros intent h [->| ->]; reflexivity.
  - intros intent h Hne Hnone.
    unfold Retriever.intent_score_of, dict_truthy, dict_len.
    apply map_size_non_empty_iff in Hne.
    destruct (Z.eqb_spec (Z.of_nat (size intent)) 0) as [H0|_]; [lia|].
    simpl. unfold Retriever.intent_score_fn.
    rewrite (intent_fold_count _ ∅)
      by (unfold Retriever.intent_of; now rewrite Hnone).
    f_equal. simpl.
    replace (filter _ (map_to_list intent)) with (@nil (string * scalar));
      [reflexivity|].
    symmetry. generalize (map_to_list intent). intros l.
    induction l as [|kv l IH]; [reflexivity|].
    rewrite filter_cons, decide_False; [exact IH|].
    intros [_ H]. unfold scalar_get in H. rewrite lookup_empty in H.
    discriminate.
  - intros intent flags h Hne Hflags both.
    unfold Retriever.intent_score_of, dict_truthy, dict_len.
    pose proof Hne as Hsize. apply map_size_non_empty_iff in Hsize.
    destruct (Z.eqb_spec (Z.of_nat (size intent)) 0) as [H0|_]; [lia|].
    simpl. unfold Retriever.intent_score_fn.
    rewrite (intent_fold_count _ flags)
      by (unfold Retriever.intent_of; now rewrite Hflags).
    subst both. rewrite size_map_filter. split; [reflexivity|].
    rewrite <- (length_map_to_list intent). apply length_filter.
  - intros intent h x Hx. split.
    + intros Hex. unfold Retriever.intent_score_of, dict_truthy, dict_len.
      assert (Hne : intent <> ∅).
      { intros ->. destruct Hex as (i & w & Hi & _).
        now rewrite lookup_empty in Hi. }
      apply map_size_non_empty_iff in Hne.
      destruct (Z.eqb_spec (Z.of_nat (size intent)) 0) as [H0|_]; [lia|].
      simpl. unfold Retriever.intent_score_fn.
      apply intent_fold_attribute_error.
      * unfold Retriever.intent_of. now rewrite Hx.
      * destruct Hex as (i & w & Hi & Hw). apply Exists_exists.
        exists (i, w). split; [|exact Hw]. now apply elem_of_map_to_list.
    + intros Hall. unfold Retriever.intent_score_of.
      destruct (dict_truthy (Some intent)); [|reflexivity].
      unfold Retriever.intent_score_fn. apply intent_fold_no_flag.
      apply Forall_forall. intros [i w] Hin.
      apply elem_of_map_to_list in Hin. exact (Hall i w Hin).
Qed.

(** ** Stability of the sort *)

Section SortStable.
Context {A : Type} (before : A -> A -> bool) (P : A -> Prop)
  `{!forall x, Decision (P x)}.
(** Elements of the class [P] never compare strictly. *)
Hypothesis class_ties : forall x y, P x -> P y -> before x y = true.


End SortStable.

(** ** FAISSHNSWStore.search_with_intent *)







(** X7. [search_with_intent] has no guard for a missing intent map: with
    [None] it raises AttributeError as soon as the base search yields a
    hit, and returns the empty list only when the base search yields
    none. *)
Theorem search_with_intent_without_intent :
  forall hnsw_search search_time self query k base self',
    FAISSHNSWStore.search hnsw_search search_time self query (k * 2)
    = (Ok base, self') ->
    (base <> [] ->
     FAISSHNSWStore.search_with_intent hnsw_search search_time self query
       None k = (Raise AttributeError, self'))
    /\ (base = [] ->
        FAISSHNSWStore.search_with_intent hnsw_search search_time self query
          None k = (Ok [], self')).
Proof.
  intros hnsw_search search_time self query k base self' Hs.
  unfold FAISSHNSWStore.search_with_intent. rewrite Hs. split.
  - intros Hne. destruct base as [|h base]; [contradiction|]. reflexivity.
  - intros ->. cbn. unfold Py.take_upto.
    destruct (0 <=? k); now rewrite take_nil.
Qed.

(** ** FAISSHNSWStore.batch_search *)

Lemma query_results_untimed (search_time : Q) (self : FAISSHNSWStore.t)
    (rows : list (Z * (Q * Z))) :
  FAISSHNSWStore.query_results self rows
  = match FAISSHNSWStore.search_results search_time self rows with
    | Ok hits => Ok (Describe.untimed <$> hits)
    | Raise e => Raise e
    end.
Proof.
  induction rows as [|[i [dist idx]] rows IH]; [reflexivity|]. simpl.
  destruct (negb (idx =? -1)
            && (idx <? Z.of_nat (length (FAISSHNSWStore.metadata self))));
    [|exact IH].
  unfold FAISSHNSWStore.batch_hit, FAISSHNSWStore.search_hit.
  destruct (Py.index (FAISSHNSWStore.chunk_texts self) idx) as [txt|e];
    [|reflexivity].
  destruct (Py.index (FAISSHNSWStore.metadata self) idx) as [meta|e];
    [|reflexivity].
  cbn. rewrite IH.
  destruct (FAISSHNSWStore.search_results search_time self rows);
    reflexivity.
Qed.

Lemma batch_search_unfold hnsw_search_batch (self : FAISSHNSWStore.t)
    (queries : list vec) (k : Z) :
  FAISSHNSWStore.batch_search hnsw_search_batch self queries k
  = if Faiss.ntotal (FAISSHNSWStore.index self) =? 0 then (Ok [], self)
    else
      let widened :=
        Faiss.set_efSearch (Z.max (FAISSHNSWStore.ef_search self) (k * 2))
          (FAISSHNSWStore.index self) in
      match hnsw_search_batch widened queries k with
      | Raise e => (Raise e, FAISSHNSWStore.set_index widened self)
      | Ok (distances, indices) =>
          (mapM (fun row =>
                   FAISSHNSWStore.query_results self
                     (Py.enumerate 0 (zip row.1 row.2)))
             (zip distances indices), self)
      end.
Proof.
  unfold FAISSHNSWStore.batch_search.
  destruct (Faiss.ntotal (FAISSHNSWStore.index self) =? 0); [reflexivity|].
  cbv zeta. simpl FAISSHNSWStore.index at 1.
  destruct (hnsw_search_batch _ queries k) as [[distances indices]|e];
    [|reflexivity].
  destruct self as [dm m efc efs [d0 m0 efc0 efs0 xb0] md ct tr].
  reflexivity.
Qed.

(** X8. On an empty index [batch_search] returns the empty list whatever
    the number of queries.  On a non-empty index, when the traversal
    answers each query of the batch as it answers that query alone, a
    [batch_search] that returns leaves the store as it was and gives one
    list per query: the hits [search] gives for that query, without their
    [search_time_ms]. *)
Theorem batch_search_agrees_with_search :
  forall hnsw_search_batch hnsw_search search_time self queries k,
    (Faiss.ntotal (FAISSHNSWStore.index self) = 0 ->
     FAISSHNSWStore.batch_search hnsw_search_batch self queries k
     = (Ok [], self))
    /\ (forall distances indices results self',
          Faiss.ntotal (FAISSHNSWStore.index self) <> 0 ->
          let widened :=
            Faiss.set_efSearch
              (Z.max (FAISSHNSWStore.ef_search self) (k * 2))
              (FAISSHNSWStore.index self) in
          hnsw_search_batch widened queries k = Ok (distances, indices) ->
          length distances = length queries ->
          length indices = length queries ->
          (forall (i : nat) q ds ls,
             queries !! i = Some q -> distances !! i = Some ds ->
             indices !! i = Some ls ->
             hnsw_search widened q k = Ok (ds, ls)) ->
          FAISSHNSWStore.batch_search hnsw_search_batch self queries k
          = (Ok results, self') ->
          self' = self
          /\ length results = length queries
          /\ forall (i : nat) q,
               queries !! i = Some q ->
               exists hits,
                 FAISSHNSWStore.search hnsw_search search_time self q k
                 = (Ok hits, self)
                 /\ results !! i = Some (Describe.untimed <$> hits)).
Proof.
  intros hnsw_search_batch hnsw_search search_time self queries k. split.
  - intros H0. rewrite batch_search_unfold, H0. reflexivity.
  - intros distances indices results self' Hn widened Hrun Hld Hli Hrows H.
    rewrite batch_search_unfold in H.
    destruct (Z.eqb_spec (Faiss.ntotal (FAISSHNSWStore.index self)) 0)
      as [H0|_]; [contradiction|].
    cbv zeta in H. fold widened in H. rewrite Hrun in H.
    injection H as H <-. apply mapM_Forall2 in H.
    pose proof (Forall2_length _ _ _ H) as Hlen.
    rewrite length_zip in Hlen.
    split; [reflexivity|]. split; [lia|].
    intros i q Hq.
    destruct (lookup_lt_is_Some_2 distances i) as [ds Hds];
      [apply lookup_lt_Some in Hq; lia|].
    destruct (lookup_lt_is_Some_2 indices i) as [ls Hls];
      [apply lookup_lt_Some in Hq; lia|].
    assert (Hrow : zip distances indices !! i = Some (ds, ls)).
    { rewrite lookup_zip_with, Hds, Hls. reflexivity. }
    destruct (Forall2_lookup_l _ _ _ _ _ H Hrow) as (r & Hr & Hres).
    simpl in Hres. rewrite (query_results_untimed search_time) in Hres.
    rewrite search_unfold.
    destruct (Z.eqb_spec (Faiss.ntotal (FAISSHNSWStore.index self)) 0)
      as [H0|_]; [contradiction|].
    cbv zeta. fold widened. rewrite (Hrows i q ds ls Hq Hds Hls).
    destruct (FAISSHNSWStore.search_results search_time self
                (Py.enumerate 0 (zip ds ls))) as [hits|e]; [|discriminate].
    cbn in Hres. injection Hres as <-. exists hits. auto.
Qed.

(** ** FAISSHNSWStore.find_similar_by_id *)

Lemma find_target_none (chunk_id : scalar) (l : list (gmap string value))
    (start : Z) :
  Forall (fun m => Describe.has_chunk_id chunk_id m = false) l ->
  FAISSHNSWStore.find_target chunk_id (Py.enumerate start l) = None.
Proof.
  intros H. revert start. induction H as [|m l Hm _ IH]; intros start;
    [reflexivity|].
  simpl. unfold Describe.has_chunk_id in Hm. rewrite Hm. apply IH.
Qed.

Lemma find_target_first (chunk_id : scalar) (l : list (gmap string value))
    (start : Z) (n : nat) (m : gmap string value) :
  l !! n = Some m ->
  Describe.has_chunk_id chunk_id m = true ->
  (forall (j : nat) m', (j < n)%nat -> l !! j = Some m' ->
                        Describe.has_chunk_id chunk_id m' = false) ->
  FAISSHNSWStore.find_target chunk_id (Py.enumerate start l)
  = Some (start + Z.of_nat n).
Proof.
  revert start n. induction l as [|m0 l IH]; intros start n Hn Hm Hbefore.
  - discriminate.
  - destruct n as [|n]; simpl in *.
    + injection Hn as ->. unfold Describe.has_chunk_id in Hm. rewrite Hm.
      f_equal. lia.
    + pose proof (Hbefore 0%nat m0 ltac:(lia) eq_refl) as H0.
      unfold Describe.has_chunk_id in H0. rewrite H0.
      rewrite (IH (start + 1) n Hn Hm).
      * f_equal. lia.
      * intros j m' Hj Hm'. apply (Hbefore (S j) m'); [lia|exact Hm'].
Qed.

(** X9. [find_similar_by_id] with a [chunk_id] that no stored record
    carries returns the empty list and leaves the store untouched,
    whatever the graph traversal would answer. *)
Theorem find_similar_by_id_unknown :
  forall hnsw_search search_time self chunk_id k,
    Forall (fun m => Describe.has_chunk_id chunk_id m = false)
      (FAISSHNSWStore.metadata self) ->
    FAISSHNSWStore.find_similar_by_id hnsw_search search_time self chunk_id k
    = (Ok [], self).
Proof.
  intros hnsw_search search_time self chunk_id k H.
  unfold FAISSHNSWStore.find_similar_by_id.
  now rewrite (find_target_none _ _ _ H).
Qed.

(** X10. [find_similar_by_id] searches with the stored vector of the first
    record, in insertion order, whose [chunk_id] equals the one asked for:
    the call is [search] on that vector, also when later records carry the
    same [chunk_id]; when the index holds no vector at that position it
    raises and leaves the store untouched. *)
Theorem find_similar_by_id_first_match :
  forall hnsw_search search_time self chunk_id k (n : nat) m,
    FAISSHNSWStore.metadata self !! n = Some m ->
    Describe.has_chunk_id chunk_id m = true ->
    (forall (j : nat) m',
       (j < n)%nat -> FAISSHNSWStore.metadata self !! j = Some m' ->
       Describe.has_chunk_id chunk_id m' = false) ->
    (forall v,
       Faiss.xb (FAISSHNSWStore.index self) !! n = Some v ->
       FAISSHNSWStore.find_similar_by_id hnsw_search search_time self
         chunk_id k
       = FAISSHNSWStore.search hnsw_search search_time self v k)
    /\ (Faiss.xb (FAISSHNSWStore.index self) !! n = None ->
        FAISSHNSWStore.find_similar_by_id hnsw_search search_time self
          chunk_id k = (Raise RuntimeError, self)).
Proof.
  intros hnsw_search search_time self chunk_id k n m Hn Hm Hbefore.
  unfold FAISSHNSWStore.find_similar_by_id.
  rewrite (find_target_first chunk_id _ 0 n m Hn Hm Hbefore).
  replace (0 + Z.of_nat n) with (Z.of_nat n) by lia. split.
  - intros v Hv. now rewrite (reconstruct_stored _ _ _ Hv).
  - intros Hnone. unfold Faiss.reconstruct.
    destruct (Z.ltb_spec (Z.of_nat n) 0) as [Hneg|_]; [lia|].
    now rewrite Nat2Z.id, Hnone.
Qed.

(** ** Persistence *)











(** X13. [load_index] is not atomic.  When the index file is there and the
    sidecar is not, the call raises after it has replaced the index: the
    store keeps its old metadata and texts beside the new index, so a store
    that satisfied len(metadata) == index.ntotal no longer does as soon as
    the two indexes differ in size. *)
Theorem load_index_without_sidecar :
  forall self name disk ix,
    disk !! Persistence.index_path name = Some (Persistence.IndexFile ix) ->
    disk !! Persistence.metadata_path name = None ->
    exists self',
      Persistence.load_index self name disk
      = (Persistence.Failed Persistence.FileNotFoundError, self')
      /\ FAISSHNSWStore.index self' = ix
      /\ FAISSHNSWStore.is_trained self' = true
      /\ FAISSHNSWStore.metadata self' = FAISSHNSWStore.metadata self
      /\ FAISSHNSWStore.chunk_texts self' = FAISSHNSWStore.chunk_texts self
      /\ (Invariant.aligned self ->
          Faiss.ntotal ix <> Faiss.ntotal (FAISSHNSWStore.index self) ->
          ~ Invariant.aligned self').
Proof.
  intros self name disk ix Hix Hmd. unfold Persistence.load_index.
  rewrite Hix, Hmd. eexists. split; [reflexivity|]. simpl.
  repeat split. intros [_ Hcount] Hne [_ Hcount']. simpl in Hcount'. lia.
Qed.

(** X14. When [load_index] succeeds, the store holds exactly what the two
    files hold: the index of the index file, the metadata and texts of the
    sidecar, and for each of M, ef_construction and ef_search the value in
    the sidecar's [hnsw_params], or the instance's own value where the
    sidecar has no [hnsw_params] or lacks that field; [dimension] is never
    read from disk. *)
Theorem load_index_reads_the_files :
  forall self name disk self',
    Persistence.load_index self name disk = (Persistence.Done tt, self') ->
    exists ix data md ct,
      disk !! Persistence.index_path name = Some (Persistence.IndexFile ix)
      /\ disk !! Persistence.metadata_path name
         = Some (Persistence.SidecarFile data)
      /\ Persistence.sc_metadata data = Some md
      /\ Persistence.sc_chunk_texts data = Some ct
      /\ FAISSHNSWStore.index self' = ix
      /\ FAISSHNSWStore.metadata self' = md
      /\ FAISSHNSWStore.chunk_texts self' = ct
      /\ FAISSHNSWStore.is_trained self' = true
      /\ FAISSHNSWStore.dimension self' = FAISSHNSWStore.dimension self
      /\ FAISSHNSWStore.M self'
         = default (FAISSHNSWStore.M self)
             (Persistence.sc_hnsw_params data ≫= Persistence.p_M)
      /\ FAISSHNSWStore.ef_construction self'
         = default (FAISSHNSWStore.ef_construction self)
             (Persistence.sc_hnsw_params data
              ≫= Persistence.p_ef_construction)
      /\ FAISSHNSWStore.ef_search self'
         = default (FAISSHNSWStore.ef_search self)
             (Persistence.sc_hnsw_params data ≫= Persistence.p_ef_search).
Proof.
  intros self name disk self'. unfold Persistence.load_index.
  destruct (disk !! Persistence.index_path name) as [[ix|?]|];
    [|discriminate|discriminate].
  destruct (disk !! Persistence.metadata_path name) as [[?|data]|];
    [discriminate| |discriminate].
  destruct data as [[md|] [ct|] params]; simpl; try discriminate.
  destruct params as [p|]; intros H; injection H as <-;
    eexists ix, _, md, ct; simpl; repeat split; reflexivity.
Qed.

(** ** FAISSUtils *)


Lemma np_array_cases (rows : list vec) :
  FAISSUtils.np_array rows = Ok rows
  \/ FAISSUtils.np_array rows = Raise ValueError.
Proof.
  unfold FAISSUtils.np_array. destruct rows as [|r rows]; [now left|].
  match goal with |- context [if ?b then _ else _] => destruct b end; auto.
Qed.


(** X16. [build_faiss_index] on chunks of which one embedding does not
    have the configured dimension raises, and writes nothing to disk. *)
Theorem build_faiss_index_rejects_wrong_dimension :
  forall self chunks name disk,
    Exists (fun c =>
              Z.of_nat (length (FAISSUtils.embedding c))
              <> FAISSUtils.dimension self) chunks ->
    exists e,
      FAISSUtils.build_faiss_index self chunks name disk = (Raise e, disk).
Proof.
  intros self chunks name disk Hbad.
  assert (Hrows : Exists (fun v : vec =>
                            Z.of_nat (length v) <> FAISSUtils.dimension self)
                    (FAISSUtils.embedding <$> chunks))
    by (now apply Exists_fmap).
  unfold FAISSUtils.build_faiss_index. cbv zeta.
  destruct (np_array_cases (FAISSUtils.embedding <$> chunks)) as [-> | ->];
    [|eauto].
  unfold FAISSHNSWStore.add_embeddings.
  destruct (Z.eqb_spec
              (Z.of_nat (length (FAISSUtils.embedding <$> chunks))) 0)
    as [H0|H0].
  - destruct (FAISSUtils.embedding <$> chunks); [|simpl in H0; lia].
    now apply Exists_nil in Hrows.
  - rewrite faiss_add_mismatch by exact Hrows. eauto.
Qed.

(** ** Retriever: the store, the over-fetch and the order of ties *)


(** X17. [retrieve] on an empty index returns the empty list.  On a
    non-empty index it asks the traversal for [3k] candidates with the
    candidate-list size set to max(ef_search, 6k).  Whatever the outcome
    the metadata, the texts and the stored vectors are unchanged, and
    whenever [retrieve] returns a list the store is exactly the store from
    before the call. *)
Theorem retrieve_overfetches_and_keeps_the_store :
  forall hnsw_search search_time vs q k max_distance,
    (Faiss.ntotal (FAISSHNSWStore.index vs) = 0 ->
     Retriever.retrieve hnsw_search search_time vs q k max_distance
     = (Ok [], vs))
    /\ (Faiss.ntotal (FAISSHNSWStore.index vs) <> 0 ->
        let widened :=
          Faiss.set_efSearch
            (Z.max (FAISSHNSWStore.ef_search vs) (6 * k))
            (FAISSHNSWStore.index vs) in
        Retriever.retrieve hnsw_search search_time vs q k max_distance
        = match hnsw_search widened (Retriever.embedding q) (3 * k) with
          | Ok (distances, indices) =>
              (base ← FAISSHNSWStore.search_results search_time vs
                        (Py.enumerate 0 (zip distances indices));
               Retriever.rerank q k max_distance base, vs)
          | Raise e => (Raise e, FAISSHNSWStore.set_index widened vs)
          end)
    /\ (forall outcome vs',
          Retriever.retrieve hnsw_search search_time vs q k max_distance
          = (outcome, vs') ->
          FAISSHNSWStore.metadata vs' = FAISSHNSWStore.metadata vs
          /\ FAISSHNSWStore.chunk_texts vs' = FAISSHNSWStore.chunk_texts vs
          /\ Faiss.xb (FAISSHNSWStore.index vs')
             = Faiss.xb (FAISSHNSWStore.index vs)
          /\ (is_ok outcome = true -> vs' = vs)).
Proof.
  intros hnsw_search search_time vs q k max_distance.
  unfold Retriever.retrieve. rewrite search_unfold.
  replace (k * 3 * 2) with (6 * k) by lia.
  replace (k * 3) with (3 * k) by lia.
  destruct (Z.eqb_spec (Faiss.ntotal (FAISSHNSWStore.index vs)) 0)
    as [H0|Hn].
  - split; [|split].
    + intros _. cbn. unfold Retriever.rerank. cbn.
      unfold Py.take_upto. destruct (0 <=? k); now rewrite take_nil.
    + intros Hn. contradiction.
    + intros outcome vs' H. injection H as _ <-. auto.
  - cbv zeta.
    destruct (hnsw_search _ (Retriever.embedding q) (3 * k))
      as [[distances indices]|e].
    + destruct (FAISSHNSWStore.search_results search_time vs
                  (Py.enumerate 0 (zip distances indices))) as [base|e].
      * split; [intros H0; contradiction|]. split; [reflexivity|].
        intros outcome vs' H. injection H as _ <-. auto.
      * split; [intros H0; contradiction|]. split; [reflexivity|].
        intros outcome vs' H. injection H as _ <-. auto.
    + split; [intros H0; contradiction|]. split; [reflexivity|].
      intros outcome vs' H. injection H as <- <-. simpl.
      repeat split; try reflexivity. discriminate.
Qed.



(** ** The further statements at work on concrete data *)

Lemma search_hits_are_labelled_records_witness :
  exists hits,
    FAISSHNSWStore.search Fixture.flat_search 0%Q Fixture.store3 [0; 0]%Q 5
    = (Ok hits, Fixture.store3)
    /\ (length hits <= 3)%nat.
Proof.
  destruct (FAISSHNSWStore.search Fixture.flat_search 0%Q Fixture.store3
              [0; 0]%Q 5) as [[hits|e] self'] eqn:H.
  - destruct (Fixture.flat_search
                (Faiss.set_efSearch
                   (Z.max (FAISSHNSWStore.ef_search Fixture.store3) (5 * 2))
                   (FAISSHNSWStore.index Fixture.store3)) [0; 0]%Q 5)
      as [[distances indices]|e] eqn:Hrun.
    + destruct (search_hits_are_labelled_records Fixture.flat_search 0%Q
                  Fixture.store3 [0; 0]%Q 5 distances indices hits self')
        as (kept & _ & _ & _ & Hlen).
      * vm_compute. discriminate.
      * exact Hrun.
      * exact H.
      * vm_compute in Hrun. injection Hrun as <- <-.
        vm_compute in H. injection H as <- <-.
        eexists. split; [reflexivity|]. cbn [length] in Hlen |- *. lia.
    + exfalso. vm_compute in Hrun. discriminate.
  - exfalso. vm_compute in H. discriminate.
Defined.


Lemma search_with_intent_without_intent_witness :
  FAISSHNSWStore.search_with_intent Fixture.flat_search 0%Q Fixture.store3
    [0; 0]%Q None 2 = (Raise AttributeError, Fixture.store3).
Proof.
  destruct (FAISSHNSWStore.search Fixture.flat_search 0%Q Fixture.store3
              [0; 0]%Q (2 * 2)) as [[base|e] self'] eqn:H.
  - destruct (search_with_intent_without_intent _ _ _ _ _ _ _ H)
      as [Hraise _].
    vm_compute in H. injection H as <- <-.
    apply Hraise. discriminate.
  - exfalso. vm_compute in H. discriminate.
Defined.

Lemma batch_search_agrees_with_search_witness :
  FAISSHNSWStore.batch_search Sample.flat_search_batch Fixture.empty_store
    [[0; 0]%Q; [1; 1]%Q] 2 = (Ok [], Fixture.empty_store).
Proof.
  destruct (batch_search_agrees_with_search Sample.flat_search_batch
              Fixture.flat_search 0%Q Fixture.empty_store
              [[0; 0]%Q; [1; 1]%Q] 2) as [Hempty _].
  apply Hempty. reflexivity.
Defined.

Lemma find_similar_by_id_unknown_witness :
  FAISSHNSWStore.find_similar_by_id Fixture.flat_search 0%Q Sample.store_ids
    (SInt 7) 2 = (Ok [], Sample.store_ids).
Proof.
  apply find_similar_by_id_unknown. repeat constructor.
Defined.

Lemma find_similar_by_id_first_match_witness :
  FAISSHNSWStore.find_similar_by_id Fixture.flat_search 0%Q Sample.store_ids
    (SInt 1) 2
  = FAISSHNSWStore.search Fixture.flat_search 0%Q Sample.store_ids
      [0; 0]%Q 2.
Proof.
  destruct (find_similar_by_id_first_match Fixture.flat_search 0%Q
              Sample.store_ids (SInt 1) 2 0%nat
              (Sample.chunked 1 "technology")) as [Hfound _].
  - reflexivity.
  - reflexivity.
  - intros j m' Hj. lia.
  - apply Hfound. reflexivity.
Defined.


Lemma load_index_without_sidecar_witness :
  exists self',
    Persistence.load_index Fixture.empty_store "kb" Sample.disk_index_only
    = (Persistence.Failed Persistence.FileNotFoundError, self')
    /\ ~ Invariant.aligned self'.
Proof.
  destruct (load_index_without_sidecar Fixture.empty_store "kb"
              Sample.disk_index_only
              (FAISSHNSWStore.index Fixture.store3))
    as (self' & Hrun & _ & _ & _ & _ & Hbroken).
  - reflexivity.
  - reflexivity.
  - exists self'. split; [exact Hrun|]. apply Hbroken.
    + split; reflexivity.
    + vm_compute. discriminate.
Defined.

Lemma load_index_reads_the_files_witness :
  exists self',
    Persistence.load_index Fixture.empty_store "kb"
      (Persistence.save_index Fixture.store3 "kb" ∅)
    = (Persistence.Done tt, self')
    /\ FAISSHNSWStore.chunk_texts self' = Fixture.texts3.
Proof.
  destruct (Persistence.load_index Fixture.empty_store "kb"
              (Persistence.save_index Fixture.store3 "kb" ∅))
    as [[[]|e] self'] eqn:H.
  - destruct (load_index_reads_the_files _ _ _ _ H)
      as (ix & data & md & ct & _ & _ & _ & _ & _ & _ & _ & _).
    exists self'. split; [reflexivity|].
    vm_compute in H. injection H as <-. reflexivity.
  - exfalso. vm_compute in H. discriminate.
Defined.


Lemma build_faiss_index_rejects_wrong_dimension_witness :
  exists e,
    FAISSUtils.build_faiss_index Sample.utils2 Sample.bad_chunks "kb" ∅
    = (Raise e, ∅).
Proof.
  apply build_faiss_index_rejects_wrong_dimension.
  apply Exists_cons_hd. vm_compute. discriminate.
Defined.

(** * Texts: chunking windows, query cleaning and query filters *)

(** * Strings, tokens and windows *)

Lemma str_chars (s : string) : Builtins.str (Builtins.chars s) = s.
Proof. apply string_of_list_ascii_of_string. Qed.

Lemma chars_str (l : list ascii) : Builtins.chars (Builtins.str l) = l.
Proof. apply list_ascii_of_string_of_list_ascii. Qed.

Lemma str_inj (a b : list ascii) : Builtins.str a = Builtins.str b -> a = b.
Proof.
  intros H. apply (f_equal Builtins.chars) in H. now rewrite !chars_str in H.
Qed.

Lemma chars_fmap_str (ws : list (list ascii)) :
  Builtins.chars <$> (Builtins.str <$> ws) = ws.
Proof.
  induction ws as [|w ws IH]; [reflexivity|].
  cbn [fmap list_fmap]. rewrite chars_str. f_equal. exact IH.
Qed.

Import Builtins DescribeText.

Lemma split_aux_inv (s : list ascii) :
  spacefree (Builtins.split_aux s).1 /\ Forall word (Builtins.split_aux s).2.
Proof.
  induction s as [|c s [IHc IHw]]; simpl.
  - split; constructor.
  - destruct (Builtins.split_aux s) as [cur ws]. simpl in *.
    destruct (Re.is_space c) eqn:Hc; simpl.
    + split; [constructor|]. destruct cur; simpl; [exact IHw|].
      constructor; [|exact IHw]. split; [discriminate|exact IHc].
    + split; [|exact IHw]. constructor; assumption.
Qed.

Lemma push_words cur ws :
  spacefree cur -> Forall word ws -> Forall word (Builtins.push cur ws).
Proof.
  intros Hc Hw. destruct cur; simpl; [exact Hw|].
  constructor; [|exact Hw]. split; [discriminate|exact Hc].
Qed.

Lemma split_chars_words (s : list ascii) :
  Forall word (Builtins.split_chars s).
Proof.
  unfold Builtins.split_chars. pose proof (split_aux_inv s) as [Hc Hw].
  destruct (Builtins.split_aux s) as [cur ws]. now apply push_words.
Qed.

Lemma split_aux_app_spacefree (w s : list ascii) :
  spacefree w ->
  Builtins.split_aux (w ++ s)
  = (w ++ (Builtins.split_aux s).1, (Builtins.split_aux s).2).
Proof.
  induction 1 as [|c w Hc Hw IH]; simpl.
  - now destruct (Builtins.split_aux s).
  - rewrite IH. rewrite Hc. reflexivity.
Qed.

Lemma split_chars_space (c : ascii) (s : list ascii) :
  Re.is_space c = true ->
  Builtins.split_chars (c :: s) = Builtins.split_chars s.
Proof.
  intros Hc. unfold Builtins.split_chars. simpl.
  destruct (Builtins.split_aux s) as [cur ws]. rewrite Hc.
  reflexivity.
Qed.

Lemma split_chars_app_sep (w : list ascii) (c : ascii) (s : list ascii) :
  spacefree w -> Re.is_space c = true ->
  Builtins.split_chars (w ++ c :: s)
  = Builtins.push w (Builtins.split_chars s).
Proof.
  intros Hw Hc. unfold Builtins.split_chars at 1.
  rewrite split_aux_app_spacefree by exact Hw. simpl.
  unfold Builtins.split_chars.
  destruct (Builtins.split_aux s) as [cur ws]. rewrite Hc. simpl.
  now rewrite app_nil_r.
Qed.

Lemma split_chars_spacefree (w : list ascii) :
  spacefree w -> Builtins.split_chars w = Builtins.push w [].
Proof.
  intros Hw. unfold Builtins.split_chars.
  rewrite <- (app_nil_r w) at 1.
  rewrite split_aux_app_spacefree by exact Hw. simpl.
  now rewrite app_nil_r.
Qed.

Lemma space_is_space : Re.is_space " "%char = true.
Proof. reflexivity. Qed.

(** Splitting what [join] made of space-free pieces gives the pieces back,
    less the empty ones. *)
Lemma split_join_chars (ws : list (list ascii)) :
  Forall spacefree ws ->
  Builtins.split_chars (Builtins.join_chars [" "%char] ws)
  = List.filter (fun w => negb (Nat.eqb (length w) 0)) ws.
Proof.
  induction 1 as [|w ws Hw Hws IH]; [reflexivity|].
  cbn [Builtins.join_chars]. destruct ws as [|w' ws'].
  - rewrite split_chars_spacefree by exact Hw. simpl.
    destruct w; reflexivity.
  - cbn [app]. rewrite split_chars_app_sep by (exact Hw || reflexivity).
    rewrite IH. cbn [List.filter]. destruct w; reflexivity.
Qed.

Lemma filter_words (ws : list (list ascii)) :
  Forall word ws ->
  List.filter (fun w => negb (Nat.eqb (length w) 0)) ws = ws.
Proof.
  induction 1 as [|w ws [Hne _] _ IH]; [reflexivity|].
  simpl. destruct w; [congruence|]. simpl. now rewrite IH.
Qed.

Lemma split_join_words (ws : list (list ascii)) :
  Forall word ws ->
  Builtins.split_chars (Builtins.join_chars [" "%char] ws) = ws.
Proof.
  intros H. rewrite split_join_chars.
  - now apply filter_words.
  - eapply Forall_impl; [exact H|]. now intros w [_ Hw].
Qed.

(** The same round trip on strings. *)
Lemma split_join (tokens : list string) :
  Forall token tokens ->
  Builtins.split (Builtins.join " " tokens) = tokens.
Proof.
  intros H. unfold Builtins.split, Builtins.join. rewrite chars_str.
  change (Builtins.chars " ") with [" "%char].
  rewrite split_join_words.
  - rewrite <- list_fmap_compose.
    rewrite <- (list_fmap_id tokens) at 2. apply list_fmap_ext.
    intros i t _. apply str_chars.
  - now apply Forall_fmap.
Qed.

Lemma split_tokens (text : string) :
  Forall token (Builtins.split text).
Proof.
  unfold Builtins.split. apply Forall_fmap.
  eapply Forall_impl; [apply split_chars_words|].
  intros w Hw. unfold token. simpl. now rewrite chars_str.
Qed.

(** ** Slices *)

Lemma slice_window {A} (l : list A) (start size : Z) :
  0 <= start -> 0 <= size ->
  slice l start (start + size)
  = take (Z.to_nat size) (drop (Z.to_nat start) l).
Proof.
  intros Hs Hz. unfold slice.
  assert (Hlen : length (drop (Z.to_nat start) l)
                 = (length l - Z.to_nat start)%nat) by apply length_drop.
  destruct (start <? 0) eqn:H1; [lia|].
  destruct (start + size <? 0) eqn:H2; [lia|].
  destruct (Z_le_gt_dec start (Z.of_nat (length l))) as [Hin|Hout].
  - rewrite (Z.min_l start) by lia.
    destruct (Z_le_gt_dec (start + size) (Z.of_nat (length l))).
    + rewrite Z.min_l by lia. f_equal. lia.
    + rewrite Z.min_r by lia.
      rewrite take_ge by (rewrite Hlen; lia).
      rewrite take_ge by (rewrite Hlen; lia). reflexivity.
  - rewrite !Z.min_r by lia. rewrite Z.sub_diag. simpl.
    rewrite drop_ge by lia. rewrite drop_ge by lia. now rewrite !take_nil.
Qed.

Lemma slice_Forall {A} (P : A -> Prop) (l : list A) (start stop : Z) :
  Forall P l -> Forall P (slice l start stop).
Proof. intros H. unfold slice. now apply Forall_take, Forall_drop. Qed.

(** Cutting a list into consecutive pieces of [s] elements loses
    nothing. *)
Lemma concat_pieces {A} (s : nat) :
  (0 < s)%nat ->
  forall (m : nat) (l : list A),
    (length l <= m * s)%nat ->
    concat ((fun i : nat => take s (drop (i * s) l)) <$> seq 0 m) = l.
Proof.
  intros Hs m. induction m as [|m IH]; intros l Hl.
  - destruct l; [reflexivity|simpl in Hl; lia].
  - cbn [seq fmap list_fmap concat]. rewrite drop_0.
    rewrite <- fmap_S_seq, <- list_fmap_compose.
    transitivity (take s l ++ drop s l); [|apply take_drop]. f_equal.
    rewrite <- (IH (drop s l)) by (rewrite length_drop; lia).
    f_equal. apply list_fmap_ext. intros i j _. simpl.
    now rewrite drop_drop.
Qed.

(** ** SlidingWindowChunker.chunk *)


Lemma chunk_loop_runs (self : SlidingWindowChunker.t) (tokens : list string) :
  0 < step self ->
  forall (m fuel : nat) (start : Z) (chunks : list string),
    (m < fuel)%nat ->
    Z.of_nat (length tokens) <= start + Z.of_nat m * step self ->
    ((0 < m)%nat ->
     start + (Z.of_nat m - 1) * step self < Z.of_nat (length tokens)) ->
    SlidingWindowChunker.chunk_loop fuel self tokens start chunks
    = Some (chunks
            ++ ((fun j : nat =>
                   join " "
                     (slice tokens (start + Z.of_nat j * step self)
                        (start + Z.of_nat j * step self
                         + SlidingWindowChunker.chunk_size self)))
                <$> seq 0 m)).
Proof.
  intros Hstep m. induction m as [|m IH]; intros fuel start chunks Hf Hup Hlow.
  - destruct fuel as [|fuel]; [lia|]. simpl.
    destruct (start <? Z.of_nat (length tokens)) eqn:Hc; [lia|].
    now rewrite app_nil_r.
  - destruct fuel as [|fuel]; [lia|]. cbn [SlidingWindowChunker.chunk_loop].
    assert (start < Z.of_nat (length tokens)) by (specialize (Hlow ltac:(lia)); nia).
    destruct (start <? Z.of_nat (length tokens)) eqn:Hc; [|lia].
    fold (step self). rewrite (IH fuel) by (try lia; intros; nia).
    cbn [seq fmap list_fmap]. rewrite <- fmap_S_seq, <- list_fmap_compose.
    rewrite <- app_assoc. cbn [app]. do 3 f_equal.
    + simpl Z.of_nat. rewrite Z.mul_0_l, Z.add_0_r. reflexivity.
    + apply list_fmap_ext. intros i j _. simpl.
      replace (start + Z.of_nat (S j) * step self)
        with (start + step self + Z.of_nat j * step self) by nia.
      reflexivity.
Qed.

Lemma window_count_bounds (self : SlidingWindowChunker.t)
    (tokens : list string) :
  0 < step self ->
  let m := Z.of_nat (window_count self tokens) in
  Z.of_nat (length tokens) <= m * step self
  /\ (0 < m -> (m - 1) * step self < Z.of_nat (length tokens))
  /\ m <= Z.of_nat (length tokens).
Proof.
  intros Hstep m. unfold m, window_count.
  set (n := Z.of_nat (length tokens)). assert (0 <= n) by lia.
  pose proof (Z.div_mod (n + step self - 1) (step self) ltac:(lia)) as Hdm.
  pose proof (Z.mod_pos_bound (n + step self - 1) (step self) Hstep) as Hr.
  assert (0 <= (n + step self - 1) / step self)
    by (apply Z.div_pos; lia).
  rewrite Z2Nat.id by assumption.
  set (q := (n + step self - 1) / step self) in *.
  repeat split; try nia.
Qed.

Lemma chunk_unfold (fuel : nat) (self : SlidingWindowChunker.t)
    (text : string) :
  text <> ""%string ->
  SlidingWindowChunker.chunk fuel self text
  = SlidingWindowChunker.RList
    <$> SlidingWindowChunker.chunk_loop fuel self (split text) 0 [].
Proof.
  intros Hne. unfold SlidingWindowChunker.chunk.
  destruct (String.eqb_spec text ""); [contradiction|reflexivity].
Qed.

Lemma chunk_runs (self : SlidingWindowChunker.t) (text : string)
    (fuel : nat) :
  text <> ""%string ->
  0 < step self ->
  (window_count self (split text) < fuel)%nat ->
  SlidingWindowChunker.chunk fuel self text
  = Some (SlidingWindowChunker.RList
            ((fun i : nat => join " " (window self (split text) i))
             <$> seq 0 (window_count self (split text)))).
Proof.
  intros Hne Hs Hfuel.
  destruct (window_count_bounds self (split text) Hs) as (Hup & Hlow & _).
  rewrite chunk_unfold by exact Hne.
  rewrite (chunk_loop_runs self (split text) Hs
             (window_count self (split text))) by (try lia; intros; lia).
  reflexivity.
Qed.

(** X19. With overlap < chunk_size, [chunk] on a non-empty text returns:
    the loop ends after ceil(n / (chunk_size - overlap)) rounds, n being
    the number of tokens of the text, and chunk number i (from 0) is the
    tokens [i * (chunk_size - overlap)] to
    [i * (chunk_size - overlap) + chunk_size] of the text, joined by single
    spaces. *)
Theorem chunk_returns_the_windows :
  forall (self : SlidingWindowChunker.t) (text : string) (fuel : nat),
    ascii_only text ->
    text <> ""%string ->
    SlidingWindowChunker.overlap self < SlidingWindowChunker.chunk_size self ->
    (window_count self (split text) < fuel)%nat ->
    SlidingWindowChunker.chunk fuel self text
    = Some (SlidingWindowChunker.RList
              ((fun i : nat => join " " (window self (split text) i))
               <$> seq 0 (window_count self (split text)))).
Proof.
  intros self text fuel _ Hne Hstep Hfuel.
  apply chunk_runs; [exact Hne|unfold step; lia|exact Hfuel].
Qed.

Lemma chunk_loop_stuck (self : SlidingWindowChunker.t)
    (tokens : list string) :
  step self <= 0 -> tokens <> [] ->
  forall (fuel : nat) (start : Z) (chunks : list string),
    start <= 0 ->
    SlidingWindowChunker.chunk_loop fuel self tokens start chunks = None.
Proof.
  intros Hstep Hne fuel. induction fuel as [|fuel IH]; intros start chunks Hs.
  - reflexivity.
  - cbn [SlidingWindowChunker.chunk_loop].
    assert (0 < Z.of_nat (length tokens))
      by (destruct tokens; [congruence|simpl; lia]).
    destruct (start <? Z.of_nat (length tokens)) eqn:Hc; [|lia].
    apply IH. unfold step in Hstep. lia.
Qed.

Lemma split_empty : split "" = [].
Proof. reflexivity. Qed.

(** X20. With overlap >= chunk_size, [chunk] never returns on a text that
    holds a token: the start of the window does not advance, so the loop
    condition stays true however many rounds are run. *)
Theorem chunk_never_returns_without_progress :
  forall (self : SlidingWindowChunker.t) (text : string) (fuel : nat),
    ascii_only text ->
    SlidingWindowChunker.chunk_size self <= SlidingWindowChunker.overlap self ->
    split text <> [] ->
    SlidingWindowChunker.chunk fuel self text = None.
Proof.
  intros self text fuel _ Hstep Htok.
  assert (Hne : text <> ""%string) by (intros ->; now apply Htok).
  rewrite chunk_unfold by exact Hne.
  rewrite chunk_loop_stuck; [reflexivity| |exact Htok|lia].
  unfold step. lia.
Qed.

Lemma split_chars_only_whitespace (s : list ascii) :
  Forall (fun c => Re.is_space c = true) s -> split_chars s = [].
Proof.
  induction 1 as [|c s Hc _ IH]; [reflexivity|].
  now rewrite split_chars_space.
Qed.

(** X21. On a text without tokens [chunk] returns at once, whatever the
    chunk size and the overlap: [None] for the empty string, and the empty
    list for a non-empty string of whitespace. *)
Theorem chunk_of_text_without_tokens :
  forall (self : SlidingWindowChunker.t) (text : string) (fuel : nat),
    ascii_only text ->
    only_whitespace text ->
    (0 < fuel)%nat ->
    SlidingWindowChunker.chunk fuel self text
    = Some (if String.eqb text ""
            then SlidingWindowChunker.RNone
            else SlidingWindowChunker.RList []).
Proof.
  intros self text fuel _ Hws Hfuel. unfold SlidingWindowChunker.chunk.
  destruct (String.eqb text ""); [reflexivity|].
  unfold split. rewrite split_chars_only_whitespace by exact Hws.
  destruct fuel; [lia|]. reflexivity.
Qed.

Lemma window_take_drop (self : SlidingWindowChunker.t)
    (tokens : list string) (i : nat) :
  0 < step self -> 0 <= SlidingWindowChunker.chunk_size self ->
  window self tokens i
  = take (Z.to_nat (SlidingWindowChunker.chunk_size self))
      (drop (i * Z.to_nat (step self)) tokens).
Proof.
  intros Hs Hz. unfold window. rewrite slice_window by nia.
  do 2 f_equal. nia.
Qed.

(** X22. With 0 <= overlap < chunk_size, [chunk] on a non-empty text loses
    no token and repeats exactly the overlap: splitting a chunk gives back
    its window of tokens, between 1 and chunk_size of them; the first
    chunk_size - overlap tokens of the chunks, laid end to end, are the
    tokens of the text; and what a chunk holds after its first
    chunk_size - overlap tokens is what the next chunk starts with. *)
Theorem chunk_windows_overlap_and_cover :
  forall (self : SlidingWindowChunker.t) (text : string),
    ascii_only text ->
    text <> ""%string ->
    0 <= SlidingWindowChunker.overlap self
      < SlidingWindowChunker.chunk_size self ->
    exists chunks,
      SlidingWindowChunker.chunk (S (length (split text))) self text
      = Some (SlidingWindowChunker.RList chunks)
      /\ (forall (i : nat) c,
            chunks !! i = Some c ->
            split c = window self (split text) i
            /\ 1 <= Z.of_nat (length (split c))
               <= SlidingWindowChunker.chunk_size self)
      /\ concat ((fun c => take (Z.to_nat (step self)) (split c)) <$> chunks)
         = split text
      /\ (forall (i : nat) c c',
            chunks !! i = Some c -> chunks !! S i = Some c' ->
            drop (Z.to_nat (step self)) (split c)
            = take (Z.to_nat (SlidingWindowChunker.overlap self)) (split c')).
Proof.
  intros self text Hascii Hne [Hov Hsize].
  assert (Hs : 0 < step self) by (unfold step; lia).
  destruct (window_count_bounds self (split text) Hs) as (Hup & Hlow & Hm).
  set (tokens := split text) in *. set (m := window_count self tokens) in *.
  set (chunks := (fun i : nat => join " " (window self tokens i)) <$> seq 0 m).
  assert (Hsplit : forall i : nat,
             split (join " " (window self tokens i)) = window self tokens i).
  { intros i. apply split_join. apply slice_Forall, split_tokens. }
  assert (Hat : forall (i : nat) c,
             chunks !! i = Some c ->
             (i < m)%nat /\ c = join " " (window self tokens i)).
  { intros i c Hc. unfold chunks in Hc. rewrite list_lookup_fmap in Hc.
    destruct (seq 0 m !! i) as [j|] eqn:Hj; [|discriminate].
    apply lookup_seq in Hj as [-> Hlt]. simpl in Hc.
    injection Hc as <-. split; [exact Hlt|reflexivity]. }
  assert (Hwin : forall i : nat,
             window self tokens i
             = take (Z.to_nat (SlidingWindowChunker.chunk_size self))
                 (drop (i * Z.to_nat (step self)) tokens))
    by (intros i; apply window_take_drop; lia).
  assert (Hsz : Z.to_nat (SlidingWindowChunker.chunk_size self)
                = (Z.to_nat (step self)
                   + Z.to_nat (SlidingWindowChunker.overlap self))%nat)
    by (unfold step; lia).
  exists chunks. split; [|split; [|split]].
  - apply chunk_runs; [exact Hne|exact Hs|fold tokens m; lia].
  - intros i c Hc. apply Hat in Hc as [Hi ->]. rewrite Hsplit.
    split; [reflexivity|]. rewrite Hwin, length_take, length_drop.
    assert (Z.of_nat i * step self < Z.of_nat (length tokens)) by nia.
    nia.
  - unfold chunks. rewrite <- list_fmap_compose.
    etransitivity;
      [|apply (concat_pieces (Z.to_nat (step self)) ltac:(lia) m tokens);
        nia].
    f_equal. apply list_fmap_ext. intros i j _. simpl.
    rewrite Hsplit, Hwin, take_take. f_equal. lia.
  - intros i c c' Hc Hc'. apply Hat in Hc as [_ ->]. apply Hat in Hc' as [_ ->].
    rewrite !Hsplit, !Hwin, take_take.
    rewrite Hsz at 1. rewrite <- take_drop_commute, drop_drop.
    f_equal; [lia|f_equal; lia].
Qed.


(** ** QueryCleaner *)

Ltac each_char c :=
  destruct c as [[] [] [] [] [] [] [] []]; vm_compute; try tauto;
  try (intuition congruence).

Lemma lower_keeps_space (c : ascii) :
  Re.is_space (Re.lower c) = Re.is_space c.
Proof. each_char c. Qed.

Lemma kept_word_char (c : ascii) :
  QueryCleaner.kept c = true -> Re.is_space c = false ->
  plain (Re.lower c) = true.
Proof. each_char c. Qed.

Lemma plain_fixed (c : ascii) :
  plain c = true ->
  QueryCleaner.kept c = true /\ Re.lower c = c /\ c <> "<"%char.
Proof. each_char c. Qed.

Lemma plain_space (c : ascii) :
  plain c = true -> Re.is_space c = true -> c = " "%char.
Proof. each_char c. Qed.

Lemma split_aux_lstrip (s : list ascii) :
  split_chars (lstrip_chars s) = split_chars s.
Proof.
  induction s as [|c s IH]; [reflexivity|]. simpl.
  destruct (Re.is_space c) eqn:Hc; [|reflexivity].
  now rewrite split_chars_space.
Qed.

Lemma split_aux_rstrip (s : list ascii) :
  split_aux (rstrip_chars s) = split_aux s.
Proof.
  induction s as [|c s IH]; [reflexivity|]. cbn [rstrip_chars].
  destruct (rstrip_chars s) as [|r0 r] eqn:Hr.
  - cbn [split_aux]. rewrite <- IH. simpl.
    destruct (Re.is_space c) eqn:Hc; simpl; [reflexivity|now rewrite Hc].
  - change (split_aux (c :: r0 :: r))
      with (let '(cur, ws) := split_aux (r0 :: r) in
            if Re.is_space c then ([], push cur ws) else (c :: cur, ws)).
    rewrite IH. reflexivity.
Qed.

Lemma split_strip (s : string) : split (strip s) = split s.
Proof.
  unfold split, strip. rewrite chars_str, split_aux_lstrip.
  unfold split_chars. now rewrite split_aux_rstrip.
Qed.

(** Filtering and mapping characters commute with [join] when they leave
    the separator alone. *)
Lemma filter_join_chars (keep : ascii -> bool) (ws : list (list ascii)) :
  keep " "%char = true ->
  List.filter keep (join_chars [" "%char] ws)
  = join_chars [" "%char] (List.filter keep <$> ws).
Proof.
  intros Hk. induction ws as [|w ws IH]; [reflexivity|].
  cbn [join_chars fmap list_fmap]. destruct ws as [|w' ws']; [reflexivity|].
  cbn [fmap list_fmap] in *. rewrite List.filter_app. cbn [app List.filter].
  rewrite Hk. cbn [app]. now rewrite IH.
Qed.

Lemma map_join_chars (f : ascii -> ascii) (ws : list (list ascii)) :
  f " "%char = " "%char ->
  fmap (M:=list) f (join_chars [" "%char] ws)
  = join_chars [" "%char] (fmap (M:=list) (fmap (M:=list) f) ws).
Proof.
  intros Hf. induction ws as [|w ws IH]; [reflexivity|].
  cbn [join_chars fmap list_fmap]. destruct ws as [|w' ws']; [reflexivity|].
  cbn [fmap list_fmap] in *. rewrite fmap_app. cbn [app fmap list_fmap].
  rewrite Hf. now rewrite IH.
Qed.


Lemma chars_clean_word (w : string) :
  chars (clean_word w) = clean_word_chars (chars w).
Proof.
  unfold clean_word, lower, QueryCleaner.remove_punctuation.
  now rewrite !chars_str.
Qed.

Lemma clean_unfold (query : string) :
  QueryCleaner.clean query
  = lower (QueryCleaner.remove_punctuation (join " " (split (strip query)))).
Proof.
  unfold QueryCleaner.clean.
  destruct (len _ <? 2); [reflexivity|].
  destruct (negb _ && negb _); reflexivity.
Qed.

Lemma chars_clean (query : string) :
  chars (QueryCleaner.clean query)
  = join_chars [" "%char] (clean_word_chars <$> split_chars (chars query)).
Proof.
  rewrite clean_unfold, split_strip.
  unfold lower, QueryCleaner.remove_punctuation, join, split.
  rewrite !chars_str, chars_fmap_str.
  change (chars " ") with [" "%char].
  rewrite filter_join_chars by reflexivity.
  rewrite map_join_chars by reflexivity.
  now rewrite <- list_fmap_compose.
Qed.

Lemma clean_word_chars_plain (w : list ascii) :
  spacefree w ->
  Forall (fun c => plain c = true /\ Re.is_space c = false)
    (clean_word_chars w).
Proof.
  induction 1 as [|c w Hc Hw IH]; [constructor|].
  unfold clean_word_chars in *. cbn [List.filter].
  destruct (QueryCleaner.kept c) eqn:Hk; [|exact IH].
  cbn [fmap list_fmap]. constructor; [|exact IH].
  split; [now apply kept_word_char|now rewrite lower_keeps_space].
Qed.

Lemma clean_word_chars_fixed (w : list ascii) :
  Forall (fun c => plain c = true /\ Re.is_space c = false) w ->
  clean_word_chars w = w.
Proof.
  induction 1 as [|c w [Hc _] Hw IH]; [reflexivity|].
  unfold clean_word_chars in *. cbn [List.filter].
  destruct (plain_fixed c Hc) as (-> & Hl & _).
  cbn [fmap list_fmap]. now rewrite Hl, IH.
Qed.

Lemma join_chars_Forall (P : ascii -> Prop) (ws : list (list ascii)) :
  P " "%char -> Forall (Forall P) ws -> Forall P (join_chars [" "%char] ws).
Proof.
  intros Hsp. induction 1 as [|w ws Hw Hws IH]; [constructor|].
  cbn [join_chars]. destruct ws; [exact Hw|].
  apply Forall_app. split; [exact Hw|]. constructor; [exact Hsp|exact IH].
Qed.

Lemma tags_without (s : list ascii) :
  Forall (fun c => c <> "<"%char) s -> (QueryCleaner.tags s).1 = s.
Proof.
  induction 1 as [|c s Hc Hs IH]; [reflexivity|].
  cbn [QueryCleaner.tags]. destruct (QueryCleaner.tags s) as [out closed].
  simpl in IH. subst out.
  destruct (Ascii.eqb_spec c "<"); [contradiction|reflexivity].
Qed.


Lemma join_chars_cons (w : list ascii) (ws : list (list ascii)) :
  join_chars [" "%char] (w :: ws) = w ++ tail_of ws.
Proof.
  cbn [join_chars]. destruct ws; [now rewrite app_nil_r|reflexivity].
Qed.

Lemma split_aux_head_space (c : ascii) (s : list ascii) :
  Re.is_space c = true -> (split_aux (c :: s)).1 = [].
Proof.
  intros Hc. simpl. destruct (split_aux s). now rewrite Hc.
Qed.

Lemma split_aux_head_word (c : ascii) (s : list ascii) :
  Re.is_space c = false -> (split_aux (c :: s)).1 <> [].
Proof.
  intros Hc. simpl. destruct (split_aux s). now rewrite Hc.
Qed.

Lemma rstrip_squeeze (s : list ascii) :
  rstrip_chars (QueryCleaner.squeeze s)
  = (split_aux s).1 ++ tail_of (split_aux s).2.
Proof.
  induction s as [|c s IH]; [reflexivity|].
  cbn [QueryCleaner.squeeze]. destruct (Re.is_space c) eqn:Hc.
  - destruct s as [|d s'].
    + cbn [split_aux]. rewrite Hc. reflexivity.
    + destruct (Re.is_space d) eqn:Hd.
      * rewrite IH. pose proof (split_aux_head_space d s' Hd) as Hcur.
        cbn [split_aux] in *. destruct (split_aux s') as [cur' ws'].
        rewrite Hd in *. rewrite Hc. reflexivity.
      * cbn [rstrip_chars]. rewrite IH.
        pose proof (split_aux_head_word d s' Hd) as Hcur.
        change (split_aux (c :: d :: s'))
          with (let '(cur, ws) := split_aux (d :: s') in
                if Re.is_space c then ([], push cur ws) else (c :: cur, ws)).
        destruct (split_aux (d :: s')) as [cur ws]. simpl in Hcur.
        rewrite Hc. destruct cur as [|c0 cur]; [congruence|].
        cbn [fst snd push tail_of app]. cbn [app].
        now rewrite join_chars_cons.
  - cbn [rstrip_chars]. rewrite IH. cbn [split_aux].
    destruct (split_aux s) as [cur ws]. rewrite Hc. cbn [fst snd].
    change ((c :: cur) ++ tail_of ws) with (c :: (cur ++ tail_of ws)).
    destruct (cur ++ tail_of ws); reflexivity.
Qed.

Lemma lstrip_word_first (w rest : list ascii) :
  word w -> lstrip_chars (w ++ rest) = w ++ rest.
Proof.
  intros [Hne Hw]. destruct w as [|c w]; [congruence|].
  inversion Hw as [|? ? Hc _]; subst. simpl. now rewrite Hc.
Qed.

(** Squeezing the whitespace of a text and stripping it leaves its words,
    one space between two. *)
Lemma strip_squeeze (s : list ascii) :
  lstrip_chars (rstrip_chars (QueryCleaner.squeeze s))
  = join_chars [" "%char] (split_chars s).
Proof.
  rewrite rstrip_squeeze. unfold split_chars.
  pose proof (split_aux_inv s) as [Hcur Hws].
  destruct (split_aux s) as [cur ws]. cbn [fst snd] in *.
  destruct cur as [|c cur].
  - cbn [app push]. destruct ws as [|w ws]; [reflexivity|].
    cbn [tail_of lstrip_chars]. rewrite space_is_space.
    rewrite join_chars_cons. apply lstrip_word_first.
    now inversion Hws.
  - cbn [push]. rewrite join_chars_cons. apply lstrip_word_first.
    split; [discriminate|exact Hcur].
Qed.


Lemma chars_clean_for_embedding (query : string) :
  chars (QueryCleaner.clean_for_embedding query)
  = join_chars [" "%char]
      (List.filter nonempty_chars
         (clean_word_chars <$> split_chars (chars query))).
Proof.
  unfold QueryCleaner.clean_for_embedding, strip,
    QueryCleaner.normalize_whitespace, QueryCleaner.remove_tags.
  rewrite !chars_str.
  assert (Hws : Forall (Forall (fun c => plain c = true
                                         /\ Re.is_space c = false))
                  (clean_word_chars <$> split_chars (chars query))).
  { apply Forall_fmap. eapply Forall_impl; [apply split_chars_words|].
    intros w [_ Hw]. now apply clean_word_chars_plain. }
  rewrite tags_without.
  - rewrite strip_squeeze, chars_clean. apply f_equal, split_join_chars.
    eapply Forall_impl; [exact Hws|]. intros w Hw.
    eapply Forall_impl; [exact Hw|]. now intros c [_ Hc].
  - rewrite chars_clean. apply join_chars_Forall; [discriminate|].
    eapply Forall_impl; [exact Hws|]. intros w Hw.
    eapply Forall_impl; [exact Hw|]. intros c [Hc _].
    now destruct (plain_fixed c Hc) as (_ & _ & ?).
Qed.

Lemma chars_injective (a b : string) : chars a = chars b -> a = b.
Proof.
  intros H. apply (f_equal str) in H. now rewrite !str_chars in H.
Qed.

Lemma chars_join (ws : list string) :
  chars (join " " ws) = join_chars [" "%char] (chars <$> ws).
Proof. unfold join. now rewrite chars_str. Qed.

Lemma chars_filter_nonempty (ws : list string) :
  chars <$> filter (fun w => w <> ""%string) ws
  = List.filter nonempty_chars (chars <$> ws).
Proof.
  induction ws as [|w ws IH]; [reflexivity|].
  cbn [fmap list_fmap List.filter]. rewrite filter_cons.
  destruct w as [|c w].
  - case_decide; [done|]. exact IH.
  - case_decide; [|done].
    cbn [fmap list_fmap]. now rewrite IH.
Qed.

Lemma chars_clean_words (query : string) :
  chars <$> (clean_word <$> split query)
  = clean_word_chars <$> split_chars (chars query).
Proof.
  unfold split. rewrite <- !list_fmap_compose. apply list_fmap_ext.
  intros i w _. simpl. now rewrite chars_clean_word, chars_str.
Qed.

Lemma cleaned_words (s : list ascii) :
  Forall (fun w => word w
                   /\ Forall (fun c => plain c = true
                                       /\ Re.is_space c = false) w)
    (List.filter nonempty_chars (clean_word_chars <$> split_chars s)).
Proof.
  induction (split_chars_words s) as [|w ws [_ Hw] _ IH]; [constructor|].
  cbn [fmap list_fmap List.filter].
  pose proof (clean_word_chars_plain w Hw) as Hp.
  destruct (clean_word_chars w) as [|c cw] eqn:E; [exact IH|].
  cbn [nonempty_chars length Nat.eqb negb]. constructor; [|exact IH].
  split; [|exact Hp]. split; [discriminate|].
  eapply Forall_impl; [exact Hp|]. now intros ? [_ ?].
Qed.

(** The word-by-word form of [clean]. *)
Lemma clean_words (query : string) :
  QueryCleaner.clean query = join " " (clean_word <$> split query).
Proof.
  apply chars_injective.
  now rewrite chars_clean, chars_join, chars_clean_words.
Qed.

Lemma clean_for_embedding_words (query : string) :
  QueryCleaner.clean_for_embedding query
  = join " " (filter (fun w => w <> ""%string) (clean_word <$> split query)).
Proof.
  apply chars_injective.
  now rewrite chars_clean_for_embedding, chars_join, chars_filter_nonempty,
    chars_clean_words.
Qed.

Lemma split_chars_clean_for_embedding (query : string) :
  split_chars (chars (QueryCleaner.clean_for_embedding query))
  = List.filter nonempty_chars
      (clean_word_chars <$> split_chars (chars query)).
Proof.
  rewrite chars_clean_for_embedding. apply split_join_words.
  eapply Forall_impl; [apply cleaned_words|]. now intros w [Hw _].
Qed.

(** X23. [clean] works word by word: its result is the words of the query
    ([str.split]), each without the characters that are neither word
    characters nor [?] and in lower case, joined by single spaces.  A word
    that loses all its characters still leaves its separator, so the result
    can start or end with a space or hold two in a row.  Every character of
    the result is one of [a-z], [0-9], [_], [?] and the space, and the
    result has at most as many words as the query. *)
Theorem clean_is_word_by_word :
  forall query : string,
    ascii_only query ->
    QueryCleaner.clean query = join " " (clean_word <$> split query)
    /\ Forall (fun c => plain c = true) (chars (QueryCleaner.clean query))
    /\ (length (split (QueryCleaner.clean query))
        <= length (split query))%nat.
Proof.
  intros query _. split; [apply clean_words|]. split.
  - rewrite chars_clean. apply join_chars_Forall; [reflexivity|].
    apply Forall_fmap. eapply Forall_impl; [apply split_chars_words|].
    intros w [_ Hw]. simpl.
    eapply Forall_impl; [apply clean_word_chars_plain, Hw|].
    now intros c [Hc _].
  - unfold split at 1. rewrite length_fmap, chars_clean, split_join_chars.
    + etransitivity; [apply List.filter_length_le|].
      unfold split. now rewrite !length_fmap.
    + apply Forall_fmap. eapply Forall_impl; [apply split_chars_words|].
      intros w [_ Hw]. simpl.
      eapply Forall_impl; [apply clean_word_chars_plain, Hw|].
      now intros c [_ Hc].
Qed.

(** X24. [clean_for_embedding] returns the cleaned words of the query that
    are not empty, joined by single spaces: no leading, trailing or double
    space is left, and splitting the result gives those words back.  The
    function is idempotent, and its result is written in [a-z], [0-9], [_],
    [?] and the space. *)
Theorem clean_for_embedding_normal_form :
  forall query : string,
    ascii_only query ->
    let words :=
      filter (fun w => w <> ""%string) (clean_word <$> split query) in
    QueryCleaner.clean_for_embedding query = join " " words
    /\ split (QueryCleaner.clean_for_embedding query) = words
    /\ QueryCleaner.clean_for_embedding
         (QueryCleaner.clean_for_embedding query)
       = QueryCleaner.clean_for_embedding query
    /\ Forall (fun c => plain c = true)
         (chars (QueryCleaner.clean_for_embedding query)).
Proof.
  intros query _ words.
  pose proof (cleaned_words (chars query)) as Hcw.
  split; [apply clean_for_embedding_words|]. split; [|split].
  - unfold split at 1. rewrite split_chars_clean_for_embedding.
    unfold words. rewrite <- chars_clean_words, <- chars_filter_nonempty.
    rewrite <- list_fmap_compose.
    rewrite <- (list_fmap_id (filter _ _)) at 2.
    apply list_fmap_ext. intros i w _. apply str_chars.
  - apply chars_injective.
    rewrite (chars_clean_for_embedding (QueryCleaner.clean_for_embedding _)).
    rewrite split_chars_clean_for_embedding, chars_clean_for_embedding.
    f_equal.
    set (ws := List.filter nonempty_chars _) in *. clearbody ws.
    induction Hcw as [|w ws [[Hne _] Hp] _ IH]; [reflexivity|].
    cbn [fmap list_fmap List.filter].
    rewrite (clean_word_chars_fixed w Hp).
    destruct w; [congruence|]. cbn [nonempty_chars length Nat.eqb negb].
    now rewrite IH.
  - rewrite chars_clean_for_embedding. apply join_chars_Forall; [reflexivity|].
    eapply Forall_impl; [exact Hcw|]. intros w [_ Hw].
    eapply Forall_impl; [exact Hw|]. now intros c [Hc _].
Qed.


(** ** QueryProcessor.extract_metadata_filters *)

(** Name the value of the outermost [let] of the term the goal is about. *)
Ltac open_let x :=
  lazymatch goal with
  | |- ?P (let y := ?e in @?b y) =>
      pose (x := e);
      let body := eval cbv beta in (b x) in
      change (P body)
  end.

Ltac open_extract :=
  lazymatch goal with
  | |- ?P (QueryProcessor.extract_metadata_filters ?q) =>
      let e := eval cbv beta delta [QueryProcessor.extract_metadata_filters]
               in (QueryProcessor.extract_metadata_filters q) in
      change (P e)
  end.

Ltac settle_step :=
  repeat match goal with
         | |- context [if ?c then _ else _] => destruct c
         | |- context [match ?c with Some _ => _ | None => _ end] =>
             destruct c
         end;
  first [ left; reflexivity | right; eexists; reflexivity ].

Lemma extract_shape (query : string) :
  exists f1 f2 f3 f4 f5 f6 audience,
    may_set "doc_type" ∅ f1
    /\ may_set "time" f1 f2
    /\ may_set "complexity" f2 f3
    /\ may_set "intent" f3 f4
    /\ may_set "domain" f4 f5
    /\ f6 = QueryProcessor.set "audience" audience f5
    /\ audience ∈ ["students"; "professionals"; "researchers"; "general"]%string
    /\ may_set "format" f6 (QueryProcessor.extract_metadata_filters query)
    /\ Forall (fun alt : string * string * list string =>
                 QueryProcessor.any_in alt.2 (lower query) = true ->
                 forall before after,
                   (alt.1.1, before, after)
                   ∈ [ ("doc_type", ∅, f1); ("time", f1, f2);
                       ("complexity", f2, f3); ("intent", f3, f4);
                       ("domain", f4, f5); ("audience", f5, f6);
                       ("format", f6,
                        QueryProcessor.extract_metadata_filters query)
                     ]%string ->
                   after = QueryProcessor.set alt.1.1 alt.1.2 before)
         first_alternatives.
Proof.
  pattern (QueryProcessor.extract_metadata_filters query).
  open_extract.
  open_let f0. open_let ql. open_let f1. open_let f2. open_let f3.
  open_let f4. open_let f5. open_let f6. open_let f7.
  assert (H1 : may_set "doc_type" ∅ f1) by (subst f1 f0; settle_step).
  assert (H2 : may_set "time" f1 f2) by (subst f2; settle_step).
  assert (H3 : may_set "complexity" f2 f3) by (subst f3; settle_step).
  assert (H4 : may_set "intent" f3 f4) by (subst f4; settle_step).
  assert (H5 : may_set "domain" f4 f5) by (subst f5; settle_step).
  assert (H6 : exists audience,
             f6 = QueryProcessor.set "audience" audience f5
             /\ audience ∈ ["students"; "professionals"; "researchers";
                            "general"]%string).
  { subst f6.
    repeat match goal with
           | |- context [if ?c then _ else _] => destruct c
           end;
      eexists; (split; [reflexivity|]); set_solver. }
  assert (H7 : may_set "format" f6 f7) by (subst f7; settle_step).
  destruct H6 as (audience & H6 & Ha).
  assert (F1 : QueryProcessor.any_in
                 ["official"; "documentation"; "docs"; "manual"; "spec"] ql
               = true ->
               f1 = QueryProcessor.set "doc_type" "official" ∅).
  { intros H. subst f1 f0. unfold QueryProcessor.first_match.
    cbn [QueryProcessor.doc_types List.find snd]. now rewrite H. }
  assert (F2 : QueryProcessor.any_in ["latest"; "recent"; "current"; "new"] ql
               = true ->
               f2 = QueryProcessor.set "time" "recent" f1).
  { intros H. subst f2. now rewrite H. }
  assert (F3 : QueryProcessor.any_in
                 ["basic"; "beginner"; "introduction"; "getting started"] ql
               = true ->
               f3 = QueryProcessor.set "complexity" "beginner" f2).
  { intros H. subst f3. now rewrite H. }
  assert (F4 : QueryProcessor.any_in ["what is"; "define"; "definition"] ql
               = true ->
               f4 = QueryProcessor.set "intent" "definition" f3).
  { intros H. subst f4. now rewrite H. }
  assert (F5 : QueryProcessor.any_in
                 ["software"; "ai"; "ml"; "cloud"; "api"; "database";
                  "programming"; "coding"] ql = true ->
               f5 = QueryProcessor.set "domain" "technology" f4).
  { intros H. subst f5. unfold QueryProcessor.first_match.
    cbn [QueryProcessor.domains List.find snd]. now rewrite H. }
  assert (F6 : QueryProcessor.any_in ["student"; "beginner"; "learner"] ql
               = true ->
               f6 = QueryProcessor.set "audience" "students" f5).
  { intros H. subst f6. now rewrite H. }
  assert (F7 : QueryProcessor.any_in ["pdf"] ql = true ->
               f7 = QueryProcessor.set "format" "pdf" f6).
  { intros H. subst f7. now rewrite H. }
  clearbody f1 f2 f3 f4 f5 f6 f7. subst ql.
  exists f1, f2, f3, f4, f5, f6, audience.
  do 7 (split; [assumption|]). split; [assumption|].
  unfold first_alternatives.
  repeat (apply List.Forall_cons;
          [cbn [fst snd]; intros Hany before after Hin;
           repeat (apply elem_of_cons in Hin as [Hin|Hin];
                   [simplify_eq; auto|]);
           now apply elem_of_nil in Hin|]).
  apply List.Forall_nil.
Qed.

Lemma may_set_lookup_ne key f f' k :
  may_set key f f' -> key <> k -> f' !! k = f !! k.
Proof.
  intros [->|(v & ->)] Hne; [reflexivity|].
  unfold QueryProcessor.set. now rewrite lookup_insert_ne.
Qed.

Lemma may_set_keys key f f' :
  may_set key f f' -> key ∈ facets ->
  (forall k v, f !! k = Some v -> k ∈ facets /\ exists s, v = SStr s) ->
  forall k v, f' !! k = Some v -> k ∈ facets /\ exists s, v = SStr s.
Proof.
  intros [->|(x & ->)] Hkey Hf k v; [apply Hf|].
  unfold QueryProcessor.set. destruct (decide (key = k)) as [->|Hne].
  - rewrite lookup_insert_eq. intros [= <-]. eauto.
  - rewrite lookup_insert_ne by exact Hne. apply Hf.
Qed.

Lemma extract_keys (query : string) :
  forall k v,
    QueryProcessor.extract_metadata_filters query !! k = Some v ->
    k ∈ facets /\ exists s, v = SStr s.
Proof.
  destruct (extract_shape query)
    as (f1 & f2 & f3 & f4 & f5 & f6 & a & H1 & H2 & H3 & H4 & H5 & H6 & _
        & H7 & _).
  assert (H6' : may_set "audience" f5 f6) by (right; eauto).
  assert (Hin : forall k, k ∈ facets <-> In k facets)
    by (intros k; apply list_elem_of_In).
  repeat (eapply may_set_keys; [eassumption|apply Hin; simpl; tauto|]).
  intros k v Hk. now rewrite lookup_empty in Hk.
Qed.

Lemma extract_audience (query : string) :
  exists a,
    QueryProcessor.extract_metadata_filters query !! "audience"%string
    = Some (SStr a)
    /\ a ∈ ["students"; "professionals"; "researchers"; "general"]%string.
Proof.
  destruct (extract_shape query)
    as (f1 & f2 & f3 & f4 & f5 & f6 & a & _ & _ & _ & _ & _ & H6 & Ha
        & H7 & _).
  exists a. split; [|exact Ha].
  rewrite (may_set_lookup_ne _ _ _ "audience"%string H7) by discriminate.
  subst f6. unfold QueryProcessor.set. apply lookup_insert_eq.
Qed.

(** X25. [extract_metadata_filters] never returns an empty dictionary: the
    key [audience] is always set, to one of students, professionals,
    researchers and general.  Every key is one of the seven facets, every
    value is a string, and the dictionary has between 1 and 7 entries, so
    it is truthy. *)
Theorem extract_metadata_filters_always_sets_audience :
  forall query : string,
    ascii_only query ->
    let filters := QueryProcessor.extract_metadata_filters query in
    (exists a,
       filters !! "audience"%string = Some (SStr a)
       /\ a ∈ ["students"; "professionals"; "researchers";
               "general"]%string)
    /\ (forall key v,
          filters !! key = Some v ->
          key ∈ facets /\ exists s, v = SStr s)
    /\ (1 <= size filters <= 7)%nat
    /\ dict_truthy (Some filters) = true.
Proof.
  intros query _ filters.
  pose proof (extract_audience query) as (a & Ha & Hin).
  pose proof (extract_keys query) as Hkeys. fold filters in Ha, Hkeys.
  assert (Hsize : (1 <= size filters <= 7)%nat).
  { split.
    - destruct (decide (size filters = 0%nat)) as [Hz|]; [|lia].
      apply map_size_empty_inv in Hz. rewrite Hz in Ha.
      now rewrite lookup_empty in Ha.
    - rewrite <- size_dom.
      etransitivity;
        [apply (subseteq_size _ (list_to_set facets : gset string))|].
      + intros k Hk. apply elem_of_dom in Hk as [v Hv].
        apply elem_of_list_to_set. now apply (Hkeys k v).
      + reflexivity. }
  split; [exists a; split; assumption|]. split; [exact Hkeys|].
  split; [exact Hsize|].
  unfold dict_truthy, dict_len. destruct (Z.eqb_spec (Z.of_nat (size filters)) 0); [lia|reflexivity].
Qed.

Lemma starts_with_app (p s : list ascii) : starts_with p (p ++ s) = true.
Proof.
  induction p as [|c p IH]; [reflexivity|]. simpl.
  now rewrite Ascii.eqb_refl, IH.
Qed.

Lemma contains_chars_app (pre p post : list ascii) :
  contains_chars p (pre ++ p ++ post) = true.
Proof.
  induction pre as [|c pre IH].
  - cbn [app]. pose proof (starts_with_app p post) as H.
    destruct (p ++ post); cbn [contains_chars]; now rewrite H.
  - cbn [app contains_chars]. rewrite IH. apply orb_true_r.
Qed.

Lemma chars_append (a b : string) :
  chars (String.append a b) = chars a ++ chars b.
Proof.
  induction a as [|c a IH]; [reflexivity|]. simpl. now rewrite <- IH.
Qed.

Lemma contains_append (pre kw post : string) :
  contains kw (String.append pre (String.append kw post)) = true.
Proof.
  unfold contains. rewrite !chars_append. apply contains_chars_app.
Qed.

Lemma any_in_true (kws : list string) (kw ql : string) :
  kw ∈ kws -> contains kw ql = true -> QueryProcessor.any_in kws ql = true.
Proof.
  intros Hin Hc. unfold QueryProcessor.any_in. apply existsb_exists.
  exists kw. split; [now apply list_elem_of_In|exact Hc].
Qed.

(** X26. The keywords of [extract_metadata_filters] are looked for as
    substrings of the lower-cased query, not as words.  For each facet the
    alternative tested first wins: as soon as one of its keywords occurs
    anywhere in the lower-cased query, also inside another word, the facet
    has that alternative's value, whatever else the query holds. *)
Theorem extract_metadata_filters_matches_substrings :
  forall (query pre post key value kw : string) (kws : list string),
    ascii_only query ->
    (key, value, kws) ∈ first_alternatives ->
    kw ∈ kws ->
    lower query = String.append pre (String.append kw post) ->
    QueryProcessor.extract_metadata_filters query !! key
    = Some (SStr value).
Proof.
  intros query pre post key value kw kws _ Halt Hkw Hq.
  assert (Hany : QueryProcessor.any_in kws (lower query) = true).
  { apply (any_in_true kws kw); [exact Hkw|].
    rewrite Hq. apply contains_append. }
  destruct (extract_shape query)
    as (f1 & f2 & f3 & f4 & f5 & f6 & a & H1 & H2 & H3 & H4 & H5 & H6 & _
        & H7 & Hfirst).
  assert (H6' : may_set "audience" f5 f6) by (right; eauto).
  rewrite Forall_forall in Hfirst.
  specialize (Hfirst _ Halt Hany). cbn [fst snd] in Hfirst.
  unfold first_alternatives in Halt.
  repeat (apply elem_of_cons in Halt as [Halt|Halt];
          [injection Halt as -> -> ->|]);
    [..|now apply elem_of_nil in Halt].
  all: repeat match goal with
         | H : may_set ?k ?f ?g |- ?g !! ?key = _ =>
             first [ rewrite (may_set_lookup_ne k f g key H) by discriminate
                   | rewrite (Hfirst f g)
                       by (repeat first [ apply list_elem_of_here
                                        | apply list_elem_of_further ]);
                     unfold QueryProcessor.set; apply lookup_insert_eq ]
         end.
Qed.

(** ** The text functions at work on concrete data *)

Lemma ascii_only_check (s : string) :
  forallb (fun c => (nat_of_ascii c <? 128)%nat) (chars s) = true ->
  ascii_only s.
Proof.
  intros H. apply Forall_forall. intros c Hc.
  rewrite forallb_forall in H. apply Nat.ltb_lt, H.
  now apply list_elem_of_In.
Qed.

Lemma chunk_returns_the_windows_witness :
  SlidingWindowChunker.chunk 10 Excerpt.narrow "a b c d e"
  = Some (SlidingWindowChunker.RList ["a b c"; "c d e"; "e"]%string).
Proof.
  rewrite (chunk_returns_the_windows Excerpt.narrow "a b c d e" 10).
  - reflexivity.
  - apply ascii_only_check. reflexivity.
  - discriminate.
  - simpl. lia.
  - vm_compute. lia.
Defined.

Lemma chunk_never_returns_without_progress_witness :
  SlidingWindowChunker.chunk 1000 Excerpt.stuck "a b" = None.
Proof.
  apply chunk_never_returns_without_progress.
  - apply ascii_only_check. reflexivity.
  - simpl. lia.
  - vm_compute. discriminate.
Defined.

Lemma chunk_of_text_without_tokens_witness :
  SlidingWindowChunker.chunk 1 Excerpt.stuck ""
  = Some SlidingWindowChunker.RNone
  /\ SlidingWindowChunker.chunk 1 Excerpt.stuck "   "
     = Some (SlidingWindowChunker.RList []).
Proof.
  split.
  - apply (chunk_of_text_without_tokens Excerpt.stuck "" 1).
    + apply ascii_only_check. reflexivity.
    + constructor.
    + lia.
  - apply (chunk_of_text_without_tokens Excerpt.stuck "   " 1).
    + apply ascii_only_check. reflexivity.
    + repeat constructor.
    + lia.
Defined.

Lemma chunk_windows_overlap_and_cover_witness :
  exists chunks,
    SlidingWindowChunker.chunk 6 Excerpt.narrow "a b c d e"
    = Some (SlidingWindowChunker.RList chunks)
    /\ concat ((fun c => take 2 (split c)) <$> chunks)
       = ["a"; "b"; "c"; "d"; "e"]%string.
Proof.
  destruct (chunk_windows_overlap_and_cover Excerpt.narrow "a b c d e")
    as (chunks & Hrun & _ & Hcover & _).
  - apply ascii_only_check. reflexivity.
  - discriminate.
  - simpl. lia.
  - exists chunks. split; [exact Hrun|exact Hcover].
Defined.

Lemma clean_is_word_by_word_witness :
  QueryCleaner.clean Excerpt.question = "whats new  in ai??"%string.
Proof.
  destruct (clean_is_word_by_word Excerpt.question) as (-> & _).
  - apply ascii_only_check. reflexivity.
  - reflexivity.
Defined.

Lemma clean_for_embedding_normal_form_witness :
  QueryCleaner.clean_for_embedding Excerpt.question
  = "whats new in ai??"%string.
Proof.
  destruct (clean_for_embedding_normal_form Excerpt.question) as (-> & _).
  - apply ascii_only_check. reflexivity.
  - reflexivity.
Defined.

Lemma extract_metadata_filters_always_sets_audience_witness :
  dict_truthy (Some (QueryProcessor.extract_metadata_filters "hello")) = true.
Proof.
  apply (extract_metadata_filters_always_sets_audience "hello").
  apply ascii_only_check. reflexivity.
Defined.

Lemma extract_metadata_filters_matches_substrings_witness :
  QueryProcessor.extract_metadata_filters "Explain the rain"
    !! "domain"%string
  = Some (SStr "technology").
Proof.
  apply (extract_metadata_filters_matches_substrings
           "Explain the rain" "expl" "n the rain" "domain" "technology" "ai"
           ["software"; "ai"; "ml"; "cloud"; "api"; "database";
            "programming"; "coding"]%string).
  - apply ascii_only_check. reflexivity.
  - repeat first [apply list_elem_of_here | apply list_elem_of_further].
  - repeat first [apply list_elem_of_here | apply list_elem_of_further].
  - reflexivity.
Defined.

(** * Ingestion: cleaner pages, document chunks and what retrieval sees *)

(** ** TextCleaner._find_repeated *)

Lemma most_common_from (entries : list (string * Z)) :
  forall b : string * Z,
  exists e,
    foldl (fun best entry =>
             match best with
             | None => Some entry
             | Some b => if b.2 <? entry.2 then Some entry else Some b
             end) (Some b) entries = Some e
    /\ ((e = b /\ Forall (fun p => p.2 <= b.2) entries)
        \/ (exists pre post,
              entries = pre ++ e :: post
              /\ b.2 < e.2
              /\ Forall (fun p => p.2 < e.2) pre
              /\ Forall (fun p => p.2 <= e.2) post)).
Proof.
  induction entries as [|x l IH]; intros b.
  - exists b. split; [reflexivity|]. left. split; [reflexivity|constructor].
  - cbn [foldl]. destruct (Z.ltb_spec b.2 x.2) as [Hlt|Hge].
    + destruct (IH x) as (e & Hrun & [[-> Hall]|(pre & post & -> & Hb & Hpre & Hpost)]).
      * exists x. split; [exact Hrun|]. right. exists [], l.
        repeat split; [exact Hlt|constructor|exact Hall].
      * exists e. split; [exact Hrun|]. right. exists (x :: pre), post.
        repeat split; [lia|constructor; [exact Hb|exact Hpre]|exact Hpost].
    + destruct (IH b) as (e & Hrun & [[-> Hall]|(pre & post & -> & Hb & Hpre & Hpost)]).
      * exists b. split; [exact Hrun|]. left. split; [reflexivity|].
        constructor; [exact Hge|exact Hall].
      * exists e. split; [exact Hrun|]. right. exists (x :: pre), post.
        repeat split; [exact Hb|constructor; [lia|exact Hpre]|exact Hpost].
Qed.

Lemma most_common_1_spec (entries : list (string * Z)) :
  match TextCleaner.most_common_1 entries with
  | None => entries = []
  | Some e =>
      exists pre post,
        entries = pre ++ e :: post
        /\ Forall (fun p => p.2 < e.2) pre
        /\ Forall (fun p => p.2 <= e.2) post
  end.
Proof.
  unfold TextCleaner.most_common_1. destruct entries as [|x l]; [reflexivity|].
  cbn [foldl].
  destruct (most_common_from l x)
    as (e & -> & [[-> Hall]|(pre & post & -> & Hb & Hpre & Hpost)]).
  - exists [], l. repeat split; [constructor|exact Hall].
  - exists (x :: pre), post.
    repeat split; [constructor; [exact Hb|exact Hpre]|exact Hpost].
Qed.

Lemma first_seen_elem (items : list string) (x : string) :
  x ∈ TextCleaner.first_seen items <-> x ∈ items.
Proof.
  induction items as [|y items IH]; [reflexivity|].
  cbn [TextCleaner.first_seen]. rewrite !elem_of_cons, list_elem_of_filter, IH.
  destruct (decide (x = y)); tauto.
Qed.

Lemma filter_split {A} (P : A -> Prop) `{!forall x, Decision (P x)}
    (l : list A) (pre post : list A) (k : A) :
  filter P l = pre ++ k :: post ->
  exists pre' post',
    l = pre' ++ k :: post' /\ filter P pre' = pre /\ filter P post' = post.
Proof.
  revert pre. induction l as [|x l IH]; intros pre Hf.
  - now destruct pre.
  - rewrite filter_cons in Hf. destruct (decide (P x)) as [Hx|Hx].
    + destruct pre as [|p pre].
      * injection Hf as -> Hf'. exists [], l. repeat split. exact Hf'.
      * injection Hf as -> Hf'.
        destruct (IH pre Hf') as (pre' & post' & -> & <- & <-).
        exists (p :: pre'), post'. repeat split.
        rewrite filter_cons. now destruct (decide (P p)).
    + destruct (IH pre Hf) as (pre' & post' & -> & <- & <-).
      exists (x :: pre'), post'. repeat split.
      rewrite filter_cons. now destruct (decide (P x)).
Qed.

(** The keys of a counter stand in the order in which the items first
    occur. *)
Lemma first_seen_split (items : list string) :
  forall pre k post,
    TextCleaner.first_seen items = pre ++ k :: post ->
    exists before after,
      items = before ++ k :: after
      /\ forall x, x ∈ before -> x ∈ pre.
Proof.
  induction items as [|x items IH]; intros pre k post H.
  - now destruct pre.
  - cbn [TextCleaner.first_seen] in H. destruct pre as [|p pre].
    + injection H as -> _. exists [], items. split; [reflexivity|].
      intros y Hy. now apply elem_of_nil in Hy.
    + injection H as -> H'.
      apply filter_split in H' as (pre' & post' & Hfs & Hpre & _).
      destruct (IH _ _ _ Hfs) as (before & after & -> & Hbefore).
      exists (p :: before), after. split; [reflexivity|].
      intros y Hy. apply elem_of_cons in Hy as [->|Hy];
        [apply list_elem_of_here|].
      destruct (decide (y = p)) as [->|Hne]; [apply list_elem_of_here|].
      apply list_elem_of_further. rewrite <- Hpre.
      apply list_elem_of_filter. split; [exact Hne|]. now apply Hbefore.
Qed.

Lemma occurrences_nonneg (x : string) (items : list string) :
  0 <= TextCleaner.occurrences x items.
Proof. unfold TextCleaner.occurrences. lia. Qed.

Lemma occurrences_present (x : string) (items : list string) :
  x ∈ items -> 0 < TextCleaner.occurrences x items.
Proof.
  intros Hx. unfold TextCleaner.occurrences.
  destruct (filter (fun y => y = x) items) as [|y l] eqn:E; [|simpl; lia].
  exfalso. now apply (filter_nil_not_elem_of _ _ x E).
Qed.

Lemma find_repeated_spec (lines : list string) (min_repeats : Z) :
  let items := DescribeIngest.substantial_lines lines in
  match TextCleaner._find_repeated lines min_repeats with
  | Some line =>
      min_repeats <= TextCleaner.occurrences line items
      /\ (forall other,
            TextCleaner.occurrences other items
            <= TextCleaner.occurrences line items)
      /\ exists before after,
           items = before ++ line :: after
           /\ forall other,
                other ∈ before ->
                TextCleaner.occurrences other items
                < TextCleaner.occurrences line items
  | None =>
      forall line,
        line ∈ items -> TextCleaner.occurrences line items < min_repeats
  end.
Proof.
  intros items. unfold TextCleaner._find_repeated.
  fold (DescribeIngest.substantial_lines lines). fold items.
  pose proof (most_common_1_spec (TextCleaner.Counter items)) as Hmc.
  destruct (TextCleaner.most_common_1 (TextCleaner.Counter items))
    as [[k c]|].
  - destruct Hmc as (pre & post & Hsplit & Hpre & Hpost).
    unfold TextCleaner.Counter in Hsplit.
    apply fmap_app_inv in Hsplit as (kpre & krest & -> & Hrest & Hkeys).
    symmetry in Hrest. apply fmap_cons_inv in Hrest
      as (k' & kpost & [= <- ->] & -> & ->).
    assert (Hall : forall other,
               TextCleaner.occurrences other items
               <= TextCleaner.occurrences k items).
    { intros other. destruct (decide (other ∈ items)) as [Hin|Hout].
      - apply first_seen_elem in Hin. rewrite Hkeys in Hin.
        apply elem_of_app in Hin as [Hin|Hin].
        + rewrite Forall_fmap, Forall_forall in Hpre.
          specialize (Hpre _ Hin). simpl in Hpre. lia.
        + apply elem_of_cons in Hin as [->|Hin]; [lia|].
          rewrite Forall_fmap, Forall_forall in Hpost.
          specialize (Hpost _ Hin). simpl in Hpost. lia.
      - unfold TextCleaner.occurrences at 1.
        destruct (filter (fun y => y = other) items) as [|y l] eqn:E.
        + simpl. apply occurrences_nonneg.
        + exfalso. apply Hout.
          assert (Hy : y ∈ filter (fun y => y = other) items)
            by (rewrite E; apply list_elem_of_here).
          apply list_elem_of_filter in Hy as [-> Hy]. exact Hy. }
    assert (Hfirst : exists before after,
               items = before ++ k :: after
               /\ forall other,
                    other ∈ before ->
                    TextCleaner.occurrences other items
                    < TextCleaner.occurrences k items).
    { destruct (first_seen_split _ _ _ _ Hkeys)
        as (before & after & Hitems & Hbefore).
      exists before, after. split; [exact Hitems|].
      intros other Hin. apply Hbefore in Hin.
      rewrite Forall_fmap, Forall_forall in Hpre.
      specialize (Hpre _ Hin). exact Hpre. }
    destruct (Z.leb_spec min_repeats (TextCleaner.occurrences k items)).
    + repeat split; assumption.
    + intros line _. specialize (Hall line). lia.
  - intros line Hin. unfold TextCleaner.Counter in Hmc.
    apply fmap_nil_inv in Hmc. apply first_seen_elem in Hin.
    rewrite Hmc in Hin. now apply elem_of_nil in Hin.
Qed.

(** X27. [_find_repeated] counts the lines that are not empty and have
    more than two characters once stripped.  When it returns a line, that
    line occurs at least [min_repeats] times among them, no line occurs
    more often, and every line that stands before its first occurrence
    occurs strictly less often: of several most frequent lines the one
    seen first is returned.  When it returns [None], no counted line
    occurs [min_repeats] times. *)
Theorem find_repeated_is_first_most_frequent :
  forall (lines : list string) (min_repeats : Z),
    Forall ascii_only lines ->
    let items := DescribeIngest.substantial_lines lines in
    match TextCleaner._find_repeated lines min_repeats with
    | Some line =>
        min_repeats <= TextCleaner.occurrences line items
        /\ (forall other,
              TextCleaner.occurrences other items
              <= TextCleaner.occurrences line items)
        /\ exists before after,
             items = before ++ line :: after
             /\ forall other,
                  other ∈ before ->
                  TextCleaner.occurrences other items
                  < TextCleaner.occurrences line items
    | None =>
        forall line,
          line ∈ items -> TextCleaner.occurrences line items < min_repeats
    end.
Proof. intros lines min_repeats _. apply find_repeated_spec. Qed.

(** ** TextCleaner.clean_with_metadata *)

Ltac in_list :=
  repeat first [ apply list_elem_of_here | apply list_elem_of_further ].

Ltac not_in_list :=
  let H := fresh in
  intros H;
  repeat (apply elem_of_cons in H as [H|H]; [discriminate|]);
  now apply elem_of_nil in H.

(** Which key of a chain of inserts a lookup found. *)
Ltac key_of H k :=
  repeat match type of H with
         | <[ ?key := _ ]> _ !! k = _ =>
             destruct (decide (key = k)) as [<-|?];
             [in_list|rewrite lookup_insert_ne in H by done]
         end;
  try (now rewrite lookup_empty in H).

Section CleanerFacts.
Variable _apply_enhanced_cleaning : string -> string.
Variable _detect_section_title :
  list string -> option string -> option string -> option string.
Variable _extract_global_metadata :
  list string -> option string -> option string -> gmap string scalar.

Lemma marked_some (lines : list string) (page_num : Z)
    (global_line : option string) (line : string) :
  TextCleaner.marked lines page_num global_line = Some line ->
  global_line = Some line /\ lines !! Z.to_nat (page_num - 1) = Some line.
Proof.
  unfold TextCleaner.marked.
  destruct (lines !! Z.to_nat (page_num - 1)) as [l|]; [|discriminate].
  destruct global_line as [r|]; [|discriminate].
  destruct (String.eqb_spec l r) as [->|]; [|discriminate].
  now intros [= ->].
Qed.

Lemma clean_page_none first_lines last_lines global_header global_footer
    page_num page :
  TextCleaner.clean_page _apply_enhanced_cleaning _detect_section_title
    first_lines last_lines global_header global_footer page_num page = None
  <-> TextCleaner.page_lines page = [].
Proof.
  unfold TextCleaner.clean_page.
  destruct (TextCleaner.page_lines page); split; congruence.
Qed.

Lemma clean_page_some first_lines last_lines global_header global_footer
    page_num page p :
  TextCleaner.clean_page _apply_enhanced_cleaning _detect_section_title
    first_lines last_lines global_header global_footer page_num page = Some p ->
  TextCleaner.page_lines page <> []
  /\ TextCleaner.metadata p !! "page_number"%string = Some (SInt page_num)
  /\ TextCleaner.metadata p !! "char_count"%string
     = Some (SInt (len (TextCleaner.text p)))
  /\ (exists n,
        TextCleaner.metadata p !! "line_count"%string = Some (SInt n)
        /\ 0 <= n <= Z.of_nat (length (TextCleaner.page_lines page)))
  /\ (forall k v,
        TextCleaner.metadata p !! k = Some v -> k ∈ DescribeIngest.page_keys)
  /\ (forall v,
        TextCleaner.metadata p !! "header"%string = Some v ->
        exists h, v = SStr h /\ global_header = Some h
                  /\ first_lines !! Z.to_nat (page_num - 1) = Some h)
  /\ (forall v,
        TextCleaner.metadata p !! "footer"%string = Some v ->
        exists h, v = SStr h /\ global_footer = Some h
                  /\ last_lines !! Z.to_nat (page_num - 1) = Some h).
Proof.
  unfold TextCleaner.clean_page.
  destruct (TextCleaner.page_lines page) as [|l0 ls] eqn:Hlines;
    [discriminate|].
  set (lines := l0 :: ls).
  set (cleaned_lines := filter _ (_apply_enhanced_cleaning <$> lines)).
  assert (Hlen : (length cleaned_lines <= length lines)%nat).
  { unfold cleaned_lines. etransitivity; [apply length_filter|].
    now rewrite length_fmap. }
  pose proof (marked_some first_lines page_num global_header) as Hh.
  pose proof (marked_some last_lines page_num global_footer) as Hf.
  destruct (TextCleaner.marked first_lines page_num global_header) as [h|];
    destruct (TextCleaner.marked last_lines page_num global_footer) as [f|];
    destruct (_detect_section_title cleaned_lines global_header
                global_footer) as [t|];
    try destruct (String.eqb t "");
    intros [= <-]; cbn [TextCleaner.text TextCleaner.metadata];
    (split; [discriminate|]);
    (split; [now simplify_map_eq|]);
    (split; [now simplify_map_eq|]);
    (split; [exists (Z.of_nat (length cleaned_lines));
             split; [now simplify_map_eq|lia]|]);
    (split; [intros k v Hk; unfold DescribeIngest.page_keys;
             key_of Hk k|]);
    (split; intros v Hv; simplify_map_eq;
       first [ destruct (Hh _ eq_refl); eauto
             | destruct (Hf _ eq_refl); eauto ]).
Qed.

Lemma clean_pages_numbers first_lines last_lines global_header global_footer
    (entries : list (Z * string)) :
  (fun p => TextCleaner.metadata p !! "page_number"%string)
  <$> omap (fun entry : Z * string =>
              TextCleaner.clean_page _apply_enhanced_cleaning
                _detect_section_title first_lines last_lines global_header
                global_footer entry.1 entry.2) entries
  = (fun entry : Z * string => Some (SInt entry.1))
    <$> filter (fun entry : Z * string =>
                  TextCleaner.page_lines entry.2 <> []) entries.
Proof.
  induction entries as [|[n page] entries IH]; [reflexivity|].
  cbn [omap list_omap fst snd]. rewrite filter_cons. cbn [snd].
  destruct (TextCleaner.clean_page _ _ _ _ _ _ n page) as [p|] eqn:Hp.
  - apply clean_page_some in Hp as (Hlines & Hnum & _).
    rewrite decide_True by exact Hlines.
    cbn [fmap list_fmap fst]. rewrite Hnum. f_equal. exact IH.
  - apply clean_page_none in Hp. rewrite decide_False by tauto. exact IH.
Qed.

Lemma clean_with_metadata_unfold (text page_delimiter : string) :
  page_delimiter <> ""%string ->
  let raw := DescribeIngest.raw_pages text page_delimiter in
  exists cleaned,
    TextCleaner.clean_with_metadata _apply_enhanced_cleaning
      _detect_section_title _extract_global_metadata text page_delimiter
    = Ok cleaned
    /\ TextCleaner.pages cleaned
       = omap (fun entry : Z * string =>
                 TextCleaner.clean_page _apply_enhanced_cleaning
                   _detect_section_title
                   (TextCleaner.collect_lines raw).1
                   (TextCleaner.collect_lines raw).2
                   (TextCleaner._find_repeated
                      (TextCleaner.collect_lines raw).1 3)
                   (TextCleaner._find_repeated
                      (TextCleaner.collect_lines raw).2 3)
                   entry.1 entry.2)
           (Py.enumerate 1 raw).
Proof.
  intros Hsep raw. unfold TextCleaner.clean_with_metadata.
  unfold raw, DescribeIngest.raw_pages.
  destruct (String.eqb text ""); [eexists; split; reflexivity|].
  unfold Lines.split_on.
  destruct (String.eqb_spec page_delimiter ""); [contradiction|].
  destruct (contains page_delimiter text);
    destruct (TextCleaner.collect_lines _) as [first_lines last_lines];
    eexists; split; reflexivity.
Qed.
End CleanerFacts.

Lemma enumerate_bounds {A} (l : list A) (start n : Z) (x : A) :
  (n, x) ∈ Py.enumerate start l ->
  start <= n < start + Z.of_nat (length l).
Proof.
  intros Hin. apply list_elem_of_lookup in Hin as [i Hi].
  rewrite enumerate_lookup in Hi.
  destruct (l !! i) as [y|] eqn:Hy; [|discriminate].
  injection Hi as <- <-. apply lookup_lt_Some in Hy. lia.
Qed.

(** X28. With a non-empty page delimiter [clean_with_metadata] returns: it
    cuts the text at the delimiter and keeps the pages that have a line.
    A page keeps the number of its place in the cut (from 1), so a blank
    page leaves a gap in the page numbers.  The metadata of a page has no
    key besides page_number, char_count, line_count, header, footer and
    section_title; char_count is the length of the page's text; a header
    or footer entry is the line [_find_repeated] found among the first or
    last lines of the pages. *)
Theorem clean_with_metadata_numbers_pages :
  forall (_apply_enhanced_cleaning : string -> string)
         (_detect_section_title :
            list string -> option string -> option string -> option string)
         (_extract_global_metadata :
            list string -> option string -> option string
            -> gmap string scalar)
         (text page_delimiter : string),
    ascii_only text ->
    page_delimiter <> ""%string ->
    let raw := DescribeIngest.raw_pages text page_delimiter in
    exists cleaned,
      TextCleaner.clean_with_metadata _apply_enhanced_cleaning
        _detect_section_title _extract_global_metadata text page_delimiter
      = Ok cleaned
      /\ (fun p => TextCleaner.metadata p !! "page_number"%string)
         <$> TextCleaner.pages cleaned
         = (fun entry : Z * string => Some (SInt entry.1))
           <$> DescribeIngest.pages_with_lines raw
      /\ Forall
           (fun p =>
              (forall k v,
                 TextCleaner.metadata p !! k = Some v ->
                 k ∈ DescribeIngest.page_keys)
              /\ TextCleaner.metadata p !! "char_count"%string
                 = Some (SInt (len (TextCleaner.text p)))
              /\ (exists n,
                    TextCleaner.metadata p !! "page_number"%string
                    = Some (SInt n)
                    /\ 1 <= n <= Z.of_nat (length raw))
              /\ (forall v,
                    TextCleaner.metadata p !! "header"%string = Some v ->
                    Some v
                    = SStr <$> TextCleaner._find_repeated
                                 (TextCleaner.collect_lines raw).1 3)
              /\ (forall v,
                    TextCleaner.metadata p !! "footer"%string = Some v ->
                    Some v
                    = SStr <$> TextCleaner._find_repeated
                                 (TextCleaner.collect_lines raw).2 3))
           (TextCleaner.pages cleaned).
Proof.
  intros clean detect extract text page_delimiter _ Hsep raw.
  destruct (clean_with_metadata_unfold clean detect extract text
              page_delimiter Hsep) as (cleaned & Hrun & Hpages).
  fold raw in Hpages. exists cleaned. split; [exact Hrun|]. split.
  - rewrite Hpages. unfold DescribeIngest.pages_with_lines.
    apply clean_pages_numbers. exact extract.
  - rewrite Hpages. apply Forall_forall. intros p Hp.
    apply list_elem_of_omap in Hp as ([n page] & Hin & Hp).
    cbn [fst snd] in Hp.
    apply clean_page_some in Hp
      as (_ & Hnum & Hchars & _ & Hkeys & Hheader & Hfooter).
    apply enumerate_bounds in Hin.
    split; [exact Hkeys|]. split; [exact Hchars|].
    split; [exists n; split; [exact Hnum|lia]|].
    split; intros v Hv.
    + destruct (Hheader v Hv) as (h & -> & -> & _). reflexivity.
    + destruct (Hfooter v Hv) as (h & -> & -> & _). reflexivity.
Qed.

(** ** process_all_documents *)

Lemma enumerate_fst_seqZ {A} (l : list A) (start : Z) :
  fst <$> Py.enumerate start l = seqZ start (Z.of_nat (length l)).
Proof.
  revert start. induction l as [|x l IH]; intros start; [reflexivity|].
  cbn [Py.enumerate fmap list_fmap length fst].
  rewrite Nat2Z.inj_succ, seqZ_cons by lia. rewrite IH.
  do 2 f_equal. lia.
Qed.

Section ProcessFacts.
Variable _apply_enhanced_cleaning : string -> string.
Variable _detect_section_title :
  list string -> option string -> option string -> option string.
Variable _extract_global_metadata :
  list string -> option string -> option string -> gmap string scalar.
Variable sliding_chunk : string -> list string.
Variable recursive_chunk : string -> list string.

(** What [process_all_documents] relies on in a page of the cleaner. *)
Let page_ok (p : TextCleaner.page) : Prop :=
  (forall k v,
     TextCleaner.metadata p !! k = Some v -> k ∈ DescribeIngest.page_keys)
  /\ exists n, TextCleaner.metadata p !! "page_number"%string = Some (SInt n).

Let strategy (use_qna : bool) : string :=
  if use_qna then "qna"%string else "recursive"%string.

Lemma chunk_metadata_ok chunk_count filename use_qna page chunk_text :
  page_ok page ->
  let m := DocumentProcessor.chunk_metadata chunk_count filename use_qna
             page in
  m !! "chunk_id"%string = Some (SInt chunk_count)
  /\ DescribeIngest.chunk_of filename (strategy use_qna)
       {| DocumentProcessor.text := chunk_text;
          DocumentProcessor.metadata := m |}.
Proof.
  intros [Hkeys (n & Hn)] m.
  assert (Hnone : forall k,
             k ∉ DescribeIngest.page_keys ->
             TextCleaner.metadata page !! k = None).
  { intros k Hk. destruct (TextCleaner.metadata page !! k) as [v|] eqn:E;
      [|reflexivity]. exfalso. apply Hk. now apply (Hkeys k v). }
  assert (Hown : forall k,
             k ∉ DescribeIngest.page_keys ->
             m !! k
             = (<[ "chunk_id"%string := SInt chunk_count ]>
                  (<[ "page_number"%string :=
                        default (SStr "N/A")
                          (TextCleaner.metadata page !! "page_number"%string) ]>
                     (<[ "filename"%string := SStr filename ]>
                        (<[ "source_document"%string := SStr filename ]>
                           (<[ "chunking_strategy"%string :=
                                 SStr (if use_qna then "qna"
                                       else "recursive")%string ]>
                              (∅ : gmap string scalar)))))) !! k).
  { intros k Hk. unfold m, DocumentProcessor.chunk_metadata.
    apply lookup_union_r. now apply Hnone. }
  unfold DescribeIngest.chunk_of. cbn [DocumentProcessor.metadata].
  split; [rewrite Hown by (unfold DescribeIngest.page_keys; not_in_list);
          now simplify_map_eq|].
  split; [rewrite Hown by (unfold DescribeIngest.page_keys; not_in_list);
          now simplify_map_eq|].
  split; [rewrite Hown by (unfold DescribeIngest.page_keys; not_in_list);
          now simplify_map_eq|].
  split; [rewrite Hown by (unfold DescribeIngest.page_keys; not_in_list);
          now simplify_map_eq|].
  split.
  - exists n. unfold m, DocumentProcessor.chunk_metadata.
    now apply lookup_union_Some_l.
  - intros key v Hv. unfold m, DocumentProcessor.chunk_metadata in Hv.
    apply elem_of_app. apply lookup_union_Some_raw in Hv as [Hv|[_ Hv]].
    + right. now apply (Hkeys key v).
    + left. unfold DescribeIngest.chunk_keys. key_of Hv key.
Qed.

Lemma numbered_from_cons (n : Z) (c : DocumentProcessor.chunk_data)
    (chunks : list DocumentProcessor.chunk_data) :
  DocumentProcessor.metadata c !! "chunk_id"%string = Some (SInt n) ->
  DescribeIngest.numbered_from (n + 1) chunks ->
  DescribeIngest.numbered_from n (c :: chunks).
Proof.
  unfold DescribeIngest.numbered_from. intros Hc Hrest.
  cbn [fmap list_fmap length]. rewrite Nat2Z.inj_succ, seqZ_cons by lia.
  cbn [fmap list_fmap]. rewrite Hc, Hrest.
  replace (Z.succ n) with (n + 1) by lia.
  replace (Z.pred (Z.succ (Z.of_nat (length chunks))))
    with (Z.of_nat (length chunks)) by lia.
  reflexivity.
Qed.

Lemma numbered_from_app (n : Z)
    (first rest : list DocumentProcessor.chunk_data) :
  DescribeIngest.numbered_from n first ->
  DescribeIngest.numbered_from (n + Z.of_nat (length first)) rest ->
  DescribeIngest.numbered_from n (first ++ rest).
Proof.
  unfold DescribeIngest.numbered_from. intros Hfirst Hrest.
  rewrite fmap_app, length_app, Nat2Z.inj_add, seqZ_app by lia.
  rewrite fmap_app, Hfirst, Hrest. reflexivity.
Qed.

Lemma add_chunks_spec filename use_qna page :
  page_ok page ->
  forall (chunks : list string) (n : Z)
         (all : list DocumentProcessor.chunk_data),
  exists new,
    DocumentProcessor.add_chunks filename use_qna page (n, all) chunks
    = (n + Z.of_nat (length new), all ++ new)
    /\ DescribeIngest.numbered_from n new
    /\ Forall (DescribeIngest.chunk_of filename (strategy use_qna)) new.
Proof.
  intros Hpage chunks. induction chunks as [|t chunks IH]; intros n all.
  - exists []. cbn. rewrite Z.add_0_r, app_nil_r.
    repeat split; constructor.
  - unfold DocumentProcessor.add_chunks in *. cbn [foldl fst snd].
    destruct (IH (n + 1) (all ++ [{| DocumentProcessor.text := t;
                                    DocumentProcessor.metadata :=
                                      DocumentProcessor.chunk_metadata n
                                        filename use_qna page |}]))
      as (new & -> & Hnum & Hall).
    destruct (chunk_metadata_ok n filename use_qna page t Hpage)
      as [Hid Hc].
    eexists (_ :: new). split; [|split].
    + rewrite <- app_assoc. cbn [app length]. f_equal. lia.
    + now apply numbered_from_cons.
    + constructor; [exact Hc|exact Hall].
Qed.

Lemma add_pages_spec filename use_qna :
  forall (pages : list TextCleaner.page),
    Forall page_ok pages ->
    forall (n : Z) (all : list DocumentProcessor.chunk_data),
    exists new,
      foldl (DocumentProcessor.add_page sliding_chunk recursive_chunk
               filename use_qna) (n, all) pages
      = (n + Z.of_nat (length new), all ++ new)
      /\ DescribeIngest.numbered_from n new
      /\ Forall (DescribeIngest.chunk_of filename (strategy use_qna)) new.
Proof.
  induction 1 as [|page pages Hpage _ IH]; intros n all.
  - exists []. cbn. rewrite Z.add_0_r, app_nil_r.
    repeat split; constructor.
  - cbn [foldl].
    assert (Hstep : exists first,
               DocumentProcessor.add_page sliding_chunk recursive_chunk
                 filename use_qna (n, all) page
               = (n + Z.of_nat (length first), all ++ first)
               /\ DescribeIngest.numbered_from n first
               /\ Forall (DescribeIngest.chunk_of filename
                            (strategy use_qna)) first).
    { unfold DocumentProcessor.add_page.
      destruct (String.eqb (TextCleaner.text page) "").
      - exists []. cbn. rewrite Z.add_0_r, app_nil_r.
        repeat split; constructor.
      - apply add_chunks_spec, Hpage. }
    destruct Hstep as (first & -> & Hnum1 & Hall1).
    destruct (IH (n + Z.of_nat (length first)) (all ++ first))
      as (rest & -> & Hnum2 & Hall2).
    exists (first ++ rest). split; [|split].
    + rewrite <- app_assoc, length_app. f_equal. lia.
    + now apply numbered_from_app.
    + apply Forall_app. split; assumption.
Qed.

Lemma cleaned_pages_ok (raw_text : string) (cleaned : TextCleaner.cleaned) :
  TextCleaner.clean_with_metadata _apply_enhanced_cleaning
    _detect_section_title _extract_global_metadata raw_text
    (String "012" "") = Ok cleaned ->
  Forall page_ok (TextCleaner.pages cleaned).
Proof.
  intros Hrun.
  destruct (clean_with_metadata_unfold _apply_enhanced_cleaning
              _detect_section_title _extract_global_metadata raw_text
              (String "012" "") ltac:(discriminate))
    as (cleaned' & Hrun' & Hpages).
  rewrite Hrun in Hrun'. injection Hrun' as <-.
  rewrite Hpages. apply Forall_forall. intros p Hp.
  apply list_elem_of_omap in Hp as ([n page] & _ & Hp).
  apply clean_page_some in Hp as (_ & Hnum & _ & _ & Hkeys & _).
  split; [exact Hkeys|]. exists n. exact Hnum.
Qed.

Lemma add_document_spec (all : list DocumentProcessor.chunk_data)
    (filename raw_text : string) :
  exists new use_qna,
    DocumentProcessor.add_document _apply_enhanced_cleaning
      _detect_section_title _extract_global_metadata sliding_chunk
      recursive_chunk all filename raw_text = Ok (all ++ new)
    /\ DescribeIngest.numbered_from 1 new
    /\ Forall (DescribeIngest.chunk_of filename (strategy use_qna)) new.
Proof.
  unfold DocumentProcessor.add_document.
  destruct (clean_with_metadata_unfold _apply_enhanced_cleaning
              _detect_section_title _extract_global_metadata raw_text
              (String "012" "") ltac:(discriminate))
    as (cleaned & Hrun & _).
  rewrite Hrun. apply cleaned_pages_ok in Hrun.
  set (use_qna := HybridChunker.detect_qna_in_pages _).
  destruct (add_pages_spec filename use_qna _ Hrun 1 all)
    as (new & Hfold & Hnum & Hall).
  exists new, use_qna. rewrite Hfold. repeat split; assumption.
Qed.

Lemma process_all_documents_spec (data : list (string * string)) :
  forall all : list DocumentProcessor.chunk_data,
  exists per_document,
    foldl (fun (acc : result (list DocumentProcessor.chunk_data))
               (entry : string * string) =>
             match acc with
             | Raise e => Raise e
             | Ok all_chunks_with_metadata =>
                 DocumentProcessor.add_document _apply_enhanced_cleaning
                   _detect_section_title _extract_global_metadata
                   sliding_chunk recursive_chunk all_chunks_with_metadata
                   entry.1 entry.2
             end) (Ok all) data
    = Ok (all ++ concat per_document)
    /\ Forall2 (fun (entry : string * string) chunks =>
                  DescribeIngest.numbered_from 1 chunks
                  /\ exists use_qna,
                       Forall (DescribeIngest.chunk_of entry.1
                                 (strategy use_qna)) chunks)
         data per_document.
Proof.
  induction data as [|[filename raw_text] data IH]; intros all.
  - exists []. cbn. rewrite app_nil_r. split; [reflexivity|constructor].
  - cbn [foldl fst snd].
    destruct (add_document_spec all filename raw_text)
      as (new & use_qna & -> & Hnum & Hall).
    destruct (IH (all ++ new)) as (rest & -> & Hrest).
    exists (new :: rest). split.
    + cbn [concat]. now rewrite app_assoc.
    + constructor; [|exact Hrest]. split; [exact Hnum|].
      exists use_qna. exact Hall.
Qed.
End ProcessFacts.

(** X29. [process_all_documents] returns the chunks of the documents in
    loading order, and numbers them per document: in each document the
    chunk ids are 1, 2, 3, ... in order, so the ids start again at 1 with
    every document and do not identify a chunk across documents.  Every
    chunk of a document carries the document's name as filename and
    source_document, one chunking_strategy (qna or recursive) for the whole
    document, an integer page_number (the fallback N/A is never used), and
    no key besides the five of the processor and the six of the cleaner. *)
Theorem process_all_documents_numbers_chunks_per_document :
  forall (_apply_enhanced_cleaning : string -> string)
         (_detect_section_title :
            list string -> option string -> option string -> option string)
         (_extract_global_metadata :
            list string -> option string -> option string
            -> gmap string scalar)
         (sliding_chunk recursive_chunk : string -> list string)
         (data : list (string * string)),
    Forall (fun entry : string * string => ascii_only entry.2) data ->
    exists per_document,
      DocumentProcessor.process_all_documents _apply_enhanced_cleaning
        _detect_section_title _extract_global_metadata sliding_chunk
        recursive_chunk data = Ok (concat per_document)
      /\ Forall2
           (fun (entry : string * string) chunks =>
              DescribeIngest.numbered_from 1 chunks
              /\ exists strategy,
                   strategy ∈ ["qna"; "recursive"]%string
                   /\ Forall (DescribeIngest.chunk_of entry.1 strategy)
                        chunks)
           data per_document.
Proof.
  intros clean detect extract sliding recursive data _.
  destruct (process_all_documents_spec clean detect extract sliding
              recursive data []) as (per_document & Hrun & Hdocs).
  exists per_document. split; [exact Hrun|].
  eapply Forall2_impl; [exact Hdocs|].
  intros entry chunks [Hnum (use_qna & Hall)]. split; [exact Hnum|].
  destruct use_qna; eexists; (split; [|exact Hall]); in_list.
Qed.

(** ** What retrieval sees of an ingested chunk *)

Lemma facet_not_ingested (key : string) :
  key ∈ facets \/ key = "intent"%string ->
  key ∉ (DescribeIngest.chunk_keys ++ DescribeIngest.page_keys)%list.
Proof.
  unfold facets, DescribeIngest.chunk_keys, DescribeIngest.page_keys.
  cbn [app]. intros [Hk| ->]; [|not_in_list].
  repeat (apply elem_of_cons in Hk as [->|Hk]; [not_in_list|]).
  now apply elem_of_nil in Hk.
Qed.

Lemma stored_lookup_none (filename strategy key : string)
    (c : DocumentProcessor.chunk_data) :
  DescribeIngest.chunk_of filename strategy c ->
  key ∈ facets \/ key = "intent"%string ->
  DescribeIngest.stored (DocumentProcessor.metadata c) !! key = None.
Proof.
  intros (_ & _ & _ & _ & Hkeys) Hkey. unfold DescribeIngest.stored.
  rewrite lookup_fmap.
  destruct (DocumentProcessor.metadata c !! key) as [v|] eqn:E;
    [|reflexivity].
  exfalso. now apply (facet_not_ingested key Hkey), (Hkeys key v).
Qed.

Lemma filter_entry_unmatched (query : string) (meta : gmap string value)
    (kv : string * scalar) :
  (forall key, key ∈ facets -> meta !! key = None) ->
  kv ∈ map_to_list (QueryProcessor.extract_metadata_filters query) ->
  py_eq (dict_get meta kv.1) kv.2 = false.
Proof.
  intros Hnone Hin. destruct kv as [k v]. apply elem_of_map_to_list in Hin.
  destruct (extract_keys query k v Hin) as [Hk (s & ->)].
  cbn [fst snd]. unfold dict_get. now rewrite (Hnone k Hk).
Qed.

Lemma matches_all_ingested (query : string) (meta : gmap string value) :
  (forall key, key ∈ facets -> meta !! key = None) ->
  FAISSHNSWStore.matches_all
    (QueryProcessor.extract_metadata_filters query) meta = false.
Proof.
  intros Hnone. unfold FAISSHNSWStore.matches_all.
  destruct (forallb _ _) eqn:Hall; [|reflexivity].
  rewrite forallb_forall in Hall.
  destruct (extract_audience query) as (a & Ha & _).
  apply elem_of_map_to_list in Ha.
  pose proof (filter_entry_unmatched query meta _ Hnone Ha) as Hno.
  rewrite (Hall ("audience"%string, SStr a)) in Hno; [discriminate|].
  now apply list_elem_of_In.
Qed.

Lemma filter_none {A} (P : A -> Prop) `{!forall x, Decision (P x)}
    (l : list A) :
  Forall (fun x => ~ P x) l -> filter P l = [].
Proof.
  induction 1 as [|x l Hx _ IH]; [reflexivity|].
  rewrite filter_cons. now destruct (decide (P x)).
Qed.

Lemma meta_score_ingested (query : string) (r : SearchHit.t) :
  (forall key, key ∈ facets -> SearchHit.metadata r !! key = None) ->
  exists x,
    Retriever.meta_score_of
      (Some (QueryProcessor.extract_metadata_filters query)) r = Ok x
    /\ (x == 0)%Q.
Proof.
  intros Hnone. unfold Retriever.meta_score_of, Retriever.meta_match_count.
  rewrite filter_none.
  - destruct (dict_truthy _) eqn:Ht; [|exists 0%Q; split; reflexivity].
    unfold Py.truediv. unfold dict_truthy in Ht.
    destruct (dict_len _ =? 0); [discriminate|].
    eexists. split; [reflexivity|]. cbn [length Z.of_nat].
    unfold Qdiv. now rewrite Qmult_0_l.
  - apply Forall_forall. intros kv Hin.
    now rewrite (filter_entry_unmatched query _ kv Hnone Hin).
Qed.

Lemma intent_score_ingested (intent : option (gmap string scalar))
    (r : SearchHit.t) :
  SearchHit.metadata r !! "intent"%string = None ->
  Retriever.intent_score_of intent r = Ok 0.
Proof.
  intros Hnone. unfold Retriever.intent_score_of.
  destruct intent as [intent|]; [|reflexivity].
  destruct (dict_truthy (Some intent)); [|reflexivity].
  unfold Retriever.intent_score_fn.
  rewrite (intent_fold_count _ ∅)
    by (unfold Retriever.intent_of; now rewrite Hnone).
  rewrite filter_none; [reflexivity|].
  apply Forall_forall. intros kv _ [_ H].
  unfold scalar_get in H. now rewrite lookup_empty in H.
Qed.

Lemma search_filtered_ingested hnsw_search search_time sqrt
    (self : FAISSHNSWStore.t) (embedding : vec) (query : string) (k : Z) :
  Forall (fun meta => forall key, key ∈ facets -> meta !! key = None)
    (FAISSHNSWStore.metadata self) ->
  FAISSHNSWStore.search_with_metadata hnsw_search search_time sqrt self
    embedding (Some (QueryProcessor.extract_metadata_filters query)) k
  = (Ok [], self).
Proof.
  intros Hall. unfold FAISSHNSWStore.search_with_metadata. f_equal.
  unfold FAISSHNSWStore.search_filtered, FAISSHNSWStore.candidate_indices.
  rewrite filter_none; [reflexivity|].
  apply Forall_forall. intros [i meta] Hin. cbn [snd].
  rewrite matches_all_ingested; [intros []|].
  rewrite Forall_forall in Hall. apply Hall.
  apply list_elem_of_lookup in Hin as [n Hn].
  rewrite enumerate_lookup in Hn.
  destruct (FAISSHNSWStore.metadata self !! n) as [m|] eqn:Hm;
    [|discriminate].
  injection Hn as _ <-. now apply list_elem_of_lookup_2 in Hm.
Qed.

(** X30. No chunk [process_all_documents] produces has one of the seven
    keys [extract_metadata_filters] filters on, or an [intent] entry.  So
    for every query, a stored chunk fails the filter of
    [search_with_metadata]; a hit on it has the metadata score 0 and the
    intent score 0 in [retrieve], whatever the query intent; and on a store
    that holds such chunks only, [search_with_metadata] with the filters of
    the query returns the empty list. *)
Theorem ingested_chunks_match_no_query_filter :
  forall (_apply_enhanced_cleaning : string -> string)
         (_detect_section_title :
            list string -> option string -> option string -> option string)
         (_extract_global_metadata :
            list string -> option string -> option string
            -> gmap string scalar)
         (sliding_chunk recursive_chunk : string -> list string)
         (data : list (string * string)) (query : string),
    Forall (fun entry : string * string => ascii_only entry.2) data ->
    ascii_only query ->
    let filters := QueryProcessor.extract_metadata_filters query in
    exists chunks,
      DocumentProcessor.process_all_documents _apply_enhanced_cleaning
        _detect_section_title _extract_global_metadata sliding_chunk
        recursive_chunk data = Ok chunks
      /\ Forall
           (fun c =>
              let meta :=
                DescribeIngest.stored (DocumentProcessor.metadata c) in
              (forall key,
                 key ∈ facets \/ key = "intent"%string ->
                 meta !! key = None)
              /\ FAISSHNSWStore.matches_all filters meta = false
              /\ forall r,
                   SearchHit.metadata r = meta ->
                   (exists x,
                      Retriever.meta_score_of (Some filters) r = Ok x
                      /\ (x == 0)%Q)
                   /\ forall intent,
                        Retriever.intent_score_of intent r = Ok 0)
           chunks
      /\ forall hnsw_search search_time sqrt (self : FAISSHNSWStore.t)
                (embedding : vec) (k : Z),
           Forall (fun meta =>
                     exists c,
                       c ∈ chunks
                       /\ meta
                          = DescribeIngest.stored
                              (DocumentProcessor.metadata c))
             (FAISSHNSWStore.metadata self) ->
           FAISSHNSWStore.search_with_metadata hnsw_search search_time sqrt
             self embedding (Some filters) k
           = (Ok [], self).
Proof.
  intros clean detect extract sliding recursive data query _ _ filters.
  destruct (process_all_documents_spec clean detect extract sliding
              recursive data []) as (per_document & Hrun & Hdocs).
  exists (concat per_document). split; [exact Hrun|].
  assert (Hnone : Forall
                    (fun c =>
                       forall key,
                         key ∈ facets \/ key = "intent"%string ->
                         DescribeIngest.stored (DocumentProcessor.metadata c)
                           !! key = None) (concat per_document)).
  { apply Forall_concat. clear Hrun.
    induction Hdocs as [|entry chunks data per_document [_ (q & Hall)] _ IH];
      constructor; [|exact IH].
    eapply Forall_impl; [exact Hall|].
    intros c Hc key Hkey. now apply (stored_lookup_none _ _ key c Hc). }
  split.
  - eapply Forall_impl; [exact Hnone|]. intros c Hc meta.
    split; [exact Hc|]. split.
    + apply matches_all_ingested. intros key Hkey. apply Hc. now left.
    + intros r Hr. split.
      * apply meta_score_ingested. intros key Hkey. rewrite Hr.
        apply Hc. now left.
      * intros intent. apply intent_score_ingested. rewrite Hr.
        apply Hc. now right.
  - intros hnsw_search search_time sqrt self embedding k Hstore.
    apply search_filtered_ingested.
    eapply Forall_impl; [exact Hstore|].
    intros meta (c & Hc & ->) key Hkey.
    rewrite Forall_forall in Hnone. apply (Hnone c Hc). now left.
Qed.

(** ** Ingestion at work on concrete data *)

Lemma find_repeated_is_first_most_frequent_witness :
  TextCleaner._find_repeated Ingest.first_lines 3 = Some "Report"%string
  /\ 3 <= TextCleaner.occurrences "Report"
            (DescribeIngest.substantial_lines Ingest.first_lines).
Proof.
  assert (Hrun : TextCleaner._find_repeated Ingest.first_lines 3
                 = Some "Report"%string) by reflexivity.
  pose proof (find_repeated_is_first_most_frequent Ingest.first_lines 3)
    as Hspec.
  cbv zeta in Hspec. rewrite Hrun in Hspec.
  destruct Hspec as (Hmin & _).
  - repeat (constructor; [apply ascii_only_check; reflexivity|]).
    constructor.
  - split; [exact Hrun|exact Hmin].
Defined.

Lemma clean_with_metadata_numbers_pages_witness :
  exists cleaned,
    TextCleaner.clean_with_metadata Ingest.keep_line Ingest.no_title
      Ingest.no_metadata Ingest.three_pages (String "012" "") = Ok cleaned
    /\ (fun p => TextCleaner.metadata p !! "page_number"%string)
       <$> TextCleaner.pages cleaned
       = [Some (SInt 1); Some (SInt 3)].
Proof.
  destruct (clean_with_metadata_numbers_pages Ingest.keep_line
              Ingest.no_title Ingest.no_metadata Ingest.three_pages
              (String "012" "")) as (cleaned & Hrun & Hnum & _).
  - apply ascii_only_check. reflexivity.
  - discriminate.
  - exists cleaned. split; [exact Hrun|]. rewrite Hnum. reflexivity.
Defined.

Lemma process_all_documents_numbers_chunks_per_document_witness :
  exists per_document,
    DocumentProcessor.process_all_documents Ingest.keep_line Ingest.no_title
      Ingest.no_metadata Ingest.whole Ingest.twice Ingest.two_documents
    = Ok (concat per_document)
    /\ length per_document = 2%nat.
Proof.
  destruct (process_all_documents_numbers_chunks_per_document
              Ingest.keep_line Ingest.no_title Ingest.no_metadata
              Ingest.whole Ingest.twice Ingest.two_documents)
    as (per_document & Hrun & Hdocs).
  - repeat (constructor; [apply ascii_only_check; reflexivity|]).
    constructor.
  - exists per_document. split; [exact Hrun|].
    apply Forall2_length in Hdocs. rewrite <- Hdocs. reflexivity.
Defined.

Lemma ingested_chunks_match_no_query_filter_witness :
  exists chunks,
    DocumentProcessor.process_all_documents Ingest.keep_line Ingest.no_title
      Ingest.no_metadata Ingest.whole Ingest.twice Ingest.two_documents
    = Ok chunks
    /\ Forall
         (fun c =>
            FAISSHNSWStore.matches_all
              (QueryProcessor.extract_metadata_filters "hello")
              (DescribeIngest.stored (DocumentProcessor.metadata c))
            = false) chunks.
Proof.
  destruct (ingested_chunks_match_no_query_filter Ingest.keep_line
              Ingest.no_title Ingest.no_metadata Ingest.whole Ingest.twice
              Ingest.two_documents "hello")
    as (chunks & Hrun & Hall & _).
  - repeat (constructor; [apply ascii_only_check; reflexivity|]).
    constructor.
  - apply ascii_only_check. reflexivity.
  - exists chunks. split; [exact Hrun|].
    eapply Forall_impl; [exact Hall|]. now intros c (_ & Hc & _).
Defined.
